(** * climex: bulk download of NASA POWER data and centroid loading

    A shallow embedding of [src/climex/climex.py] and
    [src/climex/load_data.py].  Python values are carried by an inductive
    type of cells, tables are column-major data frames, exceptions are
    values, and the effects of the program (file system, network, console)
    are threaded through a state-and-exception monad over an explicit
    [World].  The behaviour of the collaborating libraries that the source
    only calls (HTTP client, date parser, clock, process scheduler) is a
    record [Env] of oracles. *)

From Stdlib Require Import ZArith Lia List String Ascii Permutation.
From stdpp Require Import base option list strings gmap pretty.
Import ListNotations.
Local Open Scope string_scope.
Local Open Scope list_scope.
Set Warnings "-register-all".

(** ** Python values *)

(** A raised exception: its class name and [str(e)]. *)
Record Exn := mkExn { exn_class : string; exn_msg : string }.

Inductive Res (A : Type) : Type :=
| Ok (a : A)
| Raise (e : Exn).
Arguments Ok {A} a.
Arguments Raise {A} e.

(** A decoded JSON document ([response.json()]).  An object is a Python
    [dict]: insertion ordered, keys unique, looked up by first match. *)
Inductive Json : Type :=
| JNull
| JBool (b : bool)
| JNum (lit : string)
| JStr (s : string)
| JArr (items : list Json)
| JObj (members : list (string * Json)).

(** A table cell.  Numbers are never computed with by the program, so a
    number is carried by its printed form. *)
Inductive Cell : Type :=
| NaN
| PyNone
| PyBool (b : bool)
| Num (repr : string)
| Str (s : string)
| Timestamp (iso : string)
| Obj (j : Json).

(** The cell a JSON value gives.  A number keeps its literal: the
    column-wise coercion of pandas (an integer beside a gap stored as a
    float) is outside the model. *)
Definition cell_of_json (j : Json) : Cell :=
  match j with
  | JNull => PyNone
  | JBool b => PyBool b
  | JNum lit => Num lit
  | JStr s => Str s
  | _ => Obj j
  end.

Definition KeyError (key : string) : Exn := mkExn "KeyError" ("'" +:+ key +:+ "'").
Definition TypeError (msg : string) : Exn := mkExn "TypeError" msg.
Definition ValueError (msg : string) : Exn := mkExn "ValueError" msg.

(** ** Association lists (Python dicts, rows) *)

Fixpoint assoc {A} (k : string) (l : list (string * A)) : option A :=
  match l with
  | [] => None
  | (k', v) :: rest => if String.eqb k' k then Some v else assoc k rest
  end.

(** [d[k] = v]: replace in place, or append. *)
Fixpoint assign {A} (k : string) (v : A) (l : list (string * A)) : list (string * A) :=
  match l with
  | [] => [(k, v)]
  | (k', v') :: rest =>
      if String.eqb k' k then (k, v) :: rest else (k', v') :: assign k v rest
  end.

Definition mem (k : string) (l : list string) : bool :=
  existsb (String.eqb k) l.

Definition remove_key {A} (k : string) (l : list (string * A)) : list (string * A) :=
  List.filter (fun kv => negb (String.eqb (fst kv) k)) l.

(** ** Data frames *)

(** Column-major, like a pandas frame: named columns in order, and the row
    labels.  A well-formed frame has every column as long as the index. *)
Record DataFrame := mkDF {
  df_data : list (string * list Cell);
  df_index : list Cell
}.

Definition df_wf (df : DataFrame) : Prop :=
  Forall (fun c => length (snd c) = length (df_index df)) (df_data df).

Definition df_columns (df : DataFrame) : list string := map fst (df_data df).
Definition df_len (df : DataFrame) : nat := length (df_index df).

(** [df.empty]: some axis has length 0. *)
Definition df_empty (df : DataFrame) : bool :=
  (length (df_data df) =? 0)%nat || (df_len df =? 0)%nat.

(** [pd.DataFrame()] *)
Definition empty_frame : DataFrame := mkDF [] [].

Definition range_index (n : nat) : list Cell :=
  map (fun i => Num (pretty i)) (seq 0 n).

(** [df[name]] *)
Definition df_getcol (name : string) (df : DataFrame) : Res (list Cell) :=
  match assoc name (df_data df) with
  | Some c => Ok c
  | None => Raise (KeyError name)
  end.

(** [df[name] = values] *)
Definition df_setcol (name : string) (values : list Cell) (df : DataFrame) : DataFrame :=
  mkDF (assign name values (df_data df)) (df_index df).

(** [df[name] = scalar] *)
Definition df_setconst (name : string) (v : Cell) (df : DataFrame) : DataFrame :=
  df_setcol name (repeat v (df_len df)) df.

(** [df[names]] *)
Fixpoint select_cols (names : list string) (data : list (string * list Cell))
  : Res (list (string * list Cell)) :=
  match names with
  | [] => Ok []
  | n :: rest =>
      match assoc n data with
      | None => Raise (KeyError n)
      | Some c =>
          match select_cols rest data with
          | Ok cs => Ok ((n, c) :: cs)
          | Raise e => Raise e
          end
      end
  end.

Definition df_select (names : list string) (df : DataFrame) : Res DataFrame :=
  match select_cols names (df_data df) with
  | Ok cs => Ok (mkDF cs (df_index df))
  | Raise e => Raise e
  end.

(** Boolean indexing [l[mask]]. *)
Fixpoint mask_filter {A} (mask : list bool) (l : list A) : list A :=
  match mask, l with
  | b :: mask', x :: l' => if b then x :: mask_filter mask' l' else mask_filter mask' l'
  | _, _ => []
  end.

Definition filter_col (mask : list bool) (c : string * list Cell) : string * list Cell :=
  (fst c, mask_filter mask (snd c)).

(** [df[mask]] *)
Definition df_filter (mask : list bool) (df : DataFrame) : DataFrame :=
  mkDF (map (filter_col mask) (df_data df)) (mask_filter mask (df_index df)).

Definition count_true (mask : list bool) : nat := length (List.filter id mask).

(** [df.drop(columns=[name])] *)
Definition df_drop (name : string) (df : DataFrame) : Res DataFrame :=
  if mem name (df_columns df)
  then Ok (mkDF (remove_key name (df_data df)) (df_index df))
  else Raise (KeyError ("['" +:+ name +:+ "'] not found in axis")).

(** The rows of a frame, each a record from column name to cell, obtained
    by peeling one cell off every column. *)
Definition head_cell (c : string * list Cell) : option (string * Cell) :=
  match snd c with
  | [] => None
  | x :: _ => Some (fst c, x)
  end.

Definition tail_col (c : string * list Cell) : string * list Cell :=
  (fst c, tl (snd c)).

Fixpoint heads (data : list (string * list Cell)) : list (string * Cell) :=
  match data with
  | [] => []
  | c :: rest =>
      match head_cell c with
      | Some x => x :: heads rest
      | None => heads rest
      end
  end.

Fixpoint rows_of (n : nat) (data : list (string * list Cell)) : list (list (string * Cell)) :=
  match n with
  | O => []
  | S k => heads data :: rows_of k (map tail_col data)
  end.

Definition df_rows (df : DataFrame) : list (list (string * Cell)) :=
  rows_of (df_len df) (df_data df).

(** [df.iterrows()].  The cells are handed over as the frame stores
    them: the upcast of an all-numeric row to one dtype is outside the
    model. *)
Definition iterrows (df : DataFrame) : list (Cell * list (string * Cell)) :=
  combine (df_index df) (df_rows df).

(** [pd.DataFrame(records)] for a list of dicts: the columns are the keys
    in order of first appearance, a missing key leaves a gap. *)
Definition union_keys {A} (records : list (list (string * A))) : list string :=
  fold_left (fun acc r =>
    fold_left (fun acc' kv => if mem (fst kv) acc' then acc' else acc' ++ [fst kv]) r acc)
    records [].

Definition df_of_records (records : list (list (string * Cell))) : DataFrame :=
  mkDF (map (fun k => (k, map (fun r => default NaN (assoc k r)) records))
            (union_keys records))
       (range_index (length records)).

(** [pd.concat(frames, ignore_index=True)]: rows stacked, columns united in
    order of first appearance, gaps where a frame lacks a column. *)
Definition concat_col (name : string) (frames : list DataFrame) : list Cell :=
  flat_map (fun f => match assoc name (df_data f) with
                     | Some c => c
                     | None => repeat NaN (df_len f)
                     end) frames.

Definition pd_concat (frames : list DataFrame) : DataFrame :=
  let names := union_keys (map df_data frames) in
  mkDF (map (fun k => (k, concat_col k frames)) names)
       (range_index (list_sum (map df_len frames))).

(** ** The world and the environment *)

(** What a path holds: a table in CSV form (identified with the frame
    [pd.read_csv] parses from it), or bytes the CSV reader rejects with
    the given exception. *)
Inductive File : Type :=
| FCsv (table : DataFrame)
| FCorrupt (e : Exn).

(** Console output.  Lines whose text depends on floating-point formatting
    are kept as structured events. *)
Inductive Event : Type :=
| Print (line : string)
| Progress (i total : nat)
| Elapsed.

Record World := mkWorld {
  files : gmap string File;
  dirs : gset string;
  net_log : list string;
  console : list Event
}.

(** The libraries and the operating system, as far as the program observes
    them.  Every oracle may depend on the current world. *)
Record Env := mkEnv {
  (** [requests.get(url, verify=False, timeout=30).json()] *)
  http_get_json : World -> string -> Res Json;
  (** one element of [pd.to_datetime(index, format='%Y%m%d')];
      [None] when the element makes the call raise *)
  parse_ymd : Cell -> option Cell;
  (** [pd.to_datetime(v).strftime('%Y%m%d')] *)
  to_datetime_strftime : Cell -> Res string;
  (** [pd.DataFrame(v)] for a [v] that is not a dict of dicts *)
  frame_of_other : Json -> Res DataFrame;
  (** why [to_csv] to this path fails, if it does *)
  write_error : World -> string -> option Exn;
  (** why [os.makedirs] of this path fails, if it does for a reason other
      than the path being a regular file *)
  makedirs_error : World -> string -> option Exn;
  (** [time.strftime('%Y-%m-%d %H:%M:%S')] *)
  strftime_now : World -> string;
  (** [str(v)] of a list or dict *)
  py_repr : Json -> string;
  (** the pool's scheduler: which busy worker finishes next *)
  schedule : list nat
}.

(** ** The effect monad: state and exceptions *)

Definition M (A : Type) : Type := World -> Res A * World.

Definition ret {A} (a : A) : M A := fun w => (Ok a, w).
Definition raise {A} (e : Exn) : M A := fun w => (Raise e, w).
Definition bind {A B} (c : M A) (k : A -> M B) : M B :=
  fun w => match c w with
           | (Ok a, w') => k a w'
           | (Raise e, w') => (Raise e, w')
           end.
(** [try: body except Exception as e: handler(e)] *)
Definition try_except {A} (body : M A) (handler : Exn -> M A) : M A :=
  fun w => match body w with
           | (Ok a, w') => (Ok a, w')
           | (Raise e, w') => handler e w'
           end.
Definition lift {A} (r : Res A) : M A := fun w => (r, w).
Definition get_world : M World := fun w => (Ok w, w).

Notation "'let*' x ':=' c 'in' k" := (bind c (fun x => k))
  (at level 10, x pattern, c at level 100, k at level 200).
Notation "c1 ';;;' c2" := (bind c1 (fun _ => c2))
  (at level 100, c2 at level 200, right associativity).

(** The world after more console output. *)
Definition add_console (w : World) (evs : list Event) : World :=
  mkWorld (files w) (dirs w) (net_log w) (console w ++ evs).

Definition emit (ev : Event) : M unit :=
  fun w => (Ok tt, add_console w [ev]).
Definition print (line : string) : M unit := emit (Print line).

(** [pd.read_csv(path)] *)
Definition read_csv (path : string) : M DataFrame :=
  fun w => match files w !! path with
           | None => (Raise (mkExn "FileNotFoundError"
                        ("[Errno 2] No such file or directory: '" +:+ path +:+ "'")), w)
           | Some (FCorrupt e) => (Raise e, w)
           | Some (FCsv t) => (Ok t, w)
           end.

(** ** [load_data.py] *)

Section LoadData.
Variable env : Env.

(** [str(v)] *)
Definition py_str (v : Cell) : string :=
  match v with
  | NaN => "nan"
  | PyNone => "None"
  | PyBool true => "True"
  | PyBool false => "False"
  | Num r => r
  | Str s => s
  | Timestamp iso => iso
  | Obj j => py_repr env j
  end.

(** The effect of [dtype={name: str}] on a parsed cell: a missing value
    stays missing, anything else is kept as its text. *)
Definition as_str (v : Cell) : Cell :=
  match v with
  | NaN | PyNone => NaN
  | _ => Str (py_str v)
  end.

Definition with_dtype_str (col : string) (df : DataFrame) : DataFrame :=
  match assoc col (df_data df) with
  | None => df
  | Some c => df_setcol col (map as_str c) df
  end.

(** [pd.read_csv(path, dtype={col: str})] *)
Definition read_csv_dtype_str (path col : string) : M DataFrame :=
  let* df := read_csv path in
  ret (with_dtype_str col df).

(** [s[-3:]] *)
Definition last3 (s : string) : string :=
  substring (String.length s - 3) 3 s.

(** [series.str[-3:]]: a non-string cell gives a missing value. *)
Definition str_last3 (v : Cell) : Cell :=
  match v with
  | Str s => Str (last3 s)
  | _ => NaN
  end.

(** [series == state] for a string [state] *)
Definition eq_str (state : string) (v : Cell) : bool :=
  match v with
  | Str s => String.eqb s state
  | _ => false
  end.

(** Lines 5-6: derive the state code, keep the matching rows, drop the
    derived column. *)
Definition select_state (state : string) (df : DataFrame) : Res DataFrame :=
  match df_getcol "CVEGEO" df with
  | Raise e => Raise e
  | Ok cvegeo =>
      let df := df_setcol "edo" (map str_last3 cvegeo) df in
      match df_getcol "edo" df with
      | Raise e => Raise e
      | Ok edo => df_drop "edo" (df_filter (map (eq_str state) edo) df)
      end
  end.

Definition load_centroid_data (path state : string) : M DataFrame :=
  let* df := read_csv_dtype_str path "CVEGEO" in
  lift (select_state state df).

(** A row whose [CVEGEO] text ends with the state code. *)
Definition has_state (state : string) (row : list (string * Cell)) : bool :=
  match assoc "CVEGEO" row with
  | Some (Str s) => String.eqb (last3 s) state
  | _ => false
  end.

End LoadData.

(** ** [climex.py]: helpers from the Python runtime *)

Definition res_map {A B} (f : A -> B) (r : Res A) : Res B :=
  match r with
  | Ok a => Ok (f a)
  | Raise e => Raise e
  end.

Definition dict_get (d : list (string * Cell)) (k : string) : Res Cell :=
  match assoc k d with
  | Some v => Ok v
  | None => Raise (KeyError k)
  end.

(** [sep.join(parts)] *)
Fixpoint join (sep : string) (parts : list string) : string :=
  match parts with
  | [] => ""
  | [p] => p
  | p :: rest => p +:+ sep +:+ join sep rest
  end.

(** [str.format] with keyword arguments, on templates whose replacement fields are plain
    names.  A field name with a conversion, a format spec, an attribute or
    an index is looked up as it is written and so reported as a missing
    key. *)
Fixpoint format_go (kwargs : list (string * string)) (s : string)
    (field : option string) : Res string :=
  match field with
  | None =>
      match s with
      | EmptyString => Ok ""
      | String c rest =>
          if Ascii.eqb c "{" then
            match rest with
            | String c' rest' =>
                if Ascii.eqb c' "{"
                then res_map (String "{") (format_go kwargs rest' None)
                else format_go kwargs rest (Some "")
            | EmptyString => format_go kwargs rest (Some "")
            end
          else if Ascii.eqb c "}" then
            match rest with
            | String c' rest' =>
                if Ascii.eqb c' "}"
                then res_map (String "}") (format_go kwargs rest' None)
                else Raise (ValueError "Single '}' encountered in format string")
            | EmptyString => Raise (ValueError "Single '}' encountered in format string")
            end
          else res_map (String c) (format_go kwargs rest None)
      end
  | Some name =>
      match s with
      | EmptyString => Raise (ValueError "expected '}' before end of string")
      | String c rest =>
          if Ascii.eqb c "}" then
            match assoc name kwargs with
            | Some v => res_map (String.append v) (format_go kwargs rest None)
            | None => Raise (KeyError name)
            end
          else format_go kwargs rest (Some (name +:+ String c ""))
      end
  end.

(** No brace occurs in [s]. *)
Fixpoint brace_free (s : string) : bool :=
  match s with
  | EmptyString => true
  | String c rest => negb (Ascii.eqb c "{") && negb (Ascii.eqb c "}") && brace_free rest
  end.

Definition py_format (template : string) (kwargs : list (string * string)) : Res string :=
  format_go kwargs template None.

(** [s.startswith('/')], [s.endswith('/')] *)
Definition startswith_slash (s : string) : bool :=
  match s with
  | String "/" _ => true
  | _ => false
  end.

Fixpoint endswith_slash (s : string) : bool :=
  match s with
  | EmptyString => false
  | String c EmptyString => Ascii.eqb c "/"
  | String _ rest => endswith_slash rest
  end.

(** [os.path.join(a, b)] (POSIX) *)
Definition path_join (a b : string) : string :=
  if startswith_slash b then b
  else if (String.eqb a "" || endswith_slash a)%bool then a +:+ b
  else a +:+ "/" +:+ b.

(** Whether a JSON number literal decodes to a Python [int]. *)
Definition is_int_literal (lit : string) : bool :=
  forallb (fun c => (Ascii.eqb c "-" || (("0" <=? c) && (c <=? "9"))%char)%bool)
          (list_ascii_of_string lit).

Definition py_type_name (j : Json) : string :=
  match j with
  | JNull => "NoneType"
  | JBool _ => "bool"
  | JNum lit => if is_int_literal lit then "int" else "float"
  | JStr _ => "str"
  | JArr _ => "list"
  | JObj _ => "dict"
  end.

(** [key in v] *)
Definition py_contains (key : string) (v : Json) : Res bool :=
  match v with
  | JObj members => Ok (mem key (map fst members))
  | JArr items =>
      Ok (existsb (fun x => match x with JStr s => String.eqb key s | _ => false end) items)
  | JStr s => Ok (bool_decide (is_Some (index 0 key s)))
  | _ => Raise (TypeError ("argument of type '" +:+ py_type_name v +:+ "' is not iterable"))
  end.

(** [v[key]] for a string [key] *)
Definition py_getitem (v : Json) (key : string) : Res Json :=
  match v with
  | JObj members =>
      match assoc key members with
      | Some x => Ok x
      | None => Raise (KeyError key)
      end
  | JArr _ => Raise (TypeError "list indices must be integers or slices, not str")
  | JStr _ => Raise (TypeError "string indices must be integers, not 'str'")
  | _ => Raise (TypeError ("'" +:+ py_type_name v +:+ "' object is not subscriptable"))
  end.

Definition as_object (kv : string * Json) : option (string * list (string * Json)) :=
  match snd kv with
  | JObj inner => Some (fst kv, inner)
  | _ => None
  end.

(** [bool(cell)] of a cell of a boolean column *)
Definition cell_true (c : Cell) : bool :=
  match c with
  | PyBool b => b
  | _ => false
  end.

(** [multiprocessing.Pool(processes)]: the number of worker processes. *)
Definition Pool (processes : Z) : Res nat :=
  if (processes <? 1)%Z
  then Raise (ValueError "Number of processes must be at least 1")
  else Ok (Z.to_nat processes).

(** ** The worker pool as a state machine *)

Section PoolMachine.
Context {A : Type}.

Record PoolState := mkPool {
  pending : list A;
  inflight : list A;
  finished : list A
}.

Definition pool_init (tasks : list A) : PoolState := mkPool tasks [] [].

(** Idle workers take the next pending tasks, in submission order. *)
Definition pool_fill (size : nat) (st : PoolState) : PoolState :=
  let k := (size - length (inflight st))%nat in
  mkPool (drop k (pending st)) (inflight st ++ take k (pending st)) (finished st).

(** The busy worker picked by the scheduler finishes its task. *)
Definition pool_complete (choice : nat) (st : PoolState) : PoolState :=
  match inflight st with
  | [] => st
  | t :: ts =>
      let k := (choice mod length (inflight st))%nat in
      mkPool (pending st) (delete k (inflight st))
             (finished st ++ [default t (inflight st !! k)])
  end.

(** The states the pool goes through while [n] tasks complete, each
    taken at the moment its workers are busiest. *)
Fixpoint pool_trace (size n : nat) (sched : list nat) (st : PoolState) : list PoolState :=
  match n with
  | O => [st]
  | S n' =>
      let busy := pool_fill size st in
      busy :: pool_trace size n' (tl sched) (pool_complete (hd O sched) busy)
  end.

Fixpoint pool_run (size n : nat) (sched : list nat) (st : PoolState) : PoolState :=
  match n with
  | O => st
  | S n' => pool_run size n' (tl sched) (pool_complete (hd O sched) (pool_fill size st))
  end.

(** The order in which [imap_unordered] yields the tasks. *)
Definition completion_order (size : nat) (sched : list nat) (tasks : list A) : list A :=
  finished (pool_run size (length tasks) sched (pool_init tasks)).

End PoolMachine.
Arguments PoolState A : clear implicits.

(** ** [climex.py] *)

(** A fetch job [(request, filepath, row_info)] and what the worker
    returns for it, [(row_info, success, error)]. *)
Definition Job : Type := string * string * list (string * Cell).
Definition Outcome : Type := list (string * Cell) * bool * option string.

(** The arguments of [download_nasa_power_data]. *)
Record Options := mkOptions {
  lat_col : string;
  lon_col : string;
  start_date : string;
  end_date : string;
  parameters : list string;
  temporal_resolution : string;
  spatial_resolution : string;
  community : string;
  processes : Z;
  output_folder : string;
  start_col : option string;
  end_col : option string;
  id_col : option string;
  return_consolidated : bool
}.

Definition valid_temporal_resolutions : list string := ["daily"; "monthly"; "climatology"].
Definition valid_spatial_resolutions : list string := ["point"; "regional"].
Definition valid_communities : list string := ["RE"; "AG"; "SB"].

(** [name and name in columns] for an optional column name *)
Definition configured (name : option string) (columns : list string) : option string :=
  match name with
  | Some n => if (negb (String.eqb n "") && mem n columns)%bool then Some n else None
  | None => None
  end.

Definition climatology_template : string :=
  "https://power.larc.nasa.gov/api/temporal/climatology/{spatial_resolution}?" +:+
  "parameters={parameters}&community={community}&" +:+
  "longitude={{longitude}}&latitude={{latitude}}&format=JSON".

Definition dated_template : string :=
  "https://power.larc.nasa.gov/api/temporal/{temporal_resolution}/{spatial_resolution}?" +:+
  "parameters={parameters}&community={community}&" +:+
  "longitude={{longitude}}&latitude={{latitude}}&" +:+
  "start={{start_date}}&end={{end_date}}&format=JSON".

(** The world after a request to [url] went out. *)
Definition log_request (url : string) (w : World) : World :=
  mkWorld (files w) (dirs w) (net_log w ++ [url]) (console w).

Definition outcome_row_info (o : Outcome) : list (string * Cell) := fst (fst o).
Definition outcome_success (o : Outcome) : bool := snd (fst o).
Definition outcome_error (o : Outcome) : option string := snd o.

(** The names the worker gives to the columns it adds. *)
Definition reserved_cols : list string :=
  ["identifier"; "latitude"; "longitude"; "date"; "period"].

(** A container that does not hold [key]: an object without that member,
    an array without that string among its items, a string without that
    substring. *)
Definition lacks (key : string) (v : Json) : bool :=
  match v with
  | JObj members => negb (mem key (map fst members))
  | JArr items =>
      negb (existsb (fun x => match x with JStr s => String.eqb key s | _ => false end) items)
  | JStr s => negb (bool_decide (is_Some (index 0 key s)))
  | _ => false
  end.

(** A response without the data: a container that does not hold
    [properties], or an object whose [properties] member is a container
    that does not hold [parameter]. *)
Definition lacks_parameter (response : Json) : bool :=
  lacks "properties" response ||
  match response with
  | JObj members =>
      match assoc "properties" members with
      | Some properties => lacks "parameter" properties
      | None => false
      end
  | _ => false
  end.

(** [response['properties']['parameter']] of a response that has it. *)
Definition response_parameter (response : Json) : option Json :=
  match response with
  | JObj members =>
      match assoc "properties" members with
      | Some (JObj inner) => assoc "parameter" inner
      | _ => None
      end
  | _ => None
  end.

Section Climex.
Variable env : Env.

(** *** The worker *)

Definition requests_get_json (url : string) : M Json :=
  fun w => (http_get_json env w url, log_request url w).

(** [pd.DataFrame(v)].  For a dict of dicts the columns are the outer
    keys and the rows the inner keys, both in order of first
    appearance; a key an inner dict lacks leaves a gap. *)
Definition frame_of_json (v : Json) : Res DataFrame :=
  match v with
  | JObj members =>
      match mapM as_object members with
      | Some cols =>
          let idx := union_keys (map snd cols) in
          Ok (mkDF (map (fun c => (fst c,
                      map (fun k => match assoc k (snd c) with
                                    | Some x => cell_of_json x
                                    | None => NaN
                                    end) idx)) cols)
                   (map Str idx))
      | None => frame_of_other env v
      end
  | _ => frame_of_other env v
  end.

(** [pd.to_datetime(index, format='%Y%m%d')]; [None] when it raises. *)
Definition to_datetime_ymd (idx : list Cell) : option (list Cell) :=
  mapM (parse_ymd env) idx.

(** [df.to_csv(path, index=False)].  The file is identified with the
    frame written, so reading it back gives the cells as they were and
    not their CSV text. *)
Definition to_csv (df : DataFrame) (path : string) : M unit :=
  fun w => match write_error env w path with
           | Some e => (Raise e, w)
           | None =>
               (Ok tt,
                mkWorld (<[path := FCsv (mkDF (df_data df) (range_index (df_len df)))]> (files w))
                        (dirs w) (net_log w) (console w))
           end.

(** The dates-or-periods step (lines 31-35).  The index of a frame made
    by the constructor has no name, so the test is on its length. *)
Definition add_dates (df : DataFrame) : DataFrame :=
  if (0 <? df_len df)%nat then
    match to_datetime_ymd (df_index df) with
    | Some dates => df_setcol "date" dates df
    | None => df_setcol "period" (df_index df) df
    end
  else df.

(** The column order of the written file (lines 38-44). *)
Definition base_cols (df : DataFrame) : list string :=
  ["identifier"; "latitude"; "longitude"]
    ++ (if mem "date" (df_columns df) then ["date"] else [])
    ++ (if mem "period" (df_columns df) then ["period"] else []).

Definition other_cols (df : DataFrame) : list string :=
  List.filter (fun col => negb (mem col (base_cols df))) (df_columns df).

(** Lines 26-45: attach the metadata, the dates or periods, and put the
    columns in order. *)
Definition tabulate (row_info : list (string * Cell)) (df_climate : DataFrame)
  : Res DataFrame :=
  match dict_get row_info "latitude" with Raise e => Raise e | Ok latitude =>
  let df_climate := df_setconst "latitude" latitude df_climate in
  match dict_get row_info "longitude" with Raise e => Raise e | Ok longitude =>
  let df_climate := df_setconst "longitude" longitude df_climate in
  match dict_get row_info "identifier" with Raise e => Raise e | Ok identifier =>
  let df_climate := df_setconst "identifier" identifier df_climate in
  let df_climate := add_dates df_climate in
  df_select (base_cols df_climate ++ other_cols df_climate) df_climate
  end end end.

(** The body of the [try] block of [download_function]. *)
Definition download_body (request filepath : string) (row_info : list (string * Cell))
  : M unit :=
  let* response := requests_get_json request in
  let* has_properties := lift (py_contains "properties" response) in
  let* has_parameter :=
    (if has_properties
     then let* properties := lift (py_getitem response "properties") in
          lift (py_contains "parameter" properties)
     else ret false) in
  if has_parameter then
    let* properties := lift (py_getitem response "properties") in
    let* climate_params := lift (py_getitem properties "parameter") in
    let* df_climate := lift (frame_of_json climate_params) in
    if negb (df_empty df_climate) then
      let* df_climate := lift (tabulate row_info df_climate) in
      to_csv df_climate filepath
    else ret tt
  else ret tt.

Definition download_function (collection : Job) : M Outcome :=
  let '(request, filepath, row_info) := collection in
  try_except
    (download_body request filepath row_info ;;; ret (row_info, true, None))
    (fun e => ret (row_info, false, Some (exn_msg e))).

(** *** The planner *)

(** Lines 117-135.  [None] when every check passes. *)
Definition validate (df : DataFrame) (o : Options) : option Exn :=
  if (negb (mem (lat_col o) (df_columns df)) || negb (mem (lon_col o) (df_columns df)))%bool
  then Some (ValueError ("DataFrame debe contener columnas '" +:+ lat_col o +:+
                         "' y '" +:+ lon_col o +:+ "'"))
  else if (length (parameters o) =? 0)%nat
  then Some (ValueError "Debe especificar al menos un parámetro")
  else if negb (mem (temporal_resolution o) valid_temporal_resolutions)
  then Some (ValueError
    "Resolución temporal debe ser una de: ['daily', 'monthly', 'climatology']")
  else if negb (mem (spatial_resolution o) valid_spatial_resolutions)
  then Some (ValueError "Resolución espacial debe ser una de: ['point', 'regional']")
  else if negb (mem (community o) valid_communities)
  then Some (ValueError "Comunidad debe ser una de: ['RE', 'AG', 'SB']")
  else None.

(** [processes = min(processes, 5)] *)
Definition effective_processes (o : Options) : Z := Z.min (processes o) 5.

(** [os.makedirs(path, exist_ok=True)] *)
Definition makedirs (path : string) : M unit :=
  fun w => match files w !! path with
           | Some _ => (Raise (mkExn "FileExistsError"
                          ("[Errno 17] File exists: '" +:+ path +:+ "'")), w)
           | None =>
               match makedirs_error env w path with
               | Some e => (Raise e, w)
               | None => (Ok tt, mkWorld (files w) ({[path]} ∪ dirs w)
                                         (net_log w) (console w))
               end
           end.

(** Lines 141-156 *)
Definition request_template (o : Options) : Res string :=
  let params_str := join "," (parameters o) in
  if String.eqb (temporal_resolution o) "climatology"
  then py_format climatology_template
         [("spatial_resolution", spatial_resolution o);
          ("parameters", params_str); ("community", community o)]
  else py_format dated_template
         [("temporal_resolution", temporal_resolution o);
          ("spatial_resolution", spatial_resolution o);
          ("parameters", params_str); ("community", community o)].

(** A per-row date (lines 174-182). *)
Definition row_date (col : option string) (columns : list string)
    (row : list (string * Cell)) (fallback : string) : Res string :=
  match configured col columns with
  | Some c =>
      match dict_get row c with
      | Ok v => to_datetime_strftime env v
      | Raise e => Raise e
      end
  | None => Ok fallback
  end.

(** One iteration of the planning loop (lines 170-217). *)
Definition plan_row (o : Options) (columns : list string) (template : string)
    (idx : Cell) (row : list (string * Cell)) : Res Job :=
  match dict_get row (lat_col o) with Raise e => Raise e | Ok latitude =>
  match dict_get row (lon_col o) with Raise e => Raise e | Ok longitude =>
  match row_date (start_col o) columns row (start_date o) with Raise e => Raise e | Ok start =>
  match row_date (end_col o) columns row (end_date o) with Raise e => Raise e | Ok end_ =>
  let climatology := String.eqb (temporal_resolution o) "climatology" in
  match (if climatology
         then py_format template
                [("latitude", py_str env latitude); ("longitude", py_str env longitude)]
         else py_format template
                [("latitude", py_str env latitude); ("longitude", py_str env longitude);
                 ("start_date", start); ("end_date", end_)])
  with Raise e => Raise e | Ok request_url =>
  match (match configured (id_col o) columns with
         | Some c => dict_get row c
         | None => Ok (Str ("idx_" +:+ py_str env idx))
         end)
  with Raise e => Raise e | Ok identifier =>
  let filename := py_str env identifier +:+ ".csv" in
  let filepath := path_join (output_folder o) filename in
  let row_info :=
    [("index", idx); ("latitude", latitude); ("longitude", longitude);
     ("start_date", if climatology then PyNone else Str start);
     ("end_date", if climatology then PyNone else Str end_);
     ("identifier", identifier); ("filename", Str filename)] in
  Ok (request_url, filepath, row_info)
  end end end end end end.

(** The planning loop (lines 169-217): the first row that fails raises. *)
Fixpoint plan_rows (o : Options) (columns : list string) (template : string)
    (rows : list (Cell * list (string * Cell))) : Res (list Job) :=
  match rows with
  | [] => Ok []
  | (idx, row) :: rest =>
      match plan_row o columns template idx row with
      | Raise e => Raise e
      | Ok job =>
          match plan_rows o columns template rest with
          | Raise e => Raise e
          | Ok jobs => Ok (job :: jobs)
          end
      end
  end.

End Climex.

Definition nl : string := String (ascii_of_nat 10) "".

Section Pipeline.
Variable env : Env.

(** *** The orchestrator *)

(** The record appended to [download_results] (lines 230-233). *)
Definition result_record (row_info : list (string * Cell)) (success : bool)
    (error : option string) (downloaded_at : string) : list (string * Cell) :=
  let result := row_info in
  let result := assign "success" (PyBool success) result in
  let result := assign "error" (match error with
                                | Some msg => Str msg
                                | None => PyNone
                                end) result in
  assign "downloaded_at" (Str downloaded_at) result.

(** The body of the collecting loop (lines 228-234). *)
Definition collect (total i : nat) (r : Outcome) : M (list (string * Cell)) :=
  let '(row_info, success, error) := r in
  emit (Progress i total) ;;;
  let* w := get_world in
  ret (result_record row_info success error (strftime_now env w)).

(** The jobs run by the pool in their order of completion, each result
    collected as it arrives. *)
Fixpoint run_jobs (total i : nat) (order : list Job) : M (list (list (string * Cell))) :=
  match order with
  | [] => ret []
  | job :: rest =>
      let* r := download_function env job in
      let* result := collect total i r in
      let* results := run_jobs total (S i) rest in
      ret (result :: results)
  end.

(** Lines 221-234 *)
Definition run_pool (processes : Z) (requests : list Job) : M (list (list (string * Cell))) :=
  let requests_total := length requests in
  let* size := lift (Pool processes) in
  run_jobs requests_total 1 (completion_order size (schedule env) requests).

(** *** The reducer *)

(** [row['filename']] where a path component is needed *)
Definition row_filename (row : list (string * Cell)) : Res string :=
  match dict_get row "filename" with
  | Ok (Str s) => Ok s
  | Ok _ => Raise (TypeError "join() argument must be str, bytes, or os.PathLike object")
  | Raise e => Raise e
  end.

(** The loop of [_consolidate_csv_data] (lines 262-273). *)
Fixpoint read_back (folder : string) (rows : list (Cell * list (string * Cell)))
    (all_data : list DataFrame) : M (list DataFrame) :=
  match rows with
  | [] => ret all_data
  | (_, row) :: rest =>
      let* filename := lift (row_filename row) in
      let filepath := path_join folder filename in
      let* all_data :=
        try_except
          (let* df_climate := read_csv filepath in
           if negb (df_empty df_climate)
           then ret (all_data ++ [df_climate])
           else ret all_data)
          (fun e => print ("Error cargando " +:+ filename +:+ ": " +:+ exn_msg e) ;;;
                    ret all_data) in
      read_back folder rest all_data
  end.

Definition _consolidate_csv_data (results_df : DataFrame) (folder : string) : M DataFrame :=
  let* success := lift (df_getcol "success" results_df) in
  let successful_downloads := df_filter (map cell_true success) results_df in
  let* all_data := read_back folder (iterrows successful_downloads) [] in
  match all_data with
  | _ :: _ =>
      let consolidated_df := pd_concat all_data in
      print ("Datos consolidados: " +:+ pretty (df_len consolidated_df) +:+ " registros") ;;;
      ret consolidated_df
  | [] =>
      print "No se pudieron consolidar datos" ;;;
      ret empty_frame
  end.

(** Lines 237-255 *)
Definition reduce_results (download_results : list (list (string * Cell)))
    (folder : string) (consolidate : bool) : M DataFrame :=
  let results_df := df_of_records download_results in
  print (nl +:+ nl +:+ "¡Descarga completada!") ;;;
  emit Elapsed ;;;
  let* success := lift (df_getcol "success" results_df) in
  print ("Descargas exitosas: " +:+ pretty (length (List.filter cell_true success))
          +:+ "/" +:+ pretty (df_len results_df)) ;;;
  let* success := lift (df_getcol "success" results_df) in
  (if negb (forallb cell_true success)
   then let failed := df_filter (map (fun c => negb (cell_true c)) success) results_df in
        print ("Descargas fallidas: " +:+ pretty (df_len failed))
   else ret tt) ;;;
  let* success := (if consolidate
                   then lift (df_getcol "success" results_df)
                   else ret []) in
  if (consolidate && existsb cell_true success)%bool
  then print (nl +:+ "Consolidando datos...") ;;;
       _consolidate_csv_data results_df folder
  else ret results_df.

(** *** The entry point *)

Definition download_nasa_power_data (df : DataFrame) (o : Options) : M DataFrame :=
  match validate df o with
  | Some e => raise e
  | None =>
      let processes := effective_processes o in
      makedirs env (output_folder o) ;;;
      let* template := lift (request_template o) in
      print ("Preparando " +:+ pretty (df_len df) +:+ " solicitudes de descarga...") ;;;
      print ("Parámetros: " +:+ join ", " (parameters o)) ;;;
      print ("Resolución temporal: " +:+ temporal_resolution o) ;;;
      print ("Resolución espacial: " +:+ spatial_resolution o) ;;;
      print ("Comunidad: " +:+ community o) ;;;
      print ("Procesos: " +:+ pretty processes) ;;;
      let* requests := lift (plan_rows env o (df_columns df) template (iterrows df)) in
      print (nl +:+ "Iniciando descargas...") ;;;
      let* download_results := run_pool processes requests in
      reduce_results download_results (output_folder o) (return_consolidated o)
  end.

End Pipeline.

(** ** Vocabulary of the statements *)

(** The elements of a list on which [f] is defined. *)
Fixpoint pick {A B} (f : A -> option B) (l : list A) : list B :=
  match l with
  | [] => []
  | x :: rest =>
      match f x with
      | Some y => y :: pick f rest
      | None => pick f rest
      end
  end.

(** What [run_jobs] appends for a job, and a job planned for the row
    labelled [idx]. *)
Definition result_for (job : Job) (result : list (string * Cell)) : Prop :=
  exists success error downloaded_at,
    result = result_record (snd job) success error downloaded_at.

Definition planned_for (idx : Cell) (job : Job) : Prop :=
  exists filename,
    assoc "index" (snd job) = Some idx /\
    assoc "filename" (snd job) = Some (Str filename).

(** A result record as the reducer reads it. *)
Definition result_success (r : list (string * Cell)) : bool :=
  match assoc "success" r with
  | Some c => cell_true c
  | None => false
  end.

Definition filename_of (r : list (string * Cell)) : string :=
  match assoc "filename" r with
  | Some (Str f) => f
  | _ => ""
  end.

Definition has_fields (r : list (string * Cell)) : Prop :=
  (exists b, assoc "success" r = Some (PyBool b)) /\
  (exists f, assoc "filename" r = Some (Str f)).

(** The table consolidation takes from the destination file of a result,
    and the line it prints when it takes none because of an exception. *)
Definition readable (fs : gmap string File) (folder : string)
    (r : list (string * Cell)) : option DataFrame :=
  match fs !! path_join folder (filename_of r) with
  | Some (FCsv t) => if df_empty t then None else Some t
  | _ => None
  end.

Definition diagnostic (fs : gmap string File) (folder : string)
    (r : list (string * Cell)) : option Event :=
  match fs !! path_join folder (filename_of r) with
  | None =>
      Some (Print ("Error cargando " +:+ filename_of r +:+ ": " +:+
                   "[Errno 2] No such file or directory: '" +:+
                   path_join folder (filename_of r) +:+ "'"))
  | Some (FCorrupt e) =>
      Some (Print ("Error cargando " +:+ filename_of r +:+ ": " +:+ exn_msg e))
  | Some (FCsv _) => None
  end.

(** Some console line reports a failure to load [filename]. *)
Definition diagnosed (w : World) (filename : string) : Prop :=
  exists msg, In (Print ("Error cargando " +:+ filename +:+ ": " +:+ msg)) (console w).

(** The lines printed by lines 241-247. *)
Definition summary_lines (rs : list (list (string * Cell))) : list Event :=
  [Print (nl +:+ nl +:+ "¡Descarga completada!"); Elapsed;
   Print ("Descargas exitosas: " +:+ pretty (length (List.filter result_success rs))
           +:+ "/" +:+ pretty (length rs))]
  ++ (if forallb result_success rs then []
      else [Print ("Descargas fallidas: " +:+
                   pretty (length (List.filter (fun r => negb (result_success r)) rs)))]).

(** The line that closes consolidation. *)
Definition closing_line (tables : list DataFrame) : Event :=
  match tables with
  | [] => Print "No se pudieron consolidar datos"
  | _ => Print ("Datos consolidados: " +:+ pretty (df_len (pd_concat tables)) +:+ " registros")
  end.

Definition consolidated (tables : list DataFrame) : DataFrame :=
  match tables with
  | [] => empty_frame
  | _ => pd_concat tables
  end.

(** Every cell of a configured date column is accepted by the date
    parser. *)
Definition dates_parse (env : Env) (o : Options) (df : DataFrame) : Prop :=
  forall c col v,
    configured (start_col o) (df_columns df) = Some c \/
    configured (end_col o) (df_columns df) = Some c ->
    assoc c (df_data df) = Some col ->
    In v col ->
    exists s, to_datetime_strftime env v = Ok s.

(** The pool's remaining work and its tasks. *)
Definition pool_left {A} (st : PoolState A) : nat :=
  length (pending st) + length (inflight st).
Definition pool_all {A} (st : PoolState A) : list A :=
  pending st ++ inflight st ++ finished st.

(** The keys [union_keys] adds for one record. *)
Definition add_keys {A} (acc : list string) (r : list (string * A)) : list string :=
  fold_left (fun acc' kv => if mem (fst kv) acc' then acc' else acc' ++ [fst kv]) r acc.

(** The [success] column of the summary table. *)
Definition success_column (rs : list (list (string * Cell))) : list Cell :=
  map (fun r => default NaN (assoc "success" r)) rs.

(** A record of the summary table, with a gap for every key it lacks. *)
Definition fill_gaps (keys : list string) (r : list (string * Cell)) : list (string * Cell) :=
  map (fun k => (k, default NaN (assoc k r))) keys.

(** The template after its first formatting (lines 143-156). *)
Definition template_tail (climatology : bool) : string :=
  if climatology
  then "&longitude={longitude}&latitude={latitude}&format=JSON"
  else "&longitude={longitude}&latitude={latitude}&start={start_date}&end={end_date}&format=JSON".

Definition formatted_template (o : Options) : string :=
  let climatology := String.eqb (temporal_resolution o) "climatology" in
  "https://power.larc.nasa.gov/api/temporal/" +:+
  (if climatology then "climatology" else temporal_resolution o) +:+
  "/" +:+ spatial_resolution o +:+ "?parameters=" +:+ join "," (parameters o) +:+
  "&community=" +:+ community o +:+ template_tail climatology.

(** *** What the summary table records *)

(** The record [r] of the summary table holds what the worker did for
    [job]: it carries the job's row label, and there is a world from
    which the body of the worker's [try] block, run for this job, either
    completed, and then the record says success and no error, or raised,
    and then the record says failure and gives the exception's message. *)
Definition records_outcome (env : Env) (job : Job) (r : list (string * Cell)) : Prop :=
  assoc "index" r = assoc "index" (snd job) /\
  exists wk,
    match fst (download_body env (fst (fst job)) (snd (fst job)) (snd job) wk) with
    | Ok _ => assoc "success" r = Some (PyBool true) /\ assoc "error" r = Some PyNone
    | Raise e => assoc "success" r = Some (PyBool false) /\
                 assoc "error" r = Some (Str (exn_msg e))
    end.

(** The record [r] says failure, with the message of [e], when every
    request to the job's URL fails with [e]. *)
Definition records_failed_request (env : Env) (job : Job) (r : list (string * Cell)) : Prop :=
  forall e,
    (forall wk, http_get_json env wk (fst (fst job)) = Raise e) ->
    assoc "success" r = Some (PyBool false) /\
    assoc "error" r = Some (Str (exn_msg e)).

(** *** The selection of [load_centroid_data], in the words of its description *)

(** The text of a CSV field, as the file spells it; an empty field has
    none. *)
Definition csv_text (env : Env) (c : Cell) : option string :=
  match c with
  | NaN | PyNone => None
  | Str s => Some s
  | Num lit => Some lit
  | PyBool true => Some "True"
  | PyBool false => Some "False"
  | Timestamp iso => Some iso
  | Obj j => Some (py_repr env j)
  end.

(** The last three characters of a text, all of it when it is shorter:
    the first three of the reversed text, put back in order. *)
Definition last_three_chars (s : string) : string :=
  string_of_list_ascii (rev (firstn 3 (rev (list_ascii_of_string s)))).

(** A row of the CSV whose [CVEGEO] field has the state code as its last
    three characters. *)
Definition code_matches_state (env : Env) (state : string) (row : list (string * Cell))
  : bool :=
  match assoc "CVEGEO" row with
  | Some c =>
      match csv_text env c with
      | Some s => String.eqb (last_three_chars s) state
      | None => false
      end
  | None => false
  end.

(** A row of the CSV as it is returned: the [CVEGEO] field as text, and
    no [edo] field. *)
Definition returned_row (env : Env) (row : list (string * Cell)) : list (string * Cell) :=
  remove_key "edo"
    (match assoc "CVEGEO" row with
     | Some c =>
         match csv_text env c with
         | Some s => assign "CVEGEO" (Str s) row
         | None => row
         end
     | None => row
     end).

(** *** Vocabulary of the further properties *)

(** The name of the column [add_dates] adds for these row keys. *)
Definition date_or_period (env : Env) (idx : list Cell) : string :=
  match to_datetime_ymd env idx with
  | Some _ => "date"
  | None => "period"
  end.

(** [date] is the date lines 174-182 take for a row: the formatted cell
    of the configured date column when there is one in the table, the
    default date otherwise. *)
Definition date_of_row (env : Env) (col : option string) (columns : list string)
    (row : list (string * Cell)) (fallback date : string) : Prop :=
  match configured col columns with
  | Some c => exists v, assoc c row = Some v /\ to_datetime_strftime env v = Ok date
  | None => date = fallback
  end.

(** The identifier of a row (line 201). *)
Definition row_identifier (env : Env) (o : Options) (columns : list string)
    (idx : Cell) (row : list (string * Cell)) : Res Cell :=
  match configured (id_col o) columns with
  | Some c => dict_get row c
  | None => Ok (Str ("idx_" +:+ py_str env idx))
  end.

(** A computation whose only effect is console output. *)
Definition console_only {A} (c : M A) : Prop :=
  forall w, exists evs, snd (c w) = add_console w evs.

(** The columns of the summary table. *)
Definition summary_columns : list string :=
  ["index"; "latitude"; "longitude"; "start_date"; "end_date"; "identifier"; "filename";
   "success"; "error"; "downloaded_at"].

(** One step of [union_keys]: a key joins the columns when it is new. *)
Definition add_key (acc : list string) (k : string) : list string :=
  if mem k acc then acc else acc ++ [k].

(** ** A sample environment and sample inputs *)

Definition is_digit (c : ascii) : bool := (("0" <=? c) && (c <=? "9"))%char.

(** A date parser that accepts exactly eight digits. *)
Definition strict_ymd (c : Cell) : option Cell :=
  match c with
  | Str s =>
      if ((String.length s =? 8)%nat && forallb is_digit (list_ascii_of_string s))%bool
      then Some (Timestamp (substring 0 4 s +:+ "-" +:+ substring 4 2 s +:+ "-" +:+
                            substring 6 2 s))
      else None
  | _ => None
  end.

(** [strftime('%Y%m%d')] of what that parser accepts. *)
Definition strftime_ymd (v : Cell) : Res string :=
  match v, strict_ymd v with
  | Str s, Some _ => Ok s
  | _, _ => Raise (ValueError "time data does not match format")
  end.

(** An environment whose network answers by [net], whose file system
    accepts every write and directory, and whose clock stands still. *)
Definition sample_env (net : string -> Res Json) (sched : list nat) : Env :=
  mkEnv (fun _ url => net url)
        strict_ymd
        strftime_ymd
        (fun _ => Raise (ValueError "DataFrame constructor not properly called!"))
        (fun _ _ => None)
        (fun _ _ => None)
        (fun _ => "2015-03-06 12:00:00")
        (fun _ => "{...}")
        sched.

Definition empty_world : World := mkWorld ∅ ∅ [] [].

Definition daily (variables : list (string * Json)) : Json :=
  JObj [("type", JStr "Feature");
        ("properties", JObj [("parameter", JObj variables)])].

Definition t2m_response : Json :=
  daily [("T2M", JObj [("20150101", JNum "21.5"); ("20150102", JNum "22.1")])].

(** A response with a variable that is named [period]. *)
Definition period_response : Json :=
  daily [("T2M", JObj [("20150101", JNum "21.5"); ("20150102", JNum "22.1")]);
         ("period", JObj [("20150101", JNum "7")])].

Definition null_properties_response : Json := JObj [("properties", JNull)].

Definition error_response : Json :=
  JObj [("header", JStr "The POWER API failed to complete your request")].

Definition sample_row_info : list (string * Cell) :=
  [("index", Num "0"); ("latitude", Num "19.43"); ("longitude", Num "-99.13");
   ("start_date", Str "20150101"); ("end_date", Str "20150102");
   ("identifier", Str "cdmx"); ("filename", Str "cdmx.csv")].

Definition sample_job : Job := ("https://power.example/cdmx", "out/cdmx.csv", sample_row_info).

Definition sample_locations : DataFrame :=
  mkDF [("latitude", [Num "19.43"; Num "20.97"; Num "25.67"]);
        ("longitude", [Num "-99.13"; Num "-89.62"; Num "-100.31"]);
        ("inicio", [Str "20150101"; Str "20150201"; Str "20150301"])]
       (range_index 3).

Definition sample_options : Options :=
  mkOptions "latitude" "longitude" "20150101" "20150305" ["T2M"; "TS"]
            "daily" "point" "RE" 12 "out" (Some "inicio") None None false.

Definition bad_community_options : Options :=
  mkOptions "latitude" "longitude" "20150101" "20150305" ["T2M"; "TS"]
            "daily" "point" "XX" 5 "out" None None None true.

(** A world in which the output folder's path is a regular file. *)
Definition folder_is_file_world : World :=
  mkWorld {["out" := FCorrupt (mkExn "ParserError" "not a table")]} ∅ [] [].

Definition t2m_env : Env := sample_env (fun _ => Ok t2m_response) [1; 1; 0].

Definition sample_jobs : list Job :=
  match plan_rows t2m_env sample_options
          (df_columns sample_locations) (formatted_template sample_options)
          (iterrows sample_locations) with
  | Ok jobs => jobs
  | Raise _ => []
  end.

(** Two successful results; the file of the first holds two rows, the
    file of the second a header and no row. *)
Definition sample_results : list (list (string * Cell)) :=
  [result_record [("index", Num "0"); ("filename", Str "a.csv")] true None "2015-03-06 12:00:00";
   result_record [("index", Num "1"); ("filename", Str "b.csv")] true None "2015-03-06 12:00:01"].

Definition two_rows : DataFrame :=
  mkDF [("identifier", [Str "a"; Str "a"]); ("T2M", [Num "21.5"; Num "22.1"])]
       (range_index 2).

Definition header_only : DataFrame :=
  mkDF [("identifier", []); ("T2M", [])] [].

Definition sample_folder_world : World :=
  mkWorld (<["out/a.csv" := FCsv two_rows]> (<["out/b.csv" := FCsv header_only]> ∅)) ∅ [] [].

Definition centroids : DataFrame :=
  mkDF [("CVEGEO", [Str "01001"; Num "2002001"; Str "31050001"; NaN]);
        ("nombre", [Str "Aguascalientes"; Str "Mexicali"; Str "Merida"; Str "sin clave"]);
        ("edo", [Str "x"; Str "y"; Str "z"; Str "w"])]
       (range_index 4).

Definition centroid_world : World :=
  mkWorld {["centroids.csv" := FCsv centroids]} ∅ [] [].

(** Five municipalities: two whose code ends in [001] (one of them parsed
    as a number), one that ends otherwise, one without a code and one
    with a code of two characters. *)
Definition municipalities : DataFrame :=
  mkDF [("CVEGEO", [Str "01001"; Num "2001"; Str "31050"; NaN; Str "01"]);
        ("nombre", [Str "Aguascalientes"; Str "Mexicali"; Str "Merida"; Str "sin clave";
                    Str "corta"])]
       (range_index 5).

Definition municipality_world : World :=
  mkWorld {["municipios.csv" := FCsv municipalities]} ∅ [] [].

(** A response whose [parameter] object holds no variable. *)
Definition no_variable_response : Json := daily [].

(** A response whose [properties] member is a list that holds the string
    [parameter]. *)
Definition listed_parameter_response : Json :=
  JObj [("properties", JArr [JStr "parameter"])].

(** Row metadata without a latitude. *)
Definition no_latitude_row_info : list (string * Cell) :=
  [("index", Num "0"); ("longitude", Num "-99.13"); ("identifier", Str "cdmx")].

(** One location whose start-date cell is no date. *)
Definition bad_date_locations : DataFrame :=
  mkDF [("latitude", [Num "19.43"]); ("longitude", [Num "-99.13"]);
        ("inicio", [Str "enero"])]
       (range_index 1).

(** A location table with the two coordinate columns and no row. *)
Definition no_locations : DataFrame :=
  mkDF [("latitude", []); ("longitude", [])] [].

Definition single_worker_options : Options :=
  mkOptions "latitude" "longitude" "20150101" "20150305" ["T2M"; "TS"]
            "daily" "point" "RE" 1 "out" (Some "inicio") None None false.

(** The first row of the sample locations, and the job planned for it. *)
Definition first_label : Cell := Num "0".

Definition first_row : list (string * Cell) :=
  [("latitude", Num "19.43"); ("longitude", Num "-99.13"); ("inicio", Str "20150101")].

Definition first_row_info : list (string * Cell) :=
  [("index", Num "0"); ("latitude", Num "19.43"); ("longitude", Num "-99.13");
   ("start_date", Str "20150101"); ("end_date", Str "20150305");
   ("identifier", Str "idx_0"); ("filename", Str "idx_0.csv")].

Definition first_url : string :=
  "https://power.larc.nasa.gov/api/temporal/daily/point?parameters=T2M,TS&community=RE" +:+
  "&longitude=-99.13&latitude=19.43&start=20150101&end=20150305&format=JSON".

(** Seven locations, and a scheduler that always picks the sixth busy
    worker. *)
Definition seven_locations : DataFrame :=
  mkDF [("latitude", [Num "19.43"; Num "20.97"; Num "25.67"; Num "32.52"; Num "21.16";
                      Num "17.06"; Num "24.02"]);
        ("longitude", [Num "-99.13"; Num "-89.62"; Num "-100.31"; Num "-117.04";
                       Num "-86.85"; Num "-96.72"; Num "-104.65"])]
       (range_index 7).

Definition busy_env : Env :=
  sample_env (fun _ => Ok t2m_response) [5; 5; 5; 5; 5; 5; 5].

Definition seven_jobs : list Job :=
  match plan_rows busy_env sample_options
          (df_columns seven_locations) (formatted_template sample_options)
          (iterrows seven_locations) with
  | Ok jobs => jobs
  | Raise _ => []
  end.

(** A network on which the request for the second sample location fails. *)
Definition flaky_net (url : string) : Res Json :=
  if String.eqb url
       ("https://power.larc.nasa.gov/api/temporal/daily/point?parameters=T2M,TS&community=RE"
        +:+ "&longitude=-89.62&latitude=20.97&start=20150201&end=20150305&format=JSON")
  then Raise (mkExn "ConnectionError" "Max retries exceeded")
  else Ok t2m_response.

Definition flaky_env : Env := sample_env flaky_net [1; 1; 0].

(** * Properties *)

(** ** Association lists *)

Lemma assoc_assign_same {A} k (v : A) l : assoc k (assign k v l) = Some v.
Proof.
  induction l as [|[k' v'] l IH]; simpl.
  - now rewrite String.eqb_refl.
  - destruct (String.eqb k' k) eqn:E; simpl.
    + now rewrite String.eqb_refl.
    + now rewrite E.
Qed.

Lemma assoc_assign_other {A} k k' (v : A) l :
  k <> k' -> assoc k' (assign k v l) = assoc k' l.
Proof.
  intros Hne. induction l as [|[k0 v0] l IH]; simpl.
  - destruct (String.eqb_spec k k'); congruence.
  - destruct (String.eqb_spec k0 k) as [->|]; simpl.
    + destruct (String.eqb_spec k k'); congruence.
    + now rewrite IH.
Qed.

Lemma remove_key_assign {A} k (v : A) l :
  remove_key k (assign k v l) = remove_key k l.
Proof.
  unfold remove_key. induction l as [|[k' v'] l IH]; simpl.
  - now rewrite String.eqb_refl.
  - destruct (String.eqb k' k) eqn:E; simpl.
    + now rewrite String.eqb_refl.
    + now rewrite E, IH.
Qed.

Lemma mem_In k l : mem k l = true <-> In k l.
Proof.
  unfold mem. rewrite existsb_exists. split.
  - intros (x & Hx & E). apply String.eqb_eq in E. now subst.
  - intros H. exists k. split; [done | apply String.eqb_refl].
Qed.

Lemma mem_false_In k l : mem k l = false <-> ~ In k l.
Proof.
  rewrite <- mem_In. destruct (mem k l); split; congruence.
Qed.

Lemma mem_keys_assign {A} k (v : A) l : mem k (map fst (assign k v l)) = true.
Proof.
  apply mem_In. induction l as [|[k' v'] l IH]; simpl.
  - now left.
  - destruct (String.eqb k' k); simpl; auto.
Qed.

Lemma remove_key_keys {A} k (l : list (string * A)) :
  ~ In k (map fst (remove_key k l)).
Proof.
  unfold remove_key. rewrite in_map_iff. intros ([k' v] & E & Hin).
  apply filter_In in Hin as [_ Hin]. simpl in *. subst.
  now rewrite String.eqb_refl in Hin.
Qed.

Lemma keys_remove_key {A} k (l : list (string * A)) :
  map fst (remove_key k l) = List.filter (fun n => negb (String.eqb n k)) (map fst l).
Proof.
  unfold remove_key. induction l as [|[k' v] l IH]; simpl; [done|].
  destruct (String.eqb k' k); simpl; now rewrite IH.
Qed.

Lemma keys_assign_present {A} k (v : A) l :
  In k (map fst l) -> map fst (assign k v l) = map fst l.
Proof.
  induction l as [|[k' v'] l IH]; simpl; [done|].
  intros H. destruct (String.eqb_spec k' k) as [->|Hne]; simpl; [done|].
  f_equal. apply IH. destruct H; congruence.
Qed.

Lemma keys_assign_absent {A} k (v : A) l :
  ~ In k (map fst l) -> map fst (assign k v l) = map fst l ++ [k].
Proof.
  induction l as [|[k' v'] l IH]; simpl; [done|].
  intros H. destruct (String.eqb_spec k' k) as [->|Hne]; simpl.
  - tauto.
  - f_equal. apply IH. tauto.
Qed.

(** ** Rows of a frame *)

Lemma mask_filter_length {A} (mask : list bool) (l : list A) :
  length mask = length l -> length (mask_filter mask l) = count_true mask.
Proof.
  revert l. induction mask as [|b m IH]; intros [|x l] H; simpl in *; try done.
  injection H as H. destruct b; unfold count_true in *; simpl; auto.
Qed.

Lemma mask_filter_map {A} (p : A -> bool) (l : list A) :
  mask_filter (map p l) l = List.filter p l.
Proof.
  induction l as [|x l IH]; simpl; [done|]. destruct (p x); now rewrite IH.
Qed.

Lemma mask_filter_map_via {A B} (p : B -> bool) (f : A -> B) (col : list B) (l : list A) :
  map f l = col -> mask_filter (map p col) l = List.filter (fun x => p (f x)) l.
Proof.
  intros <-. rewrite map_map. apply (mask_filter_map (fun x => p (f x))).
Qed.

Lemma peel_columns (mask : list bool) data n :
  Forall (fun c => length (snd c) = S n) data ->
  heads (map (filter_col (true :: mask)) data) = heads data /\
  map tail_col (map (filter_col (true :: mask)) data) = map (filter_col mask) (map tail_col data) /\
  map (filter_col (false :: mask)) data = map (filter_col mask) (map tail_col data) /\
  Forall (fun c => length (snd c) = n) (map tail_col data).
Proof.
  induction 1 as [|[name col] data Hc _ (IH1 & IH2 & IH3 & IH4)]; simpl.
  - repeat split; constructor.
  - destruct col as [|x col]; simpl in Hc; [done|]. injection Hc as Hc.
    rewrite IH1, IH2, IH3. repeat split; try done.
    constructor; [done | exact IH4].
Qed.

Lemma rows_of_filter (mask : list bool) : forall n data,
  length mask = n ->
  Forall (fun c => length (snd c) = n) data ->
  rows_of (count_true mask) (map (filter_col mask) data) = mask_filter mask (rows_of n data).
Proof.
  induction mask as [|b m IH]; intros n data Hn Hwf; simpl in Hn; subst n.
  - reflexivity.
  - destruct (peel_columns m data _ Hwf) as (H1 & H2 & H3 & H4).
    destruct b; simpl.
    + change (count_true (true :: m)) with (S (count_true m)). simpl.
      rewrite H1, H2. f_equal. now apply IH.
    + change (count_true (false :: m)) with (count_true m).
      rewrite H3. now apply IH.
Qed.

Lemma peel_remove_key k data n :
  Forall (fun c => length (snd c) = S n) data ->
  heads (remove_key k data) = remove_key k (heads data) /\
  map tail_col (remove_key k data) = remove_key k (map tail_col data).
Proof.
  unfold remove_key.
  induction 1 as [|[name col] data Hc _ [IH1 IH2]]; simpl; [done|].
  destruct col as [|x col]; simpl in Hc; [done|].
  destruct (String.eqb name k) eqn:E; simpl; rewrite ?E; simpl; now rewrite IH1, IH2.
Qed.

Lemma rows_of_remove_key k : forall n data,
  Forall (fun c => length (snd c) = n) data ->
  rows_of n (remove_key k data) = map (remove_key k) (rows_of n data).
Proof.
  induction n as [|n IH]; intros data Hwf; simpl; [done|].
  destruct (peel_remove_key k data n Hwf) as [H1 H2].
  destruct (peel_columns [] data n Hwf) as (_ & _ & _ & H4).
  rewrite H1, H2. f_equal. now apply IH.
Qed.

Lemma assoc_head_tail name col data n :
  Forall (fun c => length (snd c) = S n) data ->
  assoc name data = Some col ->
  assoc name (heads data) = head col /\
  assoc name (map tail_col data) = Some (tl col).
Proof.
  induction 1 as [|[k c] data Hc _ IH]; simpl; [done|].
  destruct c as [|x c]; simpl in Hc; [done|].
  destruct (String.eqb k name) eqn:E; simpl; rewrite ?E.
  - intros [= <-]. done.
  - exact IH.
Qed.

Lemma rows_of_assoc name col : forall n data,
  Forall (fun c => length (snd c) = n) data ->
  assoc name data = Some col ->
  map (assoc name) (rows_of n data) = map Some col.
Proof.
  intros n. revert col. induction n as [|n IH]; intros col data Hwf Hcol; simpl.
  - assert (Hlen : length col = 0%nat).
    { clear -Hwf Hcol. induction Hwf as [|[k c] data Hc _ IH]; simpl in *; [done|].
      destruct (String.eqb k name); [now injection Hcol as <- | auto]. }
    now destruct col.
  - destruct (assoc_head_tail name col data n Hwf Hcol) as [H1 H2].
    destruct (peel_columns [] data n Hwf) as (_ & _ & _ & H4).
    rewrite H1, (IH _ _ H4 H2).
    assert (Hlen : length col = S n).
    { clear -Hwf Hcol. induction Hwf as [|[k c] data Hc _ IH]; simpl in *; [done|].
      destruct (String.eqb k name); [now injection Hcol as <- | auto]. }
    destruct col; simpl in *; done.
Qed.

(** ** [load_data.py] *)

Lemma substring_split (s : string) : forall n m,
  String.length s <= n + m -> substring 0 n s +:+ substring n m s = s.
Proof.
  induction s as [|c s IH]; intros n m H.
  - destruct n, m; reflexivity.
  - destruct n as [|n]; simpl in H.
    + destruct m as [|m]; [lia|].
      specialize (IH 0%nat m ltac:(lia)).
      replace (substring 0 0 s) with "" in IH by (destruct s; reflexivity).
      change (substring 0 m s = s) in IH.
      change (String c (substring 0 m s) = String c s). now f_equal.
    + change (String c (substring 0 n s +:+ substring n m s) = String c s).
      f_equal. apply IH. lia.
Qed.

Lemma substring_length (s : string) : forall n m,
  n + m <= String.length s -> String.length (substring n m s) = m.
Proof.
  induction s as [|c s IH]; intros n m H; simpl in H.
  - destruct n, m; simpl; lia.
  - destruct n as [|n]; simpl.
    + destruct m as [|m]; simpl; [done|]. f_equal. apply IH. lia.
    + apply IH. lia.
Qed.

(** [last3 s] is the suffix of [s] of length 3, or [s] itself when [s] is
    shorter. *)
Lemma last3_suffix (s : string) :
  (exists p, s = p +:+ last3 s) /\
  (3 <= String.length s -> String.length (last3 s) = 3%nat) /\
  (String.length s < 3 -> last3 s = s).
Proof.
  unfold last3. split; [|split].
  - exists (substring 0 (String.length s - 3) s). symmetry. apply substring_split. lia.
  - intros H. apply substring_length. lia.
  - intros H. replace (String.length s - 3)%nat with 0%nat by lia.
    generalize (substring_split s 0 3 ltac:(lia)). now destruct s.
Qed.

Lemma assign_wf name (values : list Cell) data n :
  Forall (fun c : string * list Cell => length (snd c) = n) data ->
  length values = n ->
  Forall (fun c : string * list Cell => length (snd c) = n) (assign name values data).
Proof.
  intros Hwf Hv. induction Hwf as [|[k c] data Hc Hdata IH]; simpl.
  - constructor; [done | constructor].
  - destruct (String.eqb k name); constructor; done.
Qed.

Lemma assoc_length name col (data : list (string * list Cell)) n :
  Forall (fun c => length (snd c) = n) data ->
  assoc name data = Some col -> length col = n.
Proof.
  induction 1 as [|[k c] data Hc _ IH]; simpl; [done|].
  destruct (String.eqb k name); [now intros [= <-] | auto].
Qed.

Lemma assoc_In {A} name (l : list (string * A)) :
  In name (map fst l) -> exists v, assoc name l = Some v.
Proof.
  induction l as [|[k v] l IH]; simpl; [done|].
  intros H. destruct (String.eqb_spec k name); [eauto|]. apply IH. tauto.
Qed.

Lemma with_dtype_str_wf env col df : df_wf df -> df_wf (with_dtype_str env col df).
Proof.
  unfold with_dtype_str, df_wf. intros Hwf.
  destruct (assoc col (df_data df)) as [c|] eqn:E; [|done]. simpl.
  apply assign_wf; [done|]. rewrite length_map. eapply assoc_length; eauto.
Qed.

Lemma with_dtype_str_columns env col df :
  df_columns (with_dtype_str env col df) = df_columns df.
Proof.
  unfold with_dtype_str, df_columns.
  destruct (assoc col (df_data df)) as [c|] eqn:E; [|done]. simpl.
  apply keys_assign_present.
  clear -E. induction (df_data df) as [|[k v] l IH]; simpl in *; [done|].
  destruct (String.eqb_spec k col); auto.
Qed.

Lemma select_state_data state df cvegeo :
  assoc "CVEGEO" (df_data df) = Some cvegeo ->
  select_state state df =
    Ok (mkDF (map (filter_col (map (eq_str state) (map str_last3 cvegeo)))
                  (remove_key "edo" (df_data df)))
             (mask_filter (map (eq_str state) (map str_last3 cvegeo)) (df_index df))).
Proof.
  intros Hc. unfold select_state, df_getcol. rewrite Hc. simpl.
  rewrite assoc_assign_same. unfold df_drop, df_filter, df_columns. simpl.
  set (mask := map (eq_str state) (map str_last3 cvegeo)).
  rewrite map_map. simpl.
  change (map (fun x : string * list Cell => fst x)) with (map (@fst string (list Cell))).
  rewrite mem_keys_assign. f_equal. f_equal.
  rewrite <- (remove_key_assign "edo" (map str_last3 cvegeo) (df_data df)).
  generalize (assign "edo" (map str_last3 cvegeo) (df_data df)).
  intros l. unfold remove_key. induction l as [|[k c] l IH]; simpl; [done|].
  destruct (String.eqb k "edo"); simpl; now rewrite IH.
Qed.

(** The rows of the result, in terms of the steps of the function. *)
Lemma select_state_rows env path state w t :
  files w !! path = Some (FCsv t) ->
  df_wf t ->
  In "CVEGEO" (df_columns t) ->
  exists r,
    load_centroid_data env path state w = (Ok r, w) /\
    df_rows r = map (remove_key "edo")
                    (List.filter (has_state state)
                                 (df_rows (with_dtype_str env "CVEGEO" t))) /\
    ~ In "edo" (df_columns r).
Proof.
  intros Hfile Hwf Hcol.
  pose proof (with_dtype_str_wf env "CVEGEO" t Hwf) as Hwf'.
  rewrite <- (with_dtype_str_columns env "CVEGEO" t) in Hcol.
  set (df := with_dtype_str env "CVEGEO" t) in *.
  destruct (assoc_In _ _ Hcol) as [cvegeo Hc].
  unfold load_centroid_data, read_csv_dtype_str, bind, read_csv, ret, lift.
  rewrite Hfile. fold df. rewrite (select_state_data state df cvegeo Hc).
  eexists. split; [reflexivity|].
  set (mask := map (eq_str state) (map str_last3 cvegeo)).
  assert (Hlen : length mask = length (df_index df)).
  { unfold mask. rewrite !length_map. eapply assoc_length; eauto. }
  split.
  - unfold df_rows, df_len. simpl.
    rewrite (mask_filter_length mask (df_index df) Hlen).
    assert (Hwf2 : Forall (fun c : string * list Cell => length (snd c) = length (df_index df))
                          (remove_key "edo" (df_data df))).
    { unfold remove_key. apply List.Forall_forall. intros c Hin.
      apply filter_In in Hin as [Hin _]. revert c Hin. now apply List.Forall_forall. }
    rewrite (rows_of_filter mask _ _ Hlen Hwf2), (rows_of_remove_key "edo" _ _ Hwf').
    set (rows := rows_of (length (df_index df)) (df_data df)).
    assert (Hrows : map (assoc "CVEGEO") rows = map Some cvegeo)
      by (apply rows_of_assoc; done).
    assert (Hm : mask = map (has_state state) rows).
    { unfold mask. rewrite map_map.
      assert (E : map (has_state state) rows =
                  map (fun o => match o with
                                | Some v => eq_str state (str_last3 v)
                                | None => false
                                end) (map (assoc "CVEGEO") rows)).
      { rewrite map_map. apply map_ext. intros row. unfold has_state.
        destruct (assoc "CVEGEO" row) as [[]|]; done. }
      rewrite E, Hrows, map_map. done. }
    rewrite Hm. clear.
    induction rows as [|row rows IH]; simpl; [done|].
    destruct (has_state state row); simpl; now rewrite IH.
  - unfold df_columns. simpl. rewrite map_map. simpl.
    apply remove_key_keys.
Qed.

Lemma list_ascii_app (a b : string) :
  list_ascii_of_string (a +:+ b) = list_ascii_of_string a ++ list_ascii_of_string b.
Proof.
  induction a as [|c a IH]; [done|].
  change (c :: list_ascii_of_string (a +:+ b) =
          c :: (list_ascii_of_string a ++ list_ascii_of_string b)).
  now rewrite IH.
Qed.

Lemma list_ascii_length (s : string) :
  length (list_ascii_of_string s) = String.length s.
Proof. induction s as [|c s IH]; simpl; [done | now rewrite IH]. Qed.

Lemma last_three_chars_suffix (p x : string) :
  String.length x = 3%nat -> last_three_chars (p +:+ x) = x.
Proof.
  intros Hx. unfold last_three_chars.
  rewrite list_ascii_app, rev_app_distr, firstn_app.
  assert (Hl : length (rev (list_ascii_of_string x)) = 3%nat)
    by (now rewrite length_rev, list_ascii_length).
  rewrite Hl, firstn_all2 by lia. cbn [firstn Nat.sub].
  rewrite app_nil_r, rev_involutive. apply string_of_list_ascii_of_string.
Qed.

Lemma last_three_chars_short (s : string) :
  String.length s <= 3 -> last_three_chars s = s.
Proof.
  intros Hs. unfold last_three_chars.
  rewrite firstn_all2 by (now rewrite length_rev, list_ascii_length).
  rewrite rev_involutive. apply string_of_list_ascii_of_string.
Qed.

Lemma last3_last_three_chars (s : string) : last3 s = last_three_chars s.
Proof.
  destruct (last3_suffix s) as ([p Hp] & Hlong & Hshort).
  destruct (le_lt_dec 3 (String.length s)) as [H|H].
  - transitivity (last_three_chars (p +:+ last3 s)); [|now rewrite <- Hp].
    symmetry. apply last_three_chars_suffix. auto.
  - rewrite (Hshort H). symmetry. apply last_three_chars_short. lia.
Qed.

(** What [last_three_chars] computes: [x] is the end of [s] and has three
    characters, or it is all of [s] and [s] has fewer. *)
Lemma last_three_chars_spec (s x : string) :
  last_three_chars s = x <->
  (exists p, s = p +:+ x /\ String.length x = 3%nat) \/
  (s = x /\ String.length s < 3).
Proof.
  split.
  - intros <-. rewrite <- last3_last_three_chars.
    destruct (last3_suffix s) as ([p Hp] & Hlong & Hshort).
    destruct (le_lt_dec 3 (String.length s)) as [H|H].
    + left. exists p. split; [exact Hp | auto].
    + right. split; [now rewrite Hshort | exact H].
  - intros [(p & -> & Hx) | [-> Hs]].
    + now apply last_three_chars_suffix.
    + apply last_three_chars_short. lia.
Qed.

Lemma peel_assign name (v : Cell) (vs : list Cell) data n :
  Forall (fun c => length (snd c) = S n) data ->
  heads (assign name (v :: vs) data) = assign name v (heads data) /\
  map tail_col (assign name (v :: vs) data) = assign name vs (map tail_col data).
Proof.
  induction 1 as [|[k c] data Hc _ [IH1 IH2]]; simpl; [done|].
  destruct c as [|y c]; simpl in Hc; [done|].
  destruct (String.eqb k name) eqn:E; simpl; rewrite ?E; [done|].
  now rewrite IH1, IH2.
Qed.

Lemma rows_of_assign_map name (f : Cell -> Cell) : forall n col data,
  Forall (fun c => length (snd c) = n) data ->
  assoc name data = Some col ->
  rows_of n (assign name (map f col) data) =
    map (fun row => match assoc name row with
                    | Some c => assign name (f c) row
                    | None => row
                    end) (rows_of n data).
Proof.
  induction n as [|n IH]; intros col data Hwf Hcol; [done|].
  pose proof (assoc_length _ _ _ _ Hwf Hcol) as Hlen.
  destruct col as [|x col]; [discriminate|].
  destruct (assoc_head_tail name _ data n Hwf Hcol) as [H1 H2].
  destruct (peel_columns [] data n Hwf) as (_ & _ & _ & H4).
  destruct (peel_assign name (f x) (map f col) data n Hwf) as [P1 P2].
  cbn [rows_of map]. cbn [map] in P1, P2. rewrite P1, P2.
  cbn [head] in H1. rewrite H1. f_equal.
  cbn [tl] in H2. now apply IH.
Qed.

Lemma filter_map_comm {A B} (p : B -> bool) (g : A -> B) (l : list A) :
  List.filter p (map g l) = map g (List.filter (fun x => p (g x)) l).
Proof.
  induction l as [|x l IH]; simpl; [done|].
  destruct (p (g x)); simpl; now rewrite IH.
Qed.

Lemma csv_text_as_str env (c : Cell) :
  match csv_text env c with
  | Some s => as_str env c = Str s
  | None => as_str env c = NaN
  end.
Proof. destruct c as [| |[]| | | |]; reflexivity. Qed.

(** C9: the rows returned by [load_centroid_data] are exactly the rows of
    the CSV whose [CVEGEO] field, read as text, has the given state code
    as its last three characters: they come in the order of the file,
    each with its [CVEGEO] field as text and without the derived [edo]
    field, and no column named [edo] is left in the result.  The
    selection is stated on the rows of the file itself, with the text of
    a field and its last three characters defined apart from the
    function's own steps. *)
Theorem load_centroid_data_rows env path state w t :
  files w !! path = Some (FCsv t) ->
  df_wf t ->
  In "CVEGEO" (df_columns t) ->
  exists r,
    load_centroid_data env path state w = (Ok r, w) /\
    df_rows r = map (returned_row env)
                    (List.filter (code_matches_state env state) (df_rows t)) /\
    ~ In "edo" (df_columns r).
Proof.
  intros Hfile Hwf Hcol.
  destruct (select_state_rows env path state w t Hfile Hwf Hcol) as (r & Hload & Hrows & Hedo).
  exists r. split; [exact Hload|]. split; [|exact Hedo].
  rewrite Hrows. clear Hrows Hload Hedo r.
  destruct (assoc_In _ _ Hcol) as [cvegeo Hc].
  assert (Hd : df_rows (with_dtype_str env "CVEGEO" t) =
               map (fun row => match assoc "CVEGEO" row with
                               | Some c => assign "CVEGEO" (as_str env c) row
                               | None => row
                               end) (df_rows t)).
  { unfold df_rows, with_dtype_str, df_len. rewrite Hc. cbn [df_setcol df_data df_index].
    now apply rows_of_assign_map. }
  rewrite Hd, filter_map_comm, map_map.
  assert (Hsel : forall row,
             has_state state
               match assoc "CVEGEO" row with
               | Some c => assign "CVEGEO" (as_str env c) row
               | None => row
               end = code_matches_state env state row).
  { intros row. unfold has_state, code_matches_state.
    destruct (assoc "CVEGEO" row) as [c|] eqn:E; [|now rewrite E].
    rewrite assoc_assign_same.
    pose proof (csv_text_as_str env c) as Hs.
    destruct (csv_text env c) as [s|]; rewrite Hs; [|done].
    now rewrite last3_last_three_chars. }
  rewrite (filter_ext _ _ Hsel).
  apply map_ext_in. intros row Hin. apply filter_In in Hin as [_ Hm].
  unfold returned_row. unfold code_matches_state in Hm.
  destruct (assoc "CVEGEO" row) as [c|]; [|done].
  pose proof (csv_text_as_str env c) as Hs.
  destruct (csv_text env c) as [s|]; [|discriminate]. now rewrite Hs.
Qed.

Lemma assign_assign_ne {A} k1 k2 (v1 v2 : A) l :
  k1 <> k2 -> In k1 (map fst l) ->
  assign k1 v1 (assign k2 v2 l) = assign k2 v2 (assign k1 v1 l).
Proof.
  intros Hne. induction l as [|[k v] l IH]; simpl; [done|].
  intros Hin.
  destruct (String.eqb_spec k k2) as [->|Hk2]; simpl.
  - destruct (String.eqb_spec k2 k1) as [E|_]; [congruence|]. simpl.
    rewrite String.eqb_refl. destruct Hin as [E|Hin]; [congruence|].
    reflexivity.
  - destruct (String.eqb_spec k k1) as [->|Hk1]; simpl.
    + destruct (String.eqb_spec k1 k2); [congruence | reflexivity].
    + destruct (String.eqb_spec k k2); [congruence|].
      f_equal. apply IH. destruct Hin; congruence.
Qed.

Lemma with_dtype_str_setcol env v t :
  In "CVEGEO" (df_columns t) ->
  with_dtype_str env "CVEGEO" (df_setcol "edo" v t) =
  df_setcol "edo" v (with_dtype_str env "CVEGEO" t).
Proof.
  intros Hin. destruct (assoc_In _ _ Hin) as [c Hc].
  unfold with_dtype_str. simpl.
  rewrite assoc_assign_other by done. rewrite Hc.
  unfold df_setcol. simpl. f_equal. now apply assign_assign_ne.
Qed.

Lemma select_state_setcol state v df :
  In "CVEGEO" (df_columns df) ->
  select_state state (df_setcol "edo" v df) = select_state state df.
Proof.
  intros Hin. destruct (assoc_In _ _ Hin) as [c Hc].
  rewrite (select_state_data state df c Hc).
  rewrite (select_state_data state (df_setcol "edo" v df) c).
  - simpl. now rewrite remove_key_assign.
  - simpl. now rewrite assoc_assign_other.
Qed.

Lemma filter_col_keys mask data : map fst (map (filter_col mask) data) = map fst data.
Proof. rewrite map_map. reflexivity. Qed.

(** C10: whatever the CSV holds, the returned table has the CSV's columns
    without [edo]; a column named [edo] in the CSV is overwritten and
    dropped without an error, so the result is the same whatever values
    that column held. *)
Theorem load_centroid_data_edo_lost env path state w t :
  files w !! path = Some (FCsv t) ->
  In "CVEGEO" (df_columns t) ->
  exists r,
    load_centroid_data env path state w = (Ok r, w) /\
    df_columns r = List.filter (fun n => negb (String.eqb n "edo")) (df_columns t) /\
    forall (v : list Cell) (w2 : World),
      files w2 !! path = Some (FCsv (df_setcol "edo" v t)) ->
      load_centroid_data env path state w2 = (Ok r, w2).
Proof.
  intros Hfile Hcol.
  pose proof Hcol as Hcol'.
  rewrite <- (with_dtype_str_columns env "CVEGEO" t) in Hcol'.
  destruct (assoc_In _ _ Hcol') as [cvegeo Hc].
  exists (mkDF (map (filter_col (map (eq_str state) (map str_last3 cvegeo)))
                    (remove_key "edo" (df_data (with_dtype_str env "CVEGEO" t))))
               (mask_filter (map (eq_str state) (map str_last3 cvegeo))
                            (df_index (with_dtype_str env "CVEGEO" t)))).
  split; [|split].
  - unfold load_centroid_data, read_csv_dtype_str, bind, read_csv, ret, lift.
    rewrite Hfile. now rewrite (select_state_data state _ cvegeo Hc).
  - unfold df_columns at 1. simpl. rewrite filter_col_keys, keys_remove_key.
    fold (df_columns (with_dtype_str env "CVEGEO" t)).
    now rewrite with_dtype_str_columns.
  - intros v w2 Hfile2.
    unfold load_centroid_data, read_csv_dtype_str, bind, read_csv, ret, lift.
    rewrite Hfile2, with_dtype_str_setcol by done.
    rewrite select_state_setcol by done.
    now rewrite (select_state_data state _ cvegeo Hc).
Qed.

(** ** The worker *)

Lemma bind_ok {A B} (c : M A) (k : A -> M B) w a w' :
  c w = (Ok a, w') -> bind c k w = k a w'.
Proof. unfold bind. now intros ->. Qed.

Lemma bind_raise {A B} (c : M A) (k : A -> M B) w e w' :
  c w = (Raise e, w') -> bind c k w = (Raise e, w').
Proof. unfold bind. now intros ->. Qed.

Lemma mem_keys_assoc {A} k (l : list (string * A)) :
  mem k (map fst l) = bool_decide (is_Some (assoc k l)).
Proof.
  induction l as [|[k' v] l IH]; simpl; [done|].
  rewrite String.eqb_sym.
  destruct (String.eqb k' k); simpl; done.
Qed.

Lemma mem_keys_assoc_none {A} k (l : list (string * A)) :
  assoc k l = None -> mem k (map fst l) = false.
Proof.
  intros H. rewrite mem_keys_assoc, H. apply bool_decide_eq_false. now intros [? ?].
Qed.

Lemma mem_keys_assoc_some {A} k (l : list (string * A)) v :
  assoc k l = Some v -> mem k (map fst l) = true.
Proof.
  intros H. rewrite mem_keys_assoc, H. apply bool_decide_eq_true. eauto.
Qed.

(** C2: the worker returns an Outcome for every job and never raises; a
    failure inside it (for one, a failed request) gives [success = False]
    with the exception's message, a completion gives [success = True]
    with no error, and the error is [None] exactly when the job
    succeeded. *)
Theorem download_function_never_raises env (request filepath : string)
    (row_info : list (string * Cell)) (w : World) :
  exists (o : Outcome) (w' : World),
    download_function env (request, filepath, row_info) w = (Ok o, w') /\
    outcome_row_info o = row_info /\
    match download_body env request filepath row_info w with
    | (Ok _, _) => outcome_success o = true /\ outcome_error o = None
    | (Raise e, _) => outcome_success o = false /\ outcome_error o = Some (exn_msg e)
    end /\
    (forall e, http_get_json env w request = Raise e ->
               o = (row_info, false, Some (exn_msg e))) /\
    (outcome_error o = None <-> outcome_success o = true).
Proof.
  unfold download_function, try_except, bind at 1.
  destruct (download_body env request filepath row_info w) as [[[]|e] w1] eqn:Hbody.
  - exists (row_info, true, None), w1. repeat split; try done.
    intros e He. unfold download_body in Hbody.
    erewrite bind_raise in Hbody; [done|]. unfold requests_get_json. now rewrite He.
  - exists (row_info, false, Some (exn_msg e)), w1. repeat split; try done.
    intros e' He. unfold download_body in Hbody.
    erewrite bind_raise in Hbody by (unfold requests_get_json; now rewrite He).
    now injection Hbody as <- _.
Qed.

Lemma lacks_contains key v : lacks key v = true -> py_contains key v = Ok false.
Proof.
  destruct v; simpl; try discriminate; intros H; apply negb_true_iff in H; now rewrite H.
Qed.

(** C3, as amended: when the response is a JSON object, array or string
    that does not hold [properties], or a JSON object whose [properties]
    member is an object, array or string that does not hold [parameter],
    the worker reports success with no error and leaves every file as it
    was. *)
Theorem download_function_silent_success env (request filepath : string)
    (row_info : list (string * Cell)) (w : World) (response : Json) :
  http_get_json env w request = Ok response ->
  lacks_parameter response = true ->
  download_function env (request, filepath, row_info) w =
    (Ok (row_info, true, None), log_request request w) /\
  files (log_request request w) = files w.
Proof.
  intros Hget Hlack. split; [|reflexivity].
  unfold download_function, try_except, bind at 1, download_body.
  erewrite bind_ok by (unfold requests_get_json; now rewrite Hget).
  unfold lacks_parameter in Hlack.
  destruct (lacks "properties" response) eqn:Hl.
  - unfold bind, lift, ret. now rewrite (lacks_contains _ _ Hl).
  - simpl in Hlack.
    destruct response as [| | | | |members]; try discriminate.
    destruct (assoc "properties" members) as [props|] eqn:Hp; [|discriminate].
    unfold bind, lift, py_contains at 1, py_getitem, ret.
    rewrite (mem_keys_assoc_some _ _ _ Hp), Hp, (lacks_contains _ _ Hlack). reflexivity.
Qed.

Lemma mem_app k l1 l2 : mem k (l1 ++ l2) = (mem k l1 || mem k l2)%bool.
Proof. unfold mem. apply existsb_app. Qed.

Lemma select_cols_all names (data : list (string * list Cell)) :
  (forall n, In n names -> In n (map fst data)) ->
  exists cs, select_cols names data = Ok cs /\
             map fst cs = names /\
             forall n, In n names -> assoc n cs = assoc n data.
Proof.
  induction names as [|n0 names IH]; intros Hall; simpl.
  - exists []. repeat split; [done..|]. intros n [].
  - destruct (assoc_In n0 data) as [c Hc]; [apply Hall; now left|].
    destruct IH as (cs & -> & Hk & Ha); [intros; apply Hall; now right|].
    rewrite Hc. exists ((n0, c) :: cs). repeat split; simpl; [now rewrite Hk|].
    intros n Hn. destruct (String.eqb_spec n0 n) as [->|Hne]; [done|].
    apply Ha. destruct Hn; congruence.
Qed.

Lemma filter_not_reserved (base vars : list string) :
  (forall c, In c base -> In c reserved_cols) ->
  Forall (fun c => ~ In c reserved_cols) vars ->
  List.filter (fun col => negb (mem col base)) vars = vars.
Proof.
  intros Hbase. induction 1 as [|c vars Hc _ IH]; simpl; [done|].
  assert (E : mem c base = false) by (apply mem_false_In; auto).
  now rewrite E, IH.
Qed.

Lemma keys_setconst_absent name v df :
  ~ In name (df_columns df) ->
  df_columns (df_setconst name v df) = df_columns df ++ [name].
Proof. intros H. unfold df_columns, df_setconst, df_setcol. simpl. now apply keys_assign_absent. Qed.

Lemma not_reserved_app (vars extra : list string) k :
  Forall (fun c => ~ In c reserved_cols) vars ->
  In k reserved_cols -> ~ In k extra -> ~ In k (vars ++ extra).
Proof.
  intros Hv Hk He Hin. apply in_app_or in Hin as [Hin|Hin]; [|done].
  revert Hin. rewrite List.Forall_forall in Hv. intros Hin. now apply (Hv k).
Qed.

Ltac reserved := unfold reserved_cols; simpl; tauto.
Ltac absent := simpl; intros Habs; repeat (destruct Habs as [Habs|Habs]; [discriminate|]); exact Habs.

Lemma not_reserved_mem (vars : list string) k :
  Forall (fun c => ~ In c reserved_cols) vars -> In k reserved_cols -> mem k vars = false.
Proof.
  intros Hv Hk. apply mem_false_In. intros Hin.
  rewrite List.Forall_forall in Hv. now apply (Hv k).
Qed.

(** Lines 38-45 on a frame whose columns are the variables, the metadata
    and the date or period column [X]. *)
Lemma ordered_columns (X : string) (xs : list Cell) (df3 : DataFrame) (vars : list string) :
  X = "date" \/ X = "period" ->
  Forall (fun c => ~ In c reserved_cols) vars ->
  df_columns df3 = vars ++ ["latitude"; "longitude"; "identifier"] ->
  let df4 := df_setcol X xs df3 in
  exists t,
    df_select (base_cols df4 ++ other_cols df4) df4 = Ok t /\
    df_index t = df_index df3 /\
    df_columns t = ["identifier"; "latitude"; "longitude"; X] ++ vars /\
    assoc X (df_data t) = Some xs /\
    forall c, In c vars -> assoc c (df_data t) = assoc c (df_data df3).
Proof.
  intros HX Hvars K3 df4.
  assert (Hmd : mem "date" vars = false) by (apply not_reserved_mem; [done | reserved]).
  assert (Hmp : mem "period" vars = false) by (apply not_reserved_mem; [done | reserved]).
  assert (K4 : df_columns df4 = vars ++ ["latitude"; "longitude"; "identifier"; X]).
  { unfold df4, df_columns, df_setcol. simpl. rewrite keys_assign_absent.
    - fold (df_columns df3). rewrite K3, <- app_assoc. done.
    - fold (df_columns df3). rewrite K3.
      destruct HX as [-> | ->]; (apply not_reserved_app; [done | reserved | absent]). }
  assert (Hbase : base_cols df4 = ["identifier"; "latitude"; "longitude"; X]).
  { unfold base_cols. rewrite K4, !mem_app, Hmd, Hmp.
    destruct HX as [-> | ->]; reflexivity. }
  assert (Hother : other_cols df4 = vars).
  { unfold other_cols. rewrite Hbase, K4, List.filter_app.
    rewrite filter_not_reserved; [| |done].
    - destruct HX as [-> | ->]; simpl; apply app_nil_r.
    - destruct HX as [-> | ->]; intros c; reserved. }
  rewrite Hbase, Hother. unfold df_select.
  destruct (select_cols_all (["identifier"; "latitude"; "longitude"; X] ++ vars) (df_data df4))
    as (cs & -> & Hk & Ha).
  { fold (df_columns df4). rewrite K4. intros n Hn. apply in_or_app.
    apply in_app_or in Hn as [Hn|Hn]; [right | now left]. simpl in *. tauto. }
  exists (mkDF cs (df_index df4)). repeat split; try done.
  - rewrite Ha by (simpl; tauto). apply assoc_assign_same.
  - intros c Hc. simpl. rewrite Ha by (apply in_or_app; now right).
    unfold df4, df_setcol. simpl. apply assoc_assign_other.
    intros ->. rewrite List.Forall_forall in Hvars. apply (Hvars _ Hc).
    destruct HX as [-> | ->]; reserved.
Qed.

(** The table the worker writes for a frame none of whose columns has a
    reserved name. *)
Lemma tabulate_columns env row_info df latitude longitude identifier :
  dict_get row_info "latitude" = Ok latitude ->
  dict_get row_info "longitude" = Ok longitude ->
  dict_get row_info "identifier" = Ok identifier ->
  df_empty df = false ->
  Forall (fun c => ~ In c reserved_cols) (df_columns df) ->
  exists t,
    tabulate env row_info df = Ok t /\
    df_index t = df_index df /\
    (forall c, In c (df_columns df) -> assoc c (df_data t) = assoc c (df_data df)) /\
    match to_datetime_ymd env (df_index df) with
    | Some dates =>
        df_columns t = ["identifier"; "latitude"; "longitude"; "date"] ++ df_columns df /\
        assoc "date" (df_data t) = Some dates
    | None =>
        df_columns t = ["identifier"; "latitude"; "longitude"; "period"] ++ df_columns df /\
        assoc "period" (df_data t) = Some (df_index df)
    end.
Proof.
  intros Hlat Hlon Hid Hne Hvars.
  unfold tabulate. rewrite Hlat, Hlon, Hid.
  set (vars := df_columns df) in *.
  set (df1 := df_setconst "latitude" latitude df).
  set (df2 := df_setconst "longitude" longitude df1).
  set (df3 := df_setconst "identifier" identifier df2).
  assert (K1 : df_columns df1 = vars ++ ["latitude"]).
  { apply keys_setconst_absent. rewrite <- (app_nil_r (df_columns df)).
    apply not_reserved_app; [done | reserved | absent]. }
  assert (K2 : df_columns df2 = vars ++ ["latitude"; "longitude"]).
  { unfold df2. rewrite keys_setconst_absent, K1, <- app_assoc; [done|].
    rewrite K1. apply not_reserved_app; [done | reserved | absent]. }
  assert (K3 : df_columns df3 = vars ++ ["latitude"; "longitude"; "identifier"]).
  { unfold df3. rewrite keys_setconst_absent, K2, <- app_assoc; [done|].
    rewrite K2. apply not_reserved_app; [done | reserved | absent]. }
  assert (Hlen : (0 <? df_len df3)%nat = true).
  { change (df_len df3) with (df_len df). unfold df_empty in Hne.
    apply orb_false_elim in Hne as [_ Hne]. apply Nat.eqb_neq in Hne.
    apply Nat.ltb_lt. lia. }
  assert (Hkeep : forall c, In c vars -> assoc c (df_data df3) = assoc c (df_data df)).
  { intros c Hc. rewrite List.Forall_forall in Hvars. specialize (Hvars _ Hc).
    unfold df3, df2, df1, df_setconst, df_setcol. simpl.
    rewrite !assoc_assign_other; [done | ..]; intros <-; apply Hvars; reserved. }
  unfold add_dates. rewrite Hlen. change (df_index df3) with (df_index df).
  destruct (to_datetime_ymd env (df_index df)) as [dates|].
  - destruct (ordered_columns "date" dates df3 vars) as (t & Ht & Hi & Hc & Hx & Hv);
      [now left | done | done |].
    exists t. repeat split; try done. intros c Hin. now rewrite Hv, Hkeep.
  - destruct (ordered_columns "period" (df_index df) df3 vars) as (t & Ht & Hi & Hc & Hx & Hv);
      [now right | done | done |].
    exists t. repeat split; try done. intros c Hin. now rewrite Hv, Hkeep.
Qed.

(** C5, as amended: when no column of the response table is named
    [identifier], [latitude], [longitude], [date] or [period], the file the
    worker writes has the columns [identifier], [latitude], [longitude],
    then [date] (holding the parsed dates, when every period key parses)
    or else [period] (holding the period keys as they came), then the
    variable columns in the order of the response, unchanged. *)
Theorem written_file_columns env (request filepath : string)
    (row_info : list (string * Cell)) (w : World)
    (response params : Json) (df : DataFrame) (latitude longitude identifier : Cell) :
  http_get_json env w request = Ok response ->
  response_parameter response = Some params ->
  frame_of_json env params = Ok df ->
  df_empty df = false ->
  Forall (fun c => ~ In c reserved_cols) (df_columns df) ->
  dict_get row_info "latitude" = Ok latitude ->
  dict_get row_info "longitude" = Ok longitude ->
  dict_get row_info "identifier" = Ok identifier ->
  write_error env (log_request request w) filepath = None ->
  exists (t : DataFrame) (w' : World),
    download_function env (request, filepath, row_info) w = (Ok (row_info, true, None), w') /\
    files w' !! filepath = Some (FCsv t) /\
    (forall c, In c (df_columns df) -> assoc c (df_data t) = assoc c (df_data df)) /\
    match to_datetime_ymd env (df_index df) with
    | Some dates =>
        df_columns t = ["identifier"; "latitude"; "longitude"; "date"] ++ df_columns df /\
        assoc "date" (df_data t) = Some dates
    | None =>
        df_columns t = ["identifier"; "latitude"; "longitude"; "period"] ++ df_columns df /\
        assoc "period" (df_data t) = Some (df_index df)
    end.
Proof.
  intros Hget Hparam Hframe Hne Hvars Hlat Hlon Hid Hwrite.
  destruct (tabulate_columns env row_info df _ _ _ Hlat Hlon Hid Hne Hvars)
    as (t & Ht & Hi & Hv & Hcols).
  destruct response as [| | | | |members]; try discriminate. simpl in Hparam.
  destruct (assoc "properties" members) as [[| | | | |inner]|] eqn:Hp; try discriminate.
  exists (mkDF (df_data t) (range_index (df_len t))). eexists. split; [|split; [|split]].
  - unfold download_function, try_except, bind at 1, download_body.
    erewrite bind_ok by (unfold requests_get_json; now rewrite Hget).
    unfold bind, lift, py_contains, py_getitem, ret.
    rewrite (mem_keys_assoc_some _ _ _ Hp), Hp, (mem_keys_assoc_some _ _ _ Hparam), Hparam.
    rewrite Hframe, Hne. simpl. rewrite Ht. unfold to_csv. rewrite Hwrite. reflexivity.
  - simpl. apply lookup_insert_eq.
  - exact Hv.
  - exact Hcols.
Qed.

(** ** Validation *)

(** C4: a missing latitude or longitude column, an empty parameter list,
    or a temporal resolution, spatial resolution or community outside its
    valid values makes [download_nasa_power_data] raise a [ValueError]
    and leaves the world as it was: no directory, file, request or
    console line is produced. *)
Theorem invalid_options_raise_first env (df : DataFrame) (o : Options) (w : World) :
  ~ In (lat_col o) (df_columns df) \/
  ~ In (lon_col o) (df_columns df) \/
  parameters o = [] \/
  ~ In (temporal_resolution o) valid_temporal_resolutions \/
  ~ In (spatial_resolution o) valid_spatial_resolutions \/
  ~ In (community o) valid_communities ->
  exists e,
    download_nasa_power_data env df o w = (Raise e, w) /\
    exn_class e = "ValueError".
Proof.
  intros H.
  assert (Hv : exists e, validate df o = Some e /\ exn_class e = "ValueError").
  { unfold validate.
    destruct (mem (lat_col o) (df_columns df)) eqn:E1; cbn [negb orb]; [|eauto].
    destruct (mem (lon_col o) (df_columns df)) eqn:E2; cbn [negb orb]; [|eauto].
    destruct (parameters o) as [|p ps] eqn:E3; cbn [length Nat.eqb]; [eauto|].
    destruct (mem (temporal_resolution o) valid_temporal_resolutions) eqn:E4;
      cbn [negb]; [|eauto].
    destruct (mem (spatial_resolution o) valid_spatial_resolutions) eqn:E5;
      cbn [negb]; [|eauto].
    destruct (mem (community o) valid_communities) eqn:E6; cbn [negb]; [|eauto].
    apply mem_In in E1, E2, E4, E5, E6.
    destruct H as [H|[H|[H|[H|[H|H]]]]]; done. }
  destruct Hv as (e & Hv & Hc). exists e. split; [|done].
  unfold download_nasa_power_data. now rewrite Hv.
Qed.

(** ** The pool *)

Section PoolFacts.
Context {A : Type}.
Implicit Types (st : PoolState A) (tasks : list A).

Lemma pool_fill_bound size st :
  length (inflight st) <= size -> length (inflight (pool_fill size st)) <= size.
Proof.
  intros H. unfold pool_fill. simpl. rewrite length_app, length_take. lia.
Qed.

Lemma pool_complete_pick choice st :
  0 < length (inflight st) ->
  exists k x, inflight st !! k = Some x /\
              pool_complete choice st =
                mkPool (pending st) (delete k (inflight st)) (finished st ++ [x]).
Proof.
  intros H. unfold pool_complete.
  destruct (inflight st) as [|t ts] eqn:E; [simpl in H; lia|].
  remember (t :: ts) as l eqn:El.
  assert (Hk : choice mod length l < length l) by (apply Nat.mod_upper_bound; lia).
  destruct (lookup_lt_is_Some_2 l _ Hk) as [x Hx].
  exists (choice mod length l)%nat, x. now rewrite Hx.
Qed.

Lemma pool_complete_bound choice size st :
  length (inflight st) <= size -> length (inflight (pool_complete choice st)) <= size.
Proof.
  intros H. destruct (Nat.eq_dec (length (inflight st)) 0) as [Hz|Hnz].
  - unfold pool_complete. destruct (inflight st) eqn:E; [now rewrite E | done].
  - destruct (pool_complete_pick choice st) as (k & x & Hx & ->); [lia|].
    cbn [inflight]. rewrite length_delete by eauto. lia.
Qed.

Lemma pool_trace_bound size n : forall sched st,
  length (inflight st) <= size ->
  Forall (fun s => length (inflight s) <= size) (pool_trace size n sched st).
Proof.
  induction n as [|n IH]; intros sched st H; simpl.
  - constructor; [done | constructor].
  - constructor; [now apply pool_fill_bound|].
    apply IH. now apply pool_complete_bound, pool_fill_bound.
Qed.

Lemma pool_fill_all size st : Permutation (pool_all (pool_fill size st)) (pool_all st).
Proof.
  unfold pool_all, pool_fill. cbn [pending inflight finished].
  set (k := (size - length (inflight st))%nat).
  generalize (take_drop k (pending st)).
  generalize (take k (pending st)) (drop k (pending st)).
  intros l1 l2 <-. solve_Permutation.
Qed.

Lemma pool_fill_left size st : pool_left (pool_fill size st) = pool_left st.
Proof.
  unfold pool_left, pool_fill. simpl.
  rewrite length_app, length_take, length_drop. lia.
Qed.

Lemma pool_fill_busy size st :
  1 <= size -> 0 < pool_left st -> 0 < length (inflight (pool_fill size st)).
Proof.
  intros Hs Hl. unfold pool_left in Hl. unfold pool_fill. simpl.
  rewrite length_app, length_take. lia.
Qed.

Lemma pool_complete_all choice st :
  Permutation (pool_all (pool_complete choice st)) (pool_all st).
Proof.
  destruct (Nat.eq_dec (length (inflight st)) 0) as [Hz|Hnz].
  - unfold pool_complete. destruct (inflight st) eqn:E; done.
  - destruct (pool_complete_pick choice st) as (k & x & Hx & ->); [lia|].
    unfold pool_all. cbn [pending inflight finished].
    apply Permutation_app_head.
    pose proof (delete_Permutation (inflight st) k x Hx) as Hp.
    revert Hp. generalize (finished st). generalize (delete k (inflight st)).
    generalize (inflight st). intros l2 l1 l3 ->. solve_Permutation.
Qed.

Lemma pool_complete_left choice st :
  0 < length (inflight st) -> S (pool_left (pool_complete choice st)) = pool_left st.
Proof.
  intros H. destruct (pool_complete_pick choice st H) as (k & x & Hx & ->).
  unfold pool_left. cbn [pending inflight].
  rewrite length_delete by eauto. lia.
Qed.

Lemma pool_run_all size n : forall sched st,
  Permutation (pool_all (pool_run size n sched st)) (pool_all st).
Proof.
  induction n as [|n IH]; intros sched st; simpl; [done|].
  rewrite IH, pool_complete_all, pool_fill_all. done.
Qed.

Lemma pool_run_left size n : forall sched st,
  1 <= size -> pool_left st <= n -> pool_left (pool_run size n sched st) = 0%nat.
Proof.
  induction n as [|n IH]; intros sched st Hs Hl; simpl; [lia|].
  apply IH; [done|].
  destruct (Nat.eq_dec (pool_left st) 0) as [Hz|Hnz].
  - assert (E : inflight (pool_fill size st) = []).
    { unfold pool_left in Hz. unfold pool_fill.
      destruct (pending st), (inflight st); simpl in *; try lia.
      now rewrite take_nil. }
    unfold pool_complete. rewrite E. rewrite pool_fill_left. lia.
  - pose proof (pool_fill_busy size st Hs ltac:(lia)) as Hb.
    pose proof (pool_complete_left (hd 0%nat sched) _ Hb) as Hc.
    rewrite pool_fill_left in Hc. lia.
Qed.

(** With at least one worker, every task completes exactly once. *)
Lemma completion_order_perm size sched tasks :
  1 <= size -> Permutation (completion_order size sched tasks) tasks.
Proof.
  intros Hs. unfold completion_order.
  pose proof (pool_run_all size (length tasks) sched (pool_init tasks)) as Hall.
  pose proof (pool_run_left size (length tasks) sched (pool_init tasks) Hs) as Hleft.
  unfold pool_left at 1, pool_init at 1 in Hleft. simpl in Hleft.
  specialize (Hleft ltac:(lia)).
  unfold pool_left in Hleft. unfold pool_all in Hall.
  destruct (pool_run size (length tasks) sched (pool_init tasks)) as [p i f].
  simpl in *. destruct p, i; simpl in *; try lia.
  now rewrite app_nil_r in Hall.
Qed.

End PoolFacts.

(** ** The orchestrator *)

Lemma download_function_returns env request filepath row_info w :
  exists success error w',
    download_function env (request, filepath, row_info) w =
      (Ok (row_info, success, error), w').
Proof.
  unfold download_function, try_except, bind at 1.
  destruct (download_body env request filepath row_info w) as [[[]|e] w1]; unfold ret; eauto.
Qed.

Lemma run_jobs_returns env total : forall order i w,
  exists results w',
    run_jobs env total i order w = (Ok results, w') /\
    Forall2 result_for order results.
Proof.
  induction order as [|[[request filepath] row_info] order IH]; intros i w; simpl.
  - exists [], w. split; [done | constructor].
  - destruct (download_function_returns env request filepath row_info w)
      as (success & error & w1 & H1).
    rewrite (bind_ok _ _ _ _ _ H1).
    unfold collect, bind at 1, emit, get_world, ret. unfold bind at 1. unfold bind at 1.
    destruct (IH (S i) (add_console w1 [Progress i total])) as (results & w2 & H2 & HF).
    unfold bind at 1. rewrite H2.
    eexists. eexists. split; [reflexivity|].
    constructor; [|done]. unfold result_for. simpl. eauto.
Qed.

Lemma rows_of_length n : forall data, length (rows_of n data) = n.
Proof. induction n as [|n IH]; intros data; simpl; [done | now rewrite IH]. Qed.

Lemma iterrows_length df : length (iterrows df) = df_len df.
Proof.
  unfold iterrows, df_rows. rewrite length_combine, rows_of_length. unfold df_len. lia.
Qed.

Lemma iterrows_index df : map fst (iterrows df) = df_index df.
Proof.
  unfold iterrows, df_rows, df_len.
  generalize (rows_of_length (length (df_index df)) (df_data df)).
  generalize (rows_of (length (df_index df)) (df_data df)).
  induction (df_index df) as [|x idx IH]; intros [|r rows] H; simpl in *; try done.
  f_equal. apply IH. lia.
Qed.

Lemma plan_row_shape env o columns template idx row job :
  plan_row env o columns template idx row = Ok job -> planned_for idx job.
Proof.
  unfold plan_row. intros H.
  repeat match type of H with
         | match ?x with _ => _ end = _ => destruct x eqn:?; try discriminate
         end.
  injection H as <-. eexists. split; reflexivity.
Qed.

Lemma plan_rows_shape env o columns template : forall rows jobs,
  plan_rows env o columns template rows = Ok jobs ->
  Forall2 planned_for (map fst rows) jobs.
Proof.
  induction rows as [|[idx row] rows IH]; intros jobs H; simpl in H.
  - injection H as <-. constructor.
  - destruct (plan_row env o columns template idx row) as [job|] eqn:Hj; [|discriminate].
    destruct (plan_rows env o columns template rows) as [js|] eqn:Hjs; [|discriminate].
    injection H as <-. constructor; [|now apply IH].
    eapply plan_row_shape; eauto.
Qed.

Lemma result_record_index row_info success error ts :
  assoc "index" (result_record row_info success error ts) = assoc "index" row_info.
Proof. unfold result_record. now rewrite !assoc_assign_other. Qed.

Lemma Pool_ok (processes : Z) :
  (1 <= processes)%Z -> exists size, Pool processes = Ok size /\ 1 <= size.
Proof.
  intros H. unfold Pool. destruct (Z.ltb_spec processes 1); [lia|].
  eexists. split; [reflexivity | lia].
Qed.


(** ** The reducer *)

Lemma assoc_map_keys {B} (g : string -> B) k keys :
  In k keys -> assoc k (map (fun k' => (k', g k')) keys) = Some (g k).
Proof.
  induction keys as [|k0 keys IH]; simpl; [done|].
  intros H. destruct (String.eqb_spec k0 k) as [->|Hne]; [done|].
  apply IH. destruct H; congruence.
Qed.

Lemma add_keys_keeps {A} k (r : list (string * A)) : forall acc,
  In k acc -> In k (add_keys acc r).
Proof.
  unfold add_keys. induction r as [|[k' v] r IH]; intros acc H; simpl; [done|].
  apply IH. destruct (mem k' acc); [done|]. apply in_or_app. now left.
Qed.

Lemma add_keys_adds {A} k (r : list (string * A)) : forall acc,
  In k (map fst r) -> In k (add_keys acc r).
Proof.
  induction r as [|[k' v] r IH]; intros acc H; simpl in *; [done|].
  destruct H as [->|H].
  - apply (add_keys_keeps k r). destruct (mem k acc) eqn:E.
    + now apply mem_In.
    + apply in_or_app. right. now left.
  - now apply IH.
Qed.

Lemma union_keys_In {A} k (r : list (string * A)) rs :
  In r rs -> In k (map fst r) -> In k (union_keys rs).
Proof.
  unfold union_keys. fold (@add_keys A). generalize (@nil string).
  induction rs as [|r0 rs IH]; intros acc Hr Hk; simpl in *; [done|].
  destruct Hr as [->|Hr].
  - assert (H0 : In k (add_keys acc r)) by now apply add_keys_adds.
    clear -H0. revert H0. generalize (add_keys acc r).
    induction rs as [|r1 rs IH]; intros acc' H; simpl; [done|].
    apply IH. now apply add_keys_keeps.
  - now apply IH.
Qed.

Lemma rows_of_table (g : string -> list (string * Cell) -> Cell) keys :
  forall xs : list (list (string * Cell)),
  rows_of (length xs) (map (fun k => (k, map (g k) xs)) keys) =
  map (fun x => map (fun k => (k, g k x)) keys) xs.
Proof.
  induction xs as [|x xs IH]; simpl; [done|].
  f_equal.
  - clear. induction keys as [|k keys IH]; simpl; [done | now rewrite IH].
  - rewrite <- IH. f_equal. clear. induction keys as [|k keys IH]; simpl; [done|].
    now rewrite IH.
Qed.

Lemma range_index_length n : length (range_index n) = n.
Proof. unfold range_index. now rewrite length_map, length_seq. Qed.

Lemma df_of_records_rows rs :
  df_rows (df_of_records rs) = map (fill_gaps (union_keys rs)) rs.
Proof.
  unfold df_rows, df_of_records, df_len. simpl. rewrite range_index_length.
  apply (rows_of_table (fun k r => default NaN (assoc k r))).
Qed.

Lemma df_of_records_wf rs : df_wf (df_of_records rs).
Proof.
  unfold df_wf, df_of_records. simpl. rewrite range_index_length.
  apply List.Forall_forall. intros c Hin. apply in_map_iff in Hin as (k & <- & _).
  simpl. apply length_map.
Qed.

Lemma df_of_records_col k rs :
  In k (union_keys rs) ->
  df_getcol k (df_of_records rs) = Ok (map (fun r => default NaN (assoc k r)) rs).
Proof.
  intros H. unfold df_getcol, df_of_records. simpl.
  now rewrite (assoc_map_keys (fun k => map (fun r => default NaN (assoc k r)) rs) k _ H).
Qed.

Lemma mask_filter_map2 {A B} (p : A -> bool) (f : A -> B) (l : list A) :
  mask_filter (map p l) (map f l) = map f (List.filter p l).
Proof.
  induction l as [|x l IH]; simpl; [done|]. destruct (p x); simpl; now rewrite IH.
Qed.

Lemma map_snd_combine {A B} (l1 : list A) (l2 : list B) :
  length l1 = length l2 -> map snd (combine l1 l2) = l2.
Proof.
  revert l2. induction l1 as [|x l1 IH]; intros [|y l2] H; simpl in *; try done.
  f_equal. apply IH. lia.
Qed.

Lemma pick_map {A B C} (f : B -> option C) (g : A -> B) l :
  pick f (map g l) = pick (fun x => f (g x)) l.
Proof. induction l as [|x l IH]; simpl; [done|]. now rewrite IH. Qed.

Lemma pick_ext_in {A B} (f g : A -> option B) l :
  (forall x, In x l -> f x = g x) -> pick f l = pick g l.
Proof.
  induction l as [|x l IH]; intros H; simpl; [done|].
  rewrite (H x) by now left. rewrite IH; [done|]. intros y Hy. apply H. now right.
Qed.

Lemma add_console_nil w : add_console w [] = w.
Proof. destruct w. unfold add_console. simpl. now rewrite app_nil_r. Qed.

Lemma add_console_app w a b : add_console (add_console w a) b = add_console w (a ++ b).
Proof. unfold add_console. simpl. now rewrite app_assoc. Qed.

Lemma read_back_spec folder : forall rows acc w,
  Forall (fun row : list (string * Cell) =>
            exists f, assoc "filename" row = Some (Str f)) (map snd rows) ->
  read_back folder rows acc w =
    (Ok (acc ++ pick (readable (files w) folder) (map snd rows)),
     add_console w (pick (diagnostic (files w) folder) (map snd rows))).
Proof.
  induction rows as [|[idx row] rows IH]; intros acc w HF; simpl.
  - unfold ret. now rewrite app_nil_r, add_console_nil.
  - inversion HF as [|? ? [f Hf] HF']; subst. simpl in Hf.
    unfold row_filename, dict_get. rewrite Hf.
    unfold bind at 1, lift. unfold bind at 1.
    unfold readable, diagnostic, filename_of. rewrite Hf.
    unfold try_except, bind at 1, read_csv.
    destruct (files w !! path_join folder f) as [[t|e]|] eqn:Hfile.
    + destruct (df_empty t); simpl; unfold ret; rewrite (IH _ _ HF').
      * done.
      * now rewrite <- app_assoc.
    + unfold bind at 1, print, emit, ret. rewrite (IH _ _ HF'). simpl files.
      now rewrite add_console_app.
    + unfold bind at 1, print, emit, ret. rewrite (IH _ _ HF'). simpl files.
      now rewrite add_console_app.
Qed.

Lemma assoc_Some_In {A} k (l : list (string * A)) v :
  assoc k l = Some v -> In k (map fst l).
Proof.
  induction l as [|[k' v'] l IH]; simpl; [done|].
  destruct (String.eqb_spec k' k); auto.
Qed.

Lemma fill_gaps_assoc keys r k :
  In k keys -> assoc k (fill_gaps keys r) = Some (default NaN (assoc k r)).
Proof. intros H. unfold fill_gaps. now rewrite (assoc_map_keys (fun k => default NaN (assoc k r))). Qed.

Lemma success_cell r : cell_true (default NaN (assoc "success" r)) = result_success r.
Proof. unfold result_success. now destruct (assoc "success" r). Qed.

Lemma filter_map_length {A B} (p : B -> bool) (f : A -> B) l :
  length (List.filter p (map f l)) = length (List.filter (fun x => p (f x)) l).
Proof. induction l as [|x l IH]; simpl; [done|]. destruct (p (f x)); simpl; now rewrite IH. Qed.

Lemma filter_ext_length {A} (p q : A -> bool) l :
  (forall x, p x = q x) -> List.filter p l = List.filter q l.
Proof. intros H. induction l as [|x l IH]; simpl; [done|]. now rewrite H, IH. Qed.

Lemma count_true_map {A} (p : A -> bool) l :
  count_true (map p l) = length (List.filter p l).
Proof.
  unfold count_true. induction l as [|x l IH]; simpl; [done|].
  destruct (p x); simpl; now rewrite IH.
Qed.

Section ReduceFacts.
Variables (rs : list (list (string * Cell))) (folder : string).
Hypothesis rs_nonempty : rs <> [].
Hypothesis rs_fields : Forall has_fields rs.

Lemma success_key : In "success" (union_keys rs).
Proof.
  destruct rs as [|r rest]; [done|].
  inversion rs_fields as [|? ? [[b Hb] _] _]; subst.
  apply (union_keys_In "success" r); [now left | eapply assoc_Some_In; eauto].
Qed.

Lemma filename_key : In "filename" (union_keys rs).
Proof.
  destruct rs as [|r rest]; [done|].
  inversion rs_fields as [|? ? [_ [f Hf]] _]; subst.
  apply (union_keys_In "filename" r); [now left | eapply assoc_Some_In; eauto].
Qed.

Lemma success_mask : map cell_true (success_column rs) = map result_success rs.
Proof. unfold success_column. rewrite map_map. apply map_ext. intros r. apply success_cell. Qed.

Lemma successful_rows :
  map snd (iterrows (df_filter (map cell_true (success_column rs)) (df_of_records rs))) =
  map (fill_gaps (union_keys rs)) (List.filter result_success rs).
Proof.
  rewrite success_mask. set (mask := map result_success rs).
  assert (Hlen : length mask = length (df_index (df_of_records rs))).
  { unfold mask. simpl. now rewrite length_map, range_index_length. }
  unfold iterrows, df_rows, df_len, df_filter. cbn [df_index df_data].
  rewrite (mask_filter_length mask _ Hlen).
  rewrite (rows_of_filter mask _ _ Hlen (df_of_records_wf rs)).
  rewrite map_snd_combine.
  - change (rows_of (length (df_index (df_of_records rs))) (df_data (df_of_records rs)))
      with (df_rows (df_of_records rs)).
    rewrite df_of_records_rows. apply mask_filter_map2.
  - rewrite (mask_filter_length mask _ Hlen).
    rewrite <- (mask_filter_length mask
                 (rows_of (length (df_index (df_of_records rs))) (df_data (df_of_records rs)))).
    + done.
    + now rewrite rows_of_length.
Qed.

Lemma filled_filename r :
  has_fields r -> filename_of (fill_gaps (union_keys rs) r) = filename_of r.
Proof.
  intros [_ [f Hf]]. unfold filename_of.
  now rewrite (fill_gaps_assoc (union_keys rs) r "filename" filename_key), Hf.
Qed.

Lemma successes_fields : Forall has_fields (List.filter result_success rs).
Proof.
  apply List.Forall_forall. intros r Hin. apply filter_In in Hin as [Hin _].
  revert r Hin. now apply List.Forall_forall.
Qed.

Lemma consolidate_spec w :
  _consolidate_csv_data (df_of_records rs) folder w =
    let successes := List.filter result_success rs in
    let tables := pick (readable (files w) folder) successes in
    (Ok (consolidated tables),
     add_console w (pick (diagnostic (files w) folder) successes ++ [closing_line tables])).
Proof.
  unfold _consolidate_csv_data.
  rewrite (df_of_records_col "success" rs success_key). fold (success_column rs).
  unfold bind at 1, lift. unfold bind at 1.
  rewrite read_back_spec.
  - rewrite successful_rows, !pick_map. simpl app.
    rewrite (pick_ext_in (fun x => readable (files w) folder (fill_gaps (union_keys rs) x))
                         (readable (files w) folder)).
    2:{ intros r Hr. unfold readable. rewrite filled_filename; [done|].
        revert r Hr. apply List.Forall_forall, successes_fields. }
    rewrite (pick_ext_in (fun x => diagnostic (files w) folder (fill_gaps (union_keys rs) x))
                         (diagnostic (files w) folder)).
    2:{ intros r Hr. unfold diagnostic. rewrite filled_filename; [done|].
        revert r Hr. apply List.Forall_forall, successes_fields. }
    cbv zeta.
    destruct (pick (readable (files w) folder) (List.filter result_success rs)) as [|t ts];
      unfold bind, print, emit, ret; cbn [app consolidated closing_line];
      now rewrite add_console_app.
  - rewrite successful_rows. apply List.Forall_forall. intros row Hin.
    apply in_map_iff in Hin as (r & <- & Hr).
    assert (Hf : has_fields r).
    { revert r Hr. apply List.Forall_forall, successes_fields. }
    destruct Hf as [_ [f Hf]]. exists f.
    now rewrite (fill_gaps_assoc (union_keys rs) r "filename" filename_key), Hf.
Qed.

Lemma forallb_map {A B} (p : B -> bool) (q : A -> bool) (f : A -> B) l :
  (forall x, p (f x) = q x) -> forallb p (map f l) = forallb q l.
Proof. intros H. induction l as [|x l IH]; simpl; [done | now rewrite H, IH]. Qed.

Lemma existsb_map {A B} (p : B -> bool) (q : A -> bool) (f : A -> B) l :
  (forall x, p (f x) = q x) -> existsb p (map f l) = existsb q l.
Proof. intros H. induction l as [|x l IH]; simpl; [done | now rewrite H, IH]. Qed.

Lemma reduce_results_spec (consolidate : bool) w :
  reduce_results rs folder consolidate w =
    if (consolidate && existsb result_success rs)%bool
    then
      let successes := List.filter result_success rs in
      let tables := pick (readable (files w) folder) successes in
      (Ok (consolidated tables),
       add_console w (summary_lines rs ++ [Print (nl +:+ "Consolidando datos...")] ++
                      pick (diagnostic (files w) folder) successes ++
                      [closing_line tables]))
    else (Ok (df_of_records rs), add_console w (summary_lines rs)).
Proof.
  assert (E1 : length (List.filter cell_true (success_column rs)) =
               length (List.filter result_success rs)).
  { unfold success_column. rewrite filter_map_length. f_equal.
    apply filter_ext_length. intros r. apply success_cell. }
  assert (E2 : df_len (df_of_records rs) = length rs).
  { unfold df_len. simpl. apply range_index_length. }
  assert (E3 : forallb cell_true (success_column rs) = forallb result_success rs).
  { unfold success_column. apply forallb_map. intros r. apply success_cell. }
  assert (E4 : existsb cell_true (success_column rs) = existsb result_success rs).
  { unfold success_column. apply existsb_map. intros r. apply success_cell. }
  assert (E5 : df_len (df_filter (map (fun c => negb (cell_true c)) (success_column rs))
                                 (df_of_records rs)) =
               length (List.filter (fun r => negb (result_success r)) rs)).
  { unfold df_len, df_filter. cbn [df_index].
    rewrite mask_filter_length.
    - unfold success_column. rewrite map_map, count_true_map. f_equal.
      apply filter_ext_length. intros r. now rewrite success_cell.
    - unfold success_column, df_of_records. cbn [df_index].
      now rewrite !length_map, range_index_length. }
  unfold reduce_results.
  rewrite (df_of_records_col "success" rs success_key). fold (success_column rs).
  unfold summary_lines.
  destruct consolidate; cbn [andb].
  - unfold bind, print, emit, lift, ret. rewrite E1, E2, E3, E4, E5.
    destruct (forallb result_success rs), (existsb result_success rs);
      cbn [negb]; cbv beta iota;
      rewrite ?consolidate_spec; cbv zeta;
      unfold add_console; cbn [files dirs net_log console];
      rewrite <- ?app_assoc; reflexivity.
  - unfold bind, print, emit, lift, ret. rewrite E1, E2, E3, E5.
    destruct (forallb result_success rs);
      cbn [negb]; cbv beta iota;
      unfold add_console; cbn [files dirs net_log console];
      rewrite <- ?app_assoc; reflexivity.
Qed.

End ReduceFacts.

Lemma consolidated_len tables :
  df_len (consolidated tables) = list_sum (map df_len tables).
Proof.
  destruct tables as [|t ts]; [done|].
  unfold consolidated, pd_concat, df_len at 1. cbn [df_index].
  apply range_index_length.
Qed.

(** C7, as amended: for a non-empty sequence of results, the call returns
    the Summary Table, one row per result, when consolidation is not
    requested or no result succeeded.  Otherwise it reads back the
    destination file of every successful result, in order: a missing or
    unreadable file is skipped with a printed diagnostic, a file that
    parses to an empty table is skipped without one, the other tables are
    stacked row-wise into the returned table, and the empty table is
    returned when none was taken.  No case raises. *)
Theorem reduce_results_consolidation (rs : list (list (string * Cell)))
    (folder : string) (consolidate : bool) (w : World) :
  rs <> [] ->
  Forall has_fields rs ->
  let successes := List.filter result_success rs in
  let tables := pick (readable (files w) folder) successes in
  let diagnostics := pick (diagnostic (files w) folder) successes in
  (consolidate = false \/ existsb result_success rs = false ->
     reduce_results rs folder consolidate w =
       (Ok (df_of_records rs), add_console w (summary_lines rs)) /\
     df_len (df_of_records rs) = length rs) /\
  (consolidate = true -> existsb result_success rs = true ->
     reduce_results rs folder consolidate w =
       (Ok (consolidated tables),
        add_console w (summary_lines rs ++ [Print (nl +:+ "Consolidando datos...")] ++
                       diagnostics ++ [closing_line tables])) /\
     df_len (consolidated tables) = list_sum (map df_len tables) /\
     (tables = [] -> consolidated tables = empty_frame)).
Proof.
  intros Hne Hfields successes tables diagnostics.
  pose proof (reduce_results_spec rs folder Hne Hfields consolidate w) as Hspec.
  split.
  - intros Hcase. split.
    + rewrite Hspec. destruct Hcase as [-> | ->]; [done|]. now rewrite andb_false_r.
    + unfold df_len. simpl. apply range_index_length.
  - intros -> Hany. rewrite Hany in Hspec. split; [exact Hspec|]. split.
    + apply consolidated_len.
    + now intros ->.
Qed.

(** ** The planner *)

Lemma format_go_literal kwargs (l rest : string) :
  brace_free l = true ->
  format_go kwargs (l +:+ rest) None = res_map (String.append l) (format_go kwargs rest None).
Proof.
  induction l as [|c l IH]; intros H.
  - change ("" +:+ rest) with rest. now destruct (format_go kwargs rest None).
  - simpl in H. apply andb_prop in H as [H1 H3]. apply andb_prop in H1 as [H1 H2].
    apply negb_true_iff in H1, H2.
    change (String c l +:+ rest) with (String c (l +:+ rest)).
    cbn [format_go]. rewrite H1, H2, (IH H3).
    now destruct (format_go kwargs rest None).
Qed.

Lemma brace_free_app a b : brace_free (a +:+ b) = (brace_free a && brace_free b)%bool.
Proof.
  induction a as [|c a IH]; [done|].
  change (String c a +:+ b) with (String c (a +:+ b)). simpl. rewrite IH.
  now rewrite !andb_assoc.
Qed.

Lemma brace_free_join sep parts :
  brace_free sep = true ->
  Forall (fun p => brace_free p = true) parts ->
  brace_free (join sep parts) = true.
Proof.
  intros Hsep. induction 1 as [|p parts Hp Hparts IH]; [done|].
  destruct parts as [|q parts]; [done|].
  change (join sep (p :: q :: parts)) with (p +:+ sep +:+ join sep (q :: parts)).
  now rewrite !brace_free_app, Hp, Hsep, IH.
Qed.

Lemma brace_free_valid (x : string) :
  In x valid_temporal_resolutions \/ In x valid_spatial_resolutions \/ In x valid_communities ->
  brace_free x = true.
Proof.
  unfold valid_temporal_resolutions, valid_spatial_resolutions, valid_communities. simpl.
  intros H. repeat (destruct H as [H|H]; try (subst x; reflexivity); try done).
Qed.

Lemma validate_passes df o :
  validate df o = None ->
  In (lat_col o) (df_columns df) /\ In (lon_col o) (df_columns df) /\
  In (temporal_resolution o) valid_temporal_resolutions /\
  In (spatial_resolution o) valid_spatial_resolutions /\
  In (community o) valid_communities.
Proof.
  unfold validate.
  destruct (mem (lat_col o) (df_columns df)) eqn:E1; cbn [negb orb]; [|done].
  destruct (mem (lon_col o) (df_columns df)) eqn:E2; cbn [negb orb]; [|done].
  destruct (length (parameters o) =? 0)%nat; [done|].
  destruct (mem (temporal_resolution o) valid_temporal_resolutions) eqn:E4; cbn [negb]; [|done].
  destruct (mem (spatial_resolution o) valid_spatial_resolutions) eqn:E5; cbn [negb]; [|done].
  destruct (mem (community o) valid_communities) eqn:E6; cbn [negb]; [|done].
  intros _. apply mem_In in E1, E2, E4, E5, E6. done.
Qed.

Lemma request_template_shape o : request_template o = Ok (formatted_template o).
Proof.
  unfold request_template, formatted_template, template_tail.
  destruct (String.eqb (temporal_resolution o) "climatology"); reflexivity.
Qed.

(** The second formatting (lines 186-197) succeeds on a template without
    stray braces. *)
Lemma formatted_template_formats o latitude longitude start end_ :
  In (temporal_resolution o) valid_temporal_resolutions ->
  In (spatial_resolution o) valid_spatial_resolutions ->
  In (community o) valid_communities ->
  Forall (fun p => brace_free p = true) (parameters o) ->
  exists url,
    (if String.eqb (temporal_resolution o) "climatology"
     then py_format (formatted_template o)
            [("latitude", latitude); ("longitude", longitude)]
     else py_format (formatted_template o)
            [("latitude", latitude); ("longitude", longitude);
             ("start_date", start); ("end_date", end_)]) = Ok url.
Proof.
  intros Ht Hs Hc Hp.
  assert (Bt : brace_free (temporal_resolution o) = true) by (apply brace_free_valid; auto).
  assert (Bs : brace_free (spatial_resolution o) = true) by (apply brace_free_valid; auto).
  assert (Bc : brace_free (community o) = true) by (apply brace_free_valid; auto).
  assert (Bp : brace_free (join "," (parameters o)) = true) by (now apply brace_free_join).
  unfold py_format, formatted_template, template_tail.
  destruct (String.eqb (temporal_resolution o) "climatology").
  - rewrite !format_go_literal by (assumption || reflexivity). eexists. reflexivity.
  - rewrite !format_go_literal by (assumption || reflexivity). eexists. reflexivity.
Qed.

Lemma rows_cells c col (data : list (string * list Cell)) n row :
  Forall (fun x => length (snd x) = n) data ->
  assoc c data = Some col ->
  In row (rows_of n data) ->
  exists v, assoc c row = Some v /\ In v col.
Proof.
  intros Hwf Hcol Hrow.
  pose proof (rows_of_assoc c col n data Hwf Hcol) as Hmap.
  apply (in_map (assoc c)) in Hrow. rewrite Hmap in Hrow.
  apply in_map_iff in Hrow as (v & Hv & Hin). eauto.
Qed.

Lemma configured_In name columns c : configured name columns = Some c -> In c columns.
Proof.
  unfold configured. destruct name as [n|]; [|done].
  destruct (negb (String.eqb n "")); simpl; [|done].
  destruct (mem n columns) eqn:E; [|done]. intros [= <-]. now apply mem_In.
Qed.

Section PlanFacts.
Variables (env : Env) (o : Options) (df : DataFrame).
Hypothesis valid : validate df o = None.
Hypothesis wf : df_wf df.
Hypothesis params_plain : Forall (fun p => brace_free p = true) (parameters o).
Hypothesis dates_ok : dates_parse env o df.

Lemma row_cell c row :
  In c (df_columns df) -> In row (df_rows df) ->
  exists v, dict_get row c = Ok v /\
            forall col, assoc c (df_data df) = Some col -> In v col.
Proof.
  intros Hc Hrow. destruct (assoc_In _ _ Hc) as [col Hcol].
  destruct (rows_cells c col _ _ row wf Hcol Hrow) as (v & Hv & Hin).
  exists v. unfold dict_get. rewrite Hv. split; [done|].
  intros col' Hcol'. congruence.
Qed.

Lemma row_date_ok col row fallback :
  col = start_col o \/ col = end_col o ->
  In row (df_rows df) ->
  exists s, row_date env col (df_columns df) row fallback = Ok s.
Proof.
  intros Hcol Hrow. unfold row_date.
  destruct (configured col (df_columns df)) as [c|] eqn:Hconf; [|eauto].
  pose proof (configured_In _ _ _ Hconf) as Hc.
  destruct (row_cell c row Hc Hrow) as (v & -> & Hv).
  destruct (assoc_In _ _ Hc) as [cells Hcells].
  apply (dates_ok c cells v); [|done | now apply Hv].
  destruct Hcol as [-> | ->]; auto.
Qed.

Lemma plan_row_ok idx row :
  In row (df_rows df) ->
  exists job, plan_row env o (df_columns df) (formatted_template o) idx row = Ok job.
Proof.
  intros Hrow.
  destruct (validate_passes df o valid) as (Hlat & Hlon & Ht & Hs & Hc).
  unfold plan_row.
  destruct (row_cell _ row Hlat Hrow) as (latitude & -> & _).
  destruct (row_cell _ row Hlon Hrow) as (longitude & -> & _).
  destruct (row_date_ok (start_col o) row (start_date o)) as [start ->]; [auto | done |].
  destruct (row_date_ok (end_col o) row (end_date o)) as [end_ ->]; [auto | done |].
  destruct (formatted_template_formats o (py_str env latitude) (py_str env longitude)
              start end_ Ht Hs Hc params_plain) as [url ->].
  destruct (configured (id_col o) (df_columns df)) as [c|] eqn:Hconf.
  - destruct (row_cell c row (configured_In _ _ _ Hconf) Hrow) as (identifier & -> & _).
    eauto.
  - eauto.
Qed.

Lemma plan_rows_ok :
  exists jobs, plan_rows env o (df_columns df) (formatted_template o) (iterrows df) = Ok jobs.
Proof.
  assert (H : Forall (fun ir : Cell * list (string * Cell) => In (snd ir) (df_rows df))
                     (iterrows df)).
  { apply List.Forall_forall. intros [idx row] Hin. unfold iterrows in Hin.
    now apply in_combine_r in Hin. }
  induction H as [|[idx row] rows Hrow _ [jobs IH]]; simpl; [eauto|].
  destruct (plan_row_ok idx row Hrow) as [job ->]. rewrite IH. eauto.
Qed.

End PlanFacts.

Lemma result_record_fields (job : Job) (result : list (string * Cell)) (idx : Cell) :
  planned_for idx job -> result_for job result -> has_fields result.
Proof.
  intros (f & _ & Hf) (success & error & ts & ->). unfold has_fields, result_record. split.
  - exists success. rewrite !assoc_assign_other by done. apply assoc_assign_same.
  - exists f. now rewrite !assoc_assign_other by done.
Qed.

(** What the entry point does once validation has passed and the output
    folder exists. *)
Lemma download_after_makedirs env df o w :
  validate df o = None ->
  files w !! output_folder o = None ->
  makedirs_error env w (output_folder o) = None ->
  download_nasa_power_data env df o w =
    (let* template := lift (request_template o) in
     print ("Preparando " +:+ pretty (df_len df) +:+ " solicitudes de descarga...") ;;;
     print ("Parámetros: " +:+ join ", " (parameters o)) ;;;
     print ("Resolución temporal: " +:+ temporal_resolution o) ;;;
     print ("Resolución espacial: " +:+ spatial_resolution o) ;;;
     print ("Comunidad: " +:+ community o) ;;;
     print ("Procesos: " +:+ pretty (effective_processes o)) ;;;
     let* requests := lift (plan_rows env o (df_columns df) template (iterrows df)) in
     print (nl +:+ "Iniciando descargas...") ;;;
     let* download_results := run_pool env (effective_processes o) requests in
     reduce_results download_results (output_folder o) (return_consolidated o))
    (mkWorld (files w) ({[output_folder o]} ∪ dirs w) (net_log w) (console w)).
Proof.
  intros Hv Hf Hm. unfold download_nasa_power_data. rewrite Hv.
  unfold bind at 1, makedirs. now rewrite Hf, Hm.
Qed.

Lemma pool_trace_last {A} (size : nat) : forall n sched (st d : PoolState A),
  List.last (pool_trace size n sched st) d = pool_run size n sched st.
Proof.
  induction n as [|n IH]; intros sched st d; [reflexivity|].
  cbn [pool_trace pool_run].
  specialize (IH (tl sched) (pool_complete (hd 0%nat sched) (pool_fill size st)) d).
  destruct (pool_trace size n (tl sched) (pool_complete (hd 0%nat sched) (pool_fill size st)))
    as [|x l] eqn:E.
  - destruct n; discriminate E.
  - exact IH.
Qed.

(** C6: the pool of [download_nasa_power_data] has [min(processes, 5)]
    workers.  Once the options pass validation, the output folder exists
    and the jobs are planned, the line the call prints for the processes
    gives that number.  When it is below 1 the pool constructor raises
    [ValueError].  Otherwise the call collects the results in the order
    in which a pool of that size finishes the jobs, and in every state
    that pool goes through no more jobs are in flight than it has
    workers, so at most 5, whatever the scheduler does; requesting 12
    gives a pool of 5. *)
Theorem pool_never_exceeds_five env (df : DataFrame) (o : Options) (w : World)
    (template : string) (jobs : list Job) :
  validate df o = None ->
  files w !! output_folder o = None ->
  makedirs_error env w (output_folder o) = None ->
  request_template o = Ok template ->
  plan_rows env o (df_columns df) template (iterrows df) = Ok jobs ->
  exists w0,
    files w0 = files w /\
    net_log w0 = net_log w /\
    In (Print ("Procesos: " +:+ pretty (Z.min (processes o) 5))) (console w0) /\
    ((processes o < 1)%Z ->
       exists e, download_nasa_power_data env df o w = (Raise e, w0) /\
                 exn_class e = "ValueError") /\
    ((1 <= processes o)%Z ->
       exists size,
         Z.of_nat size = Z.min (processes o) 5 /\
         (processes o = 12%Z -> size = 5%nat) /\
         let trace := pool_trace size (length jobs) (schedule env) (pool_init jobs) in
         Forall (fun st => length (inflight st) <= size <= 5) trace /\
         download_nasa_power_data env df o w =
           (let* results := run_jobs env (length jobs) 1
                              (finished (List.last trace (pool_init jobs))) in
            reduce_results results (output_folder o) (return_consolidated o)) w0).
Proof.
  intros Hvalid Hfile Hmk Htemplate Hplan.
  pose proof (download_after_makedirs env df o w Hvalid Hfile Hmk) as E.
  rewrite Htemplate in E.
  unfold bind at 1, lift in E. unfold bind at 1, print, emit in E. unfold bind at 1 in E.
  unfold bind at 1 in E. unfold bind at 1 in E. unfold bind at 1 in E. unfold bind at 1 in E.
  unfold bind at 1 in E. rewrite Hplan in E. unfold bind at 1 in E.
  match type of E with
  | context [bind _ _ ?w2] => set (w0 := w2) in E
  end.
  exists w0. split; [reflexivity|]. split; [reflexivity|]. split.
  { unfold w0, add_console, effective_processes. cbn [console].
    rewrite !in_app_iff. left. right. now left. }
  rewrite E. unfold run_pool, effective_processes, Pool. split.
  - intros Hlow. destruct (Z.ltb_spec (Z.min (processes o) 5) 1) as [_|Hge]; [|lia].
    eexists. split; [reflexivity|]. reflexivity.
  - intros Hhigh. destruct (Z.ltb_spec (Z.min (processes o) 5) 1) as [Hlt|_]; [lia|].
    exists (Z.to_nat (Z.min (processes o) 5)).
    split; [lia|]. split; [intros ->; reflexivity|].
    cbv zeta. split.
    + eapply Forall_impl.
      * apply pool_trace_bound. simpl. lia.
      * simpl. intros st Hst. lia.
    + rewrite pool_trace_last. reflexivity.
Qed.

Lemma run_pool_results env (o : Options) (idxs : list Cell) (jobs : list Job) (w : World) :
  Forall2 planned_for idxs jobs ->
  (1 <= effective_processes o)%Z ->
  exists results w',
    run_pool env (effective_processes o) jobs w = (Ok results, w') /\
    length results = length jobs /\
    Forall has_fields results.
Proof.
  intros Hshape Hproc.
  destruct (Pool_ok _ Hproc) as (size & Hsize & Hge).
  unfold run_pool, bind at 1, lift. rewrite Hsize.
  set (order := completion_order size (schedule env) jobs).
  destruct (run_jobs_returns env (length jobs) order 1 w) as (results & w' & Hrun & HF).
  exists results, w'. split; [done|].
  assert (Hperm : Permutation order jobs) by (now apply completion_order_perm).
  split.
  - rewrite <- (Forall2_length _ _ _ HF). now apply Permutation_length.
  - assert (Hjobs : Forall (fun job => exists idx, planned_for idx job) jobs).
    { clear -Hshape. induction Hshape; constructor; eauto. }
    assert (Horder : Forall (fun job => exists idx, planned_for idx job) order).
    { rewrite List.Forall_forall in Hjobs |- *. intros job Hin. apply Hjobs.
      eapply Permutation_in; eauto. }
    clear -HF Horder. induction HF as [|job r order results Hr _ IH]; [constructor|].
    inversion Horder as [|? ? [idx Hidx] Hrest]; subst.
    constructor; [eapply result_record_fields; eauto | now apply IH].
Qed.

Lemma download_function_body env request filepath row_info w :
  download_function env (request, filepath, row_info) w =
    match download_body env request filepath row_info w with
    | (Ok _, w1) => (Ok (row_info, true, None), w1)
    | (Raise e, w1) => (Ok (row_info, false, Some (exn_msg e)), w1)
    end.
Proof.
  unfold download_function, try_except, bind at 1.
  now destruct (download_body env request filepath row_info w) as [[[]|e] w1].
Qed.

Lemma result_record_outcome row_info success error ts :
  assoc "success" (result_record row_info success error ts) = Some (PyBool success) /\
  assoc "error" (result_record row_info success error ts) =
    Some (match error with Some msg => Str msg | None => PyNone end).
Proof.
  unfold result_record. split.
  - rewrite !assoc_assign_other by done. apply assoc_assign_same.
  - rewrite assoc_assign_other by done. apply assoc_assign_same.
Qed.

Lemma download_body_failed_request env request filepath row_info w e :
  http_get_json env w request = Raise e ->
  fst (download_body env request filepath row_info w) = Raise e.
Proof.
  intros H. unfold download_body.
  erewrite bind_raise by (unfold requests_get_json; now rewrite H). reflexivity.
Qed.

Lemma run_jobs_records env total : forall order i w,
  exists results w',
    run_jobs env total i order w = (Ok results, w') /\
    Forall2 (records_outcome env) order results /\
    Forall2 (records_failed_request env) order results.
Proof.
  induction order as [|[[request filepath] row_info] order IH]; intros i w.
  - exists [], w. split; [done|]. split; constructor.
  - cbn [run_jobs].
    pose proof (download_function_body env request filepath row_info w) as H1.
    destruct (download_body env request filepath row_info w) as [res w1] eqn:Hbody.
    destruct (IH (S i) (add_console w1 [Progress i total]))
      as (results & w2 & H2 & HF & HG).
    set (ts := strftime_now env (add_console w1 [Progress i total])).
    assert (Hout : exists success error,
               download_function env (request, filepath, row_info) w =
                 (Ok (row_info, success, error), w1) /\
               records_outcome env (request, filepath, row_info)
                 (result_record row_info success error ts) /\
               records_failed_request env (request, filepath, row_info)
                 (result_record row_info success error ts)).
    { destruct res as [[]|e].
      - exists true, None. split; [exact H1|]. split.
        + split; [apply result_record_index|]. exists w. cbn [fst snd]. rewrite Hbody.
          apply result_record_outcome.
        + intros e He. cbn [fst snd] in He.
          pose proof (download_body_failed_request env request filepath row_info w e (He w))
            as Hf. rewrite Hbody in Hf. discriminate Hf.
      - exists false, (Some (exn_msg e)). split; [exact H1|]. split.
        + split; [apply result_record_index|]. exists w. cbn [fst snd]. rewrite Hbody.
          apply result_record_outcome.
        + intros e' He. cbn [fst snd] in He.
          pose proof (download_body_failed_request env request filepath row_info w e' (He w))
            as Hf. rewrite Hbody in Hf. cbn [fst] in Hf. injection Hf as <-.
          apply result_record_outcome. }
    destruct Hout as (success & error & Hd & Hrec & Hfail).
    rewrite (bind_ok _ _ _ _ _ Hd).
    unfold collect, bind at 1, emit, get_world, ret. unfold bind at 1. unfold bind at 1.
    unfold bind at 1. rewrite H2.
    eexists. eexists. split; [reflexivity|].
    split; constructor; done.
Qed.

Lemma run_pool_records env (o : Options) (idxs : list Cell) (jobs : list Job) (w : World) :
  Forall2 planned_for idxs jobs ->
  (1 <= effective_processes o)%Z ->
  exists order results w',
    Permutation order jobs /\
    run_pool env (effective_processes o) jobs w = (Ok results, w') /\
    length results = length jobs /\
    Forall has_fields results /\
    Forall2 (records_outcome env) order results /\
    Forall2 (records_failed_request env) order results.
Proof.
  intros Hshape Hproc.
  destruct (run_pool_results env o idxs jobs w Hshape Hproc)
    as (results & w' & Hrun & Hlen & Hfields).
  destruct (Pool_ok _ Hproc) as (size & Hsize & Hge).
  unfold run_pool, bind at 1, lift in Hrun. rewrite Hsize in Hrun.
  destruct (run_jobs_records env (length jobs) (completion_order size (schedule env) jobs) 1 w)
    as (results' & w'' & Hrun' & HF & HG).
  rewrite Hrun in Hrun'. injection Hrun' as <- <-.
  exists (completion_order size (schedule env) jobs), results, w'.
  split; [now apply completion_order_perm|].
  split; [|done].
  unfold run_pool, bind at 1, lift. now rewrite Hsize.
Qed.

Lemma success_flags_each rs :
  Forall has_fields rs ->
  exists flags,
    map (fun r => default NaN (assoc "success" r)) rs = map PyBool flags /\
    Forall2 (fun r flag => assoc "success" r = Some (PyBool flag)) rs flags.
Proof.
  induction 1 as [|r rs [[b Hb] _] _ (flags & IH & IH2)].
  - exists []. split; [done | constructor].
  - exists (b :: flags). split; [simpl; now rewrite Hb, IH | now constructor].
Qed.

(** C8, as amended: for a table of at least one row, the call returns a
    table, never an exception, once the options pass validation, the
    output folder can be created, no parameter name holds a brace, every
    cell of a configured date column is accepted by the date parser, and
    at least one process is requested.  Whatever then fails inside a
    worker does not raise: every job, in the order of completion, has its
    record in the Summary Table, and the record of a job whose worker
    raised (a job whose request fails, for one) says failure in the
    [success] column and gives the exception's message in the [error]
    column, while the record of a job whose worker completed says success.
    Without consolidation the call returns that Summary Table, one row
    per location, with a boolean [success] column holding those flags.
    With consolidation and some successful job, the returned table is
    made of the successful jobs' destination files that can be read back
    and hold a row: the others are left out and nothing is raised; with
    no successful job the Summary Table is returned. *)
Theorem download_returns_after_planning env (df : DataFrame) (o : Options) (w : World) :
  validate df o = None ->
  df_wf df ->
  0 < df_len df ->
  files w !! output_folder o = None ->
  makedirs_error env w (output_folder o) = None ->
  Forall (fun p => brace_free p = true) (parameters o) ->
  dates_parse env o df ->
  (1 <= processes o)%Z ->
  exists jobs order results table w',
    plan_rows env o (df_columns df) (formatted_template o) (iterrows df) = Ok jobs /\
    Permutation order jobs /\
    length results = df_len df /\
    Forall2 (records_outcome env) order results /\
    Forall2 (records_failed_request env) order results /\
    download_nasa_power_data env df o w = (Ok table, w') /\
    (return_consolidated o = false ->
       table = df_of_records results /\
       df_len table = df_len df /\
       exists flags, df_getcol "success" table = Ok (map PyBool flags) /\
                     length flags = df_len df /\
                     Forall2 (fun r flag => assoc "success" r = Some (PyBool flag))
                             results flags) /\
    (return_consolidated o = true ->
       table = if existsb result_success results
               then consolidated (pick (readable (files w') (output_folder o))
                                       (List.filter result_success results))
               else df_of_records results).
Proof.
  intros Hvalid Hwf Hrows Hfile Hmk Hplain Hdates Hproc.
  rewrite (download_after_makedirs env df o w Hvalid Hfile Hmk).
  rewrite request_template_shape.
  destruct (plan_rows_ok env o df Hvalid Hwf Hplain Hdates) as [jobs Hplan].
  pose proof (plan_rows_shape _ _ _ _ _ _ Hplan) as Hshape.
  rewrite iterrows_index in Hshape.
  assert (Hp : (1 <= effective_processes o)%Z) by (unfold effective_processes; lia).
  unfold bind at 1, lift. unfold bind at 1, print, emit. unfold bind at 1.
  unfold bind at 1. unfold bind at 1. unfold bind at 1. unfold bind at 1.
  unfold bind at 1. rewrite Hplan. unfold bind at 1.
  match goal with
  | |- context [bind _ _ ?w2] =>
      destruct (run_pool_records env o _ jobs w2 Hshape Hp)
        as (order & results & w3 & Hperm & Hrun & Hlen & Hfields & Hrec & Hfail)
  end.
  unfold bind at 1. rewrite Hrun.
  assert (Hcount : length results = df_len df).
  { rewrite Hlen. symmetry. apply (Forall2_length _ _ _ Hshape). }
  assert (Hne : results <> []) by (intros ->; simpl in Hcount; lia).
  rewrite (reduce_results_spec results (output_folder o) Hne Hfields).
  exists jobs, order, results.
  destruct (return_consolidated o); cbn [andb].
  - destruct (existsb result_success results); cbv zeta;
      eexists; eexists; (do 5 (split; [done|])); (split; [reflexivity|]);
      (split; [discriminate | intros _; reflexivity]).
  - eexists. eexists. do 5 (split; [done|]). split; [reflexivity|].
    split; [|discriminate]. intros _. split; [reflexivity|]. split.
    + unfold df_len at 1. simpl. now rewrite range_index_length.
    + destruct (success_flags_each results Hfields) as (flags & Hflags & Heach).
      exists flags. split; [|split; [|exact Heach]].
      * rewrite (df_of_records_col "success" results (success_key results Hne Hfields)).
        now rewrite Hflags.
      * apply (f_equal (@length Cell)) in Hflags. rewrite !length_map in Hflags. lia.
Qed.

(** ** The claims on sample inputs *)


(** Seven locations, 12 processes requested, a scheduler that always
    picks the sixth busy worker: the pool has five workers, so the first
    job to finish is the first one, and at most five are in flight. *)
Lemma pool_never_exceeds_five_witness :
  validate seven_locations sample_options = None /\
  files empty_world !! output_folder sample_options = None /\
  makedirs_error busy_env empty_world (output_folder sample_options) = None /\
  request_template sample_options = Ok (formatted_template sample_options) /\
  plan_rows busy_env sample_options (df_columns seven_locations)
            (formatted_template sample_options) (iterrows seven_locations)
    = Ok seven_jobs /\
  processes sample_options = 12%Z /\
  (exists w0,
     In (Print "Procesos: 5") (console w0) /\
     Forall (fun st => length (inflight st) <= 5 <= 5)
            (pool_trace 5 (length seven_jobs) (schedule busy_env) (pool_init seven_jobs)) /\
     download_nasa_power_data busy_env seven_locations sample_options empty_world =
       (let* results := run_jobs busy_env (length seven_jobs) 1
                          (finished (List.last
                                       (pool_trace 5 (length seven_jobs) (schedule busy_env)
                                                   (pool_init seven_jobs))
                                       (pool_init seven_jobs))) in
        reduce_results results (output_folder sample_options)
                       (return_consolidated sample_options)) w0) /\
  map (fun st => length (inflight st))
      (pool_trace 5 (length seven_jobs) (schedule busy_env) (pool_init seven_jobs))
    = [5; 5; 5; 4; 3; 2; 1; 0]%nat /\
  exists table,
    fst (download_nasa_power_data busy_env seven_locations sample_options empty_world)
      = Ok table /\
    df_getcol "index" table =
      Ok [Num "0"; Num "1"; Num "2"; Num "4"; Num "6"; Num "5"; Num "3"].
Proof.
  assert (Hfile : files empty_world !! output_folder sample_options = None)
    by (vm_compute; reflexivity).
  assert (Hplan : plan_rows busy_env sample_options (df_columns seven_locations)
                    (formatted_template sample_options) (iterrows seven_locations)
                  = Ok seven_jobs) by (vm_compute; reflexivity).
  split; [reflexivity|]. split; [exact Hfile|]. split; [reflexivity|].
  split; [vm_compute; reflexivity|]. split; [exact Hplan|]. split; [reflexivity|].
  split.
  - destruct (pool_never_exceeds_five busy_env seven_locations sample_options empty_world
                (formatted_template sample_options) seven_jobs
                eq_refl Hfile eq_refl ltac:(vm_compute; reflexivity) Hplan)
      as (w0 & _ & _ & Hline & _ & Hhigh).
    destruct (Hhigh ltac:(vm_compute; discriminate)) as (size & _ & H12 & Htrace & Hcall).
    rewrite (H12 eq_refl) in Htrace, Hcall.
    exists w0. split; [exact Hline|]. split; [exact Htrace | exact Hcall].
  - split; [vm_compute; reflexivity|].
    eexists. split; [vm_compute; reflexivity | reflexivity].
Defined.

(** The claim of C3 fails when [properties] is null: the membership test
    on it raises, and the worker reports a failure. *)
Lemma null_properties_fails :
  let env := sample_env (fun _ => Ok null_properties_response) [] in
  http_get_json env empty_world "https://power.example/cdmx" = Ok null_properties_response /\
  response_parameter null_properties_response = None /\
  exists o w',
    download_function env sample_job empty_world = (Ok o, w') /\
    outcome_success o = false /\
    outcome_error o = Some "argument of type 'NoneType' is not iterable".
Proof.
  cbv zeta. split; [reflexivity|]. split; [reflexivity|].
  eexists. eexists. split; [vm_compute; reflexivity|]. split; reflexivity.
Defined.

(** An error document without [properties]: success, and no file. *)
Lemma download_function_silent_success_witness :
  let env := sample_env (fun _ => Ok error_response) [] in
  http_get_json env empty_world "https://power.example/cdmx" = Ok error_response /\
  lacks_parameter error_response = true /\
  download_function env sample_job empty_world =
    (Ok (sample_row_info, true, None),
     log_request "https://power.example/cdmx" empty_world) /\
  files (log_request "https://power.example/cdmx" empty_world) = files empty_world.
Proof.
  cbv zeta. split; [reflexivity|]. split; [reflexivity|].
  apply (download_function_silent_success
           (sample_env (fun _ => Ok error_response) [])
           "https://power.example/cdmx" "out/cdmx.csv" sample_row_info empty_world
           error_response); reflexivity.
Defined.

(** A community outside the valid values. *)
Lemma invalid_options_raise_first_witness :
  ~ In (community bad_community_options) valid_communities /\
  exists e,
    download_nasa_power_data t2m_env sample_locations bad_community_options empty_world
      = (Raise e, empty_world) /\
    exn_class e = "ValueError".
Proof.
  assert (H : ~ In (community bad_community_options) valid_communities).
  { simpl. intros [H|[H|[H|[]]]]; discriminate. }
  split; [exact H|].
  apply (invalid_options_raise_first t2m_env sample_locations bad_community_options
           empty_world).
  do 5 right. exact H.
Defined.

(** The claim of C5 fails when the provider names a variable [period]:
    the written file has both a [date] and a [period] column, and
    [period] comes before the variable [T2M] that preceded it in the
    response. *)
Lemma period_variable_gives_both :
  let env := sample_env (fun _ => Ok period_response) [] in
  exists t w',
    download_function env sample_job empty_world = (Ok (sample_row_info, true, None), w') /\
    files w' !! "out/cdmx.csv" = Some (FCsv t) /\
    df_columns t = ["identifier"; "latitude"; "longitude"; "date"; "period"; "T2M"] /\
    ~ (df_columns t = ["identifier"; "latitude"; "longitude"; "date"; "T2M"; "period"] \/
       df_columns t = ["identifier"; "latitude"; "longitude"; "period"; "T2M"; "period"]).
Proof.
  cbv zeta. eexists. eexists.
  split; [vm_compute; reflexivity|].
  split; [vm_compute; reflexivity|].
  split; [reflexivity|].
  intros [H|H]; vm_compute in H; discriminate H.
Defined.

(** One variable, two daily keys: the [date] branch. *)
Lemma written_file_columns_witness :
  let env := sample_env (fun _ => Ok t2m_response) [] in
  let df := mkDF [("T2M", [Num "21.5"; Num "22.1"])] [Str "20150101"; Str "20150102"] in
  frame_of_json env (JObj [("T2M", JObj [("20150101", JNum "21.5");
                                         ("20150102", JNum "22.1")])]) = Ok df /\
  Forall (fun c => ~ In c reserved_cols) (df_columns df) /\
  exists t w',
    download_function env sample_job empty_world = (Ok (sample_row_info, true, None), w') /\
    files w' !! "out/cdmx.csv" = Some (FCsv t) /\
    (forall c, In c (df_columns df) -> assoc c (df_data t) = assoc c (df_data df)) /\
    df_columns t = ["identifier"; "latitude"; "longitude"; "date"] ++ df_columns df /\
    assoc "date" (df_data t) = Some [Timestamp "2015-01-01"; Timestamp "2015-01-02"].
Proof.
  cbv zeta.
  assert (Hvars : Forall (fun c => ~ In c reserved_cols) ["T2M"]).
  { constructor; [|constructor]. simpl. intros [H|[H|[H|[H|[H|[]]]]]]; discriminate. }
  split; [reflexivity|]. split; [exact Hvars|].
  exact (written_file_columns (sample_env (fun _ => Ok t2m_response) [])
           "https://power.example/cdmx" "out/cdmx.csv" sample_row_info empty_world
           t2m_response
           (JObj [("T2M", JObj [("20150101", JNum "21.5"); ("20150102", JNum "22.1")])])
           (mkDF [("T2M", [Num "21.5"; Num "22.1"])] [Str "20150101"; Str "20150102"])
           (Num "19.43") (Num "-99.13") (Str "cdmx")
           eq_refl eq_refl eq_refl eq_refl Hvars eq_refl eq_refl eq_refl eq_refl).
Defined.

(** The claim of C7 fails on a destination file that parses to an empty
    table: it is left out of the consolidated table and no diagnostic is
    printed for it. *)
Lemma header_only_file_skipped_silently :
  files sample_folder_world !! "out/b.csv" = Some (FCsv header_only) /\
  df_empty header_only = true /\
  Forall (fun r => result_success r = true) sample_results /\
  exists w',
    reduce_results sample_results "out" true sample_folder_world = (Ok two_rows, w') /\
    ~ diagnosed w' "b.csv".
Proof.
  split; [vm_compute; reflexivity|]. split; [reflexivity|].
  split; [repeat constructor|].
  eexists. split; [vm_compute; reflexivity|].
  intros [msg H]. cbn [console] in H.
  repeat (destruct H as [H|H]; [discriminate H|]). exact H.
Defined.

(** The same two results, with and without consolidation. *)
Lemma reduce_results_consolidation_witness :
  sample_results <> [] /\
  Forall has_fields sample_results /\
  reduce_results sample_results "out" true sample_folder_world =
    (Ok two_rows,
     add_console sample_folder_world
       (summary_lines sample_results ++ [Print (nl +:+ "Consolidando datos...")] ++
        [] ++ [closing_line [two_rows]])) /\
  reduce_results sample_results "out" false sample_folder_world =
    (Ok (df_of_records sample_results),
     add_console sample_folder_world (summary_lines sample_results)).
Proof.
  assert (Hne : sample_results <> []) by discriminate.
  assert (Hf : Forall has_fields sample_results).
  { repeat constructor; eexists; reflexivity. }
  split; [exact Hne|]. split; [exact Hf|].
  pose proof (reduce_results_consolidation sample_results "out" true sample_folder_world Hne Hf)
    as [_ Hon].
  pose proof (reduce_results_consolidation sample_results "out" false sample_folder_world Hne Hf)
    as [Hoff _].
  split.
  - exact (proj1 (Hon eq_refl eq_refl)).
  - exact (proj1 (Hoff (or_introl eq_refl))).
Defined.

(** The claim of C8 fails when the output folder's path is a regular
    file: the options are valid, and the call raises an exception that is
    not the validation error. *)
Lemma existing_file_as_folder_raises :
  validate sample_locations sample_options = None /\
  download_nasa_power_data t2m_env sample_locations sample_options folder_is_file_world =
    (Raise (mkExn "FileExistsError" "[Errno 17] File exists: 'out'"), folder_is_file_world) /\
  exn_class (mkExn "FileExistsError" "[Errno 17] File exists: 'out'") <> "ValueError".
Proof.
  split; [reflexivity|]. split; [vm_compute; reflexivity | discriminate].
Defined.

(** An empty location table passes validation and planning, and the call
    then raises [KeyError] on the missing [success] column (line 243). *)
Example empty_table_raises :
  let df := mkDF [("latitude", []); ("longitude", [])] [] in
  validate df sample_options = None /\
  fst (download_nasa_power_data t2m_env df sample_options empty_world) =
    Raise (KeyError "success").
Proof. cbv zeta. split; [reflexivity | vm_compute; reflexivity]. Qed.

(** Three locations, the request for the second one fails: the call
    returns the Summary Table, in the order of completion, with that
    location recorded as failed and its message in the [error] column. *)
Lemma download_returns_after_planning_witness :
  validate sample_locations sample_options = None /\
  df_wf sample_locations /\
  0 < df_len sample_locations /\
  files empty_world !! output_folder sample_options = None /\
  makedirs_error flaky_env empty_world (output_folder sample_options) = None /\
  Forall (fun p => brace_free p = true) (parameters sample_options) /\
  dates_parse flaky_env sample_options sample_locations /\
  (1 <= processes sample_options)%Z /\
  exists jobs order results table w',
    plan_rows flaky_env sample_options (df_columns sample_locations)
              (formatted_template sample_options) (iterrows sample_locations) = Ok jobs /\
    Permutation order jobs /\
    length results = df_len sample_locations /\
    Forall2 (records_outcome flaky_env) order results /\
    Forall2 (records_failed_request flaky_env) order results /\
    download_nasa_power_data flaky_env sample_locations sample_options empty_world
      = (Ok table, w') /\
    table = df_of_records results /\
    df_getcol "index" table = Ok [Num "1"; Num "2"; Num "0"] /\
    df_getcol "success" table = Ok [PyBool false; PyBool true; PyBool true] /\
    df_getcol "error" table = Ok [Str "Max retries exceeded"; PyNone; PyNone].
Proof.
  assert (Hwf : df_wf sample_locations) by (repeat constructor).
  assert (Hrows : 0 < df_len sample_locations) by (vm_compute; lia).
  assert (Hfile : files empty_world !! output_folder sample_options = None)
    by (vm_compute; reflexivity).
  assert (Hplain : Forall (fun p => brace_free p = true) (parameters sample_options))
    by (repeat constructor).
  assert (Hdates : dates_parse flaky_env sample_options sample_locations).
  { intros c col v [H|H]; vm_compute in H; [|discriminate H].
    injection H as <-. intros Hcol. vm_compute in Hcol. injection Hcol as <-.
    intros Hin. simpl in Hin.
    destruct Hin as [<-|[<-|[<-|[]]]]; eexists; reflexivity. }
  assert (Hproc : (1 <= processes sample_options)%Z) by (vm_compute; discriminate).
  split; [reflexivity|]. split; [exact Hwf|]. split; [exact Hrows|]. split; [exact Hfile|].
  split; [reflexivity|]. split; [exact Hplain|]. split; [exact Hdates|].
  split; [exact Hproc|].
  destruct (download_returns_after_planning flaky_env sample_locations sample_options
              empty_world eq_refl Hwf Hrows Hfile eq_refl Hplain Hdates Hproc)
    as (jobs & order & results & table & w' & Hplan & Hperm & Hlen & Hrec & Hfail
        & Hcall & Hoff & _).
  destruct (Hoff eq_refl) as (Htable & _).
  assert (Hrun : exists t,
             fst (download_nasa_power_data flaky_env sample_locations sample_options
                    empty_world) = Ok t /\
             df_getcol "index" t = Ok [Num "1"; Num "2"; Num "0"] /\
             df_getcol "success" t = Ok [PyBool false; PyBool true; PyBool true] /\
             df_getcol "error" t = Ok [Str "Max retries exceeded"; PyNone; PyNone]).
  { eexists. split; [vm_compute; reflexivity|]. repeat split; reflexivity. }
  destruct Hrun as (t & Ht & Hcols).
  rewrite Hcall in Ht. cbn [fst] in Ht. injection Ht as <-.
  exists jobs, order, results, table, w'.
  repeat (split; [assumption|]). exact Hcols.
Defined.

(** Five municipalities, state [001]: the two rows whose code ends in
    [001] are returned, the numeric one with its code as text. *)
Lemma load_centroid_data_rows_witness :
  files municipality_world !! "municipios.csv" = Some (FCsv municipalities) /\
  df_wf municipalities /\
  In "CVEGEO" (df_columns municipalities) /\
  exists r,
    load_centroid_data t2m_env "municipios.csv" "001" municipality_world
      = (Ok r, municipality_world) /\
    df_rows r = map (returned_row t2m_env)
                    (List.filter (code_matches_state t2m_env "001")
                                 (df_rows municipalities)) /\
    df_rows r = [[("CVEGEO", Str "01001"); ("nombre", Str "Aguascalientes")];
                 [("CVEGEO", Str "2001"); ("nombre", Str "Mexicali")]] /\
    df_index r = [Num "0"; Num "1"] /\
    ~ In "edo" (df_columns r).
Proof.
  assert (Hfile : files municipality_world !! "municipios.csv" = Some (FCsv municipalities))
    by (vm_compute; reflexivity).
  assert (Hwf : df_wf municipalities) by (repeat constructor).
  assert (Hcol : In "CVEGEO" (df_columns municipalities)) by (left; reflexivity).
  repeat (split; [assumption|]).
  destruct (load_centroid_data_rows t2m_env "municipios.csv" "001" municipality_world
              municipalities Hfile Hwf Hcol) as (r & Hload & Hrows & Hedo).
  assert (Hrun : exists t,
             fst (load_centroid_data t2m_env "municipios.csv" "001" municipality_world)
               = Ok t /\
             df_rows t = [[("CVEGEO", Str "01001"); ("nombre", Str "Aguascalientes")];
                          [("CVEGEO", Str "2001"); ("nombre", Str "Mexicali")]] /\
             df_index t = [Num "0"; Num "1"]).
  { eexists. split; [vm_compute; reflexivity|]. split; reflexivity. }
  destruct Hrun as (t & Ht & Htrows & Htidx).
  rewrite Hload in Ht. cbn [fst] in Ht. injection Ht as <-.
  exists r. split; [exact Hload|]. split; [exact Hrows|].
  split; [exact Htrows|]. split; [exact Htidx | exact Hedo].
Defined.

(** The same file, which has an [edo] column of its own. *)
Lemma load_centroid_data_edo_lost_witness :
  files centroid_world !! "centroids.csv" = Some (FCsv centroids) /\
  In "CVEGEO" (df_columns centroids) /\
  exists r,
    load_centroid_data t2m_env "centroids.csv" "001" centroid_world = (Ok r, centroid_world) /\
    df_columns r = List.filter (fun n => negb (String.eqb n "edo")) (df_columns centroids) /\
    forall (v : list Cell) (w2 : World),
      files w2 !! "centroids.csv" = Some (FCsv (df_setcol "edo" v centroids)) ->
      load_centroid_data t2m_env "centroids.csv" "001" w2 = (Ok r, w2).
Proof.
  assert (Hfile : files centroid_world !! "centroids.csv" = Some (FCsv centroids))
    by (vm_compute; reflexivity).
  assert (Hcol : In "CVEGEO" (df_columns centroids)) by (left; reflexivity).
  repeat (split; [assumption|]).
  exact (load_centroid_data_edo_lost t2m_env "centroids.csv" "001" centroid_world centroids
           Hfile Hcol).
Defined.

(** * Further properties *)

(** ** [load_data.py]: errors, row labels, state codes *)

(** A CSV without a [CVEGEO] column makes [load_centroid_data] raise
    [KeyError: 'CVEGEO'], and a missing file makes it raise
    [FileNotFoundError]; the world is left as it was. *)
Theorem load_centroid_data_errors env (path state : string) (w : World) :
  (files w !! path = None ->
   exists e, load_centroid_data env path state w = (Raise e, w) /\
             exn_class e = "FileNotFoundError") /\
  (forall t, files w !! path = Some (FCsv t) ->
             ~ In "CVEGEO" (df_columns t) ->
             load_centroid_data env path state w = (Raise (KeyError "CVEGEO"), w)).
Proof.
  split.
  - intros Hf. unfold load_centroid_data, read_csv_dtype_str, bind, read_csv.
    rewrite Hf. eauto.
  - intros t Hf Hc.
    assert (Hn : assoc "CVEGEO" (df_data t) = None).
    { destruct (assoc "CVEGEO" (df_data t)) eqn:E; [|done].
      exfalso. apply Hc. eapply assoc_Some_In; eauto. }
    unfold load_centroid_data, read_csv_dtype_str, bind, read_csv, ret, lift.
    rewrite Hf. unfold with_dtype_str. rewrite Hn.
    unfold select_state, df_getcol. now rewrite Hn.
Qed.

Lemma mask_filter_combine {A B} (mask : list bool) (l1 : list A) (l2 : list B) :
  combine (mask_filter mask l1) (mask_filter mask l2) = mask_filter mask (combine l1 l2).
Proof.
  revert l1 l2. induction mask as [|b m IH]; intros [|x l1] [|y l2]; simpl; try done.
  - now destruct b, (mask_filter m l1).
  - destruct b; simpl; now rewrite IH.
Qed.

Lemma last3_length (s : string) : String.length (last3 s) <= 3.
Proof.
  destruct (last3_suffix s) as (_ & H3 & Hs).
  destruct (Nat.le_gt_cases 3 (String.length s)) as [H|H].
  - rewrite (H3 H). lia.
  - rewrite (Hs H). lia.
Qed.

Lemma map_remove_mask_filter {A B} (f : A -> B) (mask : list bool) (l : list A) :
  map f (mask_filter mask l) = mask_filter mask (map f l).
Proof.
  revert l. induction mask as [|b m IH]; intros [|x l]; simpl; try done.
  destruct b; simpl; now rewrite IH.
Qed.

Lemma filter_col_wf mask (data : list (string * list Cell)) (idx : list Cell) :
  length mask = length idx ->
  Forall (fun c => length (snd c) = length idx) data ->
  Forall (fun c => length (snd c) = length (mask_filter mask idx)) (map (filter_col mask) data).
Proof.
  intros Hlen Hwf. apply List.Forall_forall. intros c Hin.
  apply in_map_iff in Hin as (c0 & <- & Hin0).
  rewrite List.Forall_forall in Hwf. specialize (Hwf _ Hin0). simpl.
  rewrite !mask_filter_length; [done | done | congruence].
Qed.

(** The result of [load_centroid_data] keeps the row labels of the parsed
    CSV: it pairs each selected row with the label it had, in order, and
    every column of the result has one cell per selected row. *)
Theorem load_centroid_data_keeps_labels env (path state : string) (w : World) (t : DataFrame) :
  files w !! path = Some (FCsv t) ->
  df_wf t ->
  In "CVEGEO" (df_columns t) ->
  exists r,
    load_centroid_data env path state w = (Ok r, w) /\
    df_wf r /\
    iterrows r =
      map (fun ir => (fst ir, remove_key "edo" (snd ir)))
          (List.filter (fun ir => has_state state (snd ir))
                       (iterrows (with_dtype_str env "CVEGEO" t))).
Proof.
  intros Hfile Hwf Hcol.
  pose proof (with_dtype_str_wf env "CVEGEO" t Hwf) as Hwf'.
  rewrite <- (with_dtype_str_columns env "CVEGEO" t) in Hcol.
  set (df := with_dtype_str env "CVEGEO" t) in *.
  destruct (assoc_In _ _ Hcol) as [cvegeo Hc].
  unfold load_centroid_data, read_csv_dtype_str, bind, read_csv, ret, lift.
  rewrite Hfile. fold df. rewrite (select_state_data state df cvegeo Hc).
  eexists. split; [reflexivity|].
  set (mask := map (eq_str state) (map str_last3 cvegeo)).
  assert (Hlen : length mask = length (df_index df)).
  { unfold mask. rewrite !length_map. eapply assoc_length; eauto. }
  assert (Hwf2 : Forall (fun c : string * list Cell => length (snd c) = length (df_index df))
                        (remove_key "edo" (df_data df))).
  { unfold remove_key. apply List.Forall_forall. intros c Hin.
    apply filter_In in Hin as [Hin _]. revert c Hin. now apply List.Forall_forall. }
  split.
  - unfold df_wf. cbn [df_data df_index]. now apply filter_col_wf.
  - unfold iterrows, df_rows, df_len. cbn [df_data df_index].
    rewrite (mask_filter_length mask (df_index df) Hlen).
    rewrite (rows_of_filter mask _ _ Hlen Hwf2), (rows_of_remove_key "edo" _ _ Hwf').
    set (rows := rows_of (length (df_index df)) (df_data df)).
    assert (Hrl : length (df_index df) = length rows) by (unfold rows; now rewrite rows_of_length).
    assert (Hrows : map (assoc "CVEGEO") rows = map Some cvegeo)
      by (apply rows_of_assoc; done).
    assert (Hm : mask = map (has_state state) rows).
    { unfold mask. rewrite map_map.
      assert (E : map (has_state state) rows =
                  map (fun o => match o with
                                | Some v => eq_str state (str_last3 v)
                                | None => false
                                end) (map (assoc "CVEGEO") rows)).
      { rewrite map_map. apply map_ext. intros row. unfold has_state.
        destruct (assoc "CVEGEO" row) as [[]|]; done. }
      rewrite E, Hrows, map_map. done. }
    rewrite <- (mask_filter_map_via (has_state state) snd rows (combine (df_index df) rows))
      by (now apply map_snd_combine).
    rewrite <- Hm, <- mask_filter_combine, <- map_remove_mask_filter.
    generalize (mask_filter mask (df_index df)) (mask_filter mask rows). clear.
    induction l as [|x l IH]; intros [|y l0]; simpl; try done. now rewrite IH.
Qed.

Lemma mask_filter_none {A B} (p : B -> bool) (col : list B) (l : list A) :
  (forall x, p x = false) -> mask_filter (map p col) l = [].
Proof.
  intros Hp. revert l. induction col as [|x col IH]; intros [|y l]; simpl; try done.
  now rewrite Hp.
Qed.

(** A state code longer than three characters selects nothing: the result
    has no row, whatever the CSV holds. *)
Theorem load_centroid_data_long_state env (path state : string) (w : World) (t : DataFrame) :
  files w !! path = Some (FCsv t) ->
  In "CVEGEO" (df_columns t) ->
  3 < String.length state ->
  exists r,
    load_centroid_data env path state w = (Ok r, w) /\
    df_len r = 0%nat /\
    df_rows r = [].
Proof.
  intros Hfile Hcol Hlong.
  rewrite <- (with_dtype_str_columns env "CVEGEO" t) in Hcol.
  destruct (assoc_In _ _ Hcol) as [cvegeo Hc].
  unfold load_centroid_data, read_csv_dtype_str, bind, read_csv, ret, lift.
  rewrite Hfile, (select_state_data state _ cvegeo Hc).
  eexists. split; [reflexivity|].
  assert (Hnone : forall v, eq_str state (str_last3 v) = false).
  { intros v. destruct v; simpl; try done.
    apply String.eqb_neq. intros E. pose proof (last3_length s) as Hl.
    rewrite E in Hl. lia. }
  assert (Hidx : mask_filter (map (eq_str state) (map str_last3 cvegeo))
                   (df_index (with_dtype_str env "CVEGEO" t)) = []).
  { rewrite map_map. now apply (mask_filter_none (fun v => eq_str state (str_last3 v))). }
  unfold df_rows, df_len. cbn [df_index df_data]. now rewrite Hidx.
Qed.

(** ** Validation *)

(** Validation passes exactly when both coordinate columns exist, some
    parameter is given, and the two resolutions and the community are
    among their valid values; nothing else (dates, identifier column,
    process count, output folder) is checked. *)
Theorem validate_accepts_iff (df : DataFrame) (o : Options) :
  validate df o = None <->
  In (lat_col o) (df_columns df) /\
  In (lon_col o) (df_columns df) /\
  parameters o <> [] /\
  In (temporal_resolution o) valid_temporal_resolutions /\
  In (spatial_resolution o) valid_spatial_resolutions /\
  In (community o) valid_communities.
Proof.
  unfold validate.
  destruct (mem (lat_col o) (df_columns df)) eqn:E1; cbn [negb orb].
  2:{ apply mem_false_In in E1. split; [done | tauto]. }
  destruct (mem (lon_col o) (df_columns df)) eqn:E2; cbn [negb orb].
  2:{ apply mem_false_In in E2. split; [done | tauto]. }
  destruct (parameters o) as [|p ps] eqn:E3; cbn [length Nat.eqb].
  { split; [done | tauto]. }
  destruct (mem (temporal_resolution o) valid_temporal_resolutions) eqn:E4; cbn [negb].
  2:{ apply mem_false_In in E4. split; [done | tauto]. }
  destruct (mem (spatial_resolution o) valid_spatial_resolutions) eqn:E5; cbn [negb].
  2:{ apply mem_false_In in E5. split; [done | tauto]. }
  destruct (mem (community o) valid_communities) eqn:E6; cbn [negb].
  2:{ apply mem_false_In in E6. split; [done | tauto]. }
  apply mem_In in E1, E2, E4, E5, E6. split; [|done].
  intros _. repeat split; done.
Qed.

(** ** The worker: what it touches *)

Lemma bind_effect {A B} (Q : World -> Prop) (c : M A) (k : A -> M B) (w : World) :
  snd (c w) = w -> Q w -> (forall a, Q (snd (k a w))) -> Q (snd (bind c k w)).
Proof.
  intros Hc Hw Hk. unfold bind. destruct (c w) as [[a|e] w1]; simpl in Hc; subst; auto.
Qed.

Lemma bind_effect_from {A B} (Q : World -> Prop) (c : M A) (k : A -> M B)
    (w w1 : World) (r : Res A) :
  c w = (r, w1) -> Q w1 -> (forall a, Q (snd (k a w1))) -> Q (snd (bind c k w)).
Proof. intros Hc Hw Hk. unfold bind. rewrite Hc. destruct r; simpl; auto. Qed.

Lemma download_body_effect env request filepath row_info w :
  snd (download_body env request filepath row_info w) = log_request request w \/
  exists t,
    snd (download_body env request filepath row_info w) =
      mkWorld (<[filepath := FCsv t]> (files w)) (dirs w)
              (net_log w ++ [request]) (console w).
Proof.
  set (w1 := log_request request w).
  set (Q := fun w' : World =>
              w' = w1 \/
              exists t, w' = mkWorld (<[filepath := FCsv t]> (files w)) (dirs w)
                                     (net_log w ++ [request]) (console w)).
  enough (H : Q (snd (download_body env request filepath row_info w))) by exact H.
  assert (Q1 : Q w1) by now left.
  unfold download_body.
  eapply bind_effect_from; [reflexivity | exact Q1 | intros response].
  fold w1.
  apply bind_effect; [done | done | intros has_properties].
  apply bind_effect; [| done | intros has_parameter].
  { destruct has_properties; [|done]. unfold bind, lift.
    now destruct (py_getitem response "properties"). }
  destruct has_parameter; [|exact Q1].
  apply bind_effect; [done | done | intros properties].
  apply bind_effect; [done | done | intros params].
  apply bind_effect; [done | done | intros df].
  destruct (negb (df_empty df)); [|exact Q1].
  apply bind_effect; [done | done | intros t].
  unfold to_csv. destruct (write_error env w1 filepath); [exact Q1|].
  right. eexists. reflexivity.
Qed.

(** The worker sends exactly one request, the job's, whatever the
    outcome; it creates no directory and prints nothing; and the only
    file it can change is the one at the job's destination path. *)
Theorem download_function_touches_own_path env (request filepath : string)
    (row_info : list (string * Cell)) (w : World) :
  let w' := snd (download_function env (request, filepath, row_info) w) in
  net_log w' = net_log w ++ [request] /\
  dirs w' = dirs w /\
  console w' = console w /\
  forall p, p <> filepath -> files w' !! p = files w !! p.
Proof.
  assert (H' : snd (download_function env (request, filepath, row_info) w) =
               snd (download_body env request filepath row_info w)).
  { unfold download_function, try_except, bind, ret.
    now destruct (download_body env request filepath row_info w) as [[[]|e] w1]. }
  cbv zeta. rewrite H'.
  destruct (download_body_effect env request filepath row_info w) as [-> | [t ->]];
    cbn [net_log dirs console files log_request];
    repeat split; try done; intros p Hp; now rewrite lookup_insert_ne.
Qed.

(** ** The worker: empty tables, missing metadata, the columns it writes *)

Lemma download_body_with_frame env request filepath row_info w response params df :
  http_get_json env w request = Ok response ->
  response_parameter response = Some params ->
  frame_of_json env params = Ok df ->
  download_body env request filepath row_info w =
    (if negb (df_empty df)
     then let* t := lift (tabulate env row_info df) in to_csv env t filepath
     else ret tt) (log_request request w).
Proof.
  intros Hget Hparam Hframe.
  destruct response as [| | | | |members]; try discriminate. simpl in Hparam.
  destruct (assoc "properties" members) as [[| | | | |inner]|] eqn:Hp; try discriminate.
  unfold download_body.
  erewrite bind_ok by (unfold requests_get_json; now rewrite Hget).
  unfold bind, lift, py_contains, py_getitem, ret.
  rewrite (mem_keys_assoc_some _ _ _ Hp), Hp, (mem_keys_assoc_some _ _ _ Hparam), Hparam.
  rewrite Hframe. reflexivity.
Qed.

(** When the response holds [properties.parameter] but the table made of
    it is empty (no variable, or no period), the worker reports success
    with no error and writes nothing. *)
Theorem empty_table_is_silent_success env (request filepath : string)
    (row_info : list (string * Cell)) (w : World) (response params : Json) (df : DataFrame) :
  http_get_json env w request = Ok response ->
  response_parameter response = Some params ->
  frame_of_json env params = Ok df ->
  df_empty df = true ->
  download_function env (request, filepath, row_info) w =
    (Ok (row_info, true, None), log_request request w) /\
  files (log_request request w) = files w.
Proof.
  intros Hget Hparam Hframe Hempty. split; [|reflexivity].
  unfold download_function, try_except, bind at 1.
  rewrite (download_body_with_frame _ _ _ _ _ _ _ _ Hget Hparam Hframe), Hempty.
  reflexivity.
Qed.

(** When the table is not empty and [row_info] lacks one of [latitude],
    [longitude] or [identifier], the lookup raises inside the [try]: the
    worker reports a failure whose error names the missing key, and writes
    nothing. *)
Theorem missing_metadata_fails env (request filepath : string)
    (row_info : list (string * Cell)) (w : World) (response params : Json) (df : DataFrame) :
  http_get_json env w request = Ok response ->
  response_parameter response = Some params ->
  frame_of_json env params = Ok df ->
  df_empty df = false ->
  assoc "latitude" row_info = None \/
  assoc "longitude" row_info = None \/
  assoc "identifier" row_info = None ->
  exists key,
    In key ["latitude"; "longitude"; "identifier"] /\
    assoc key row_info = None /\
    download_function env (request, filepath, row_info) w =
      (Ok (row_info, false, Some (exn_msg (KeyError key))), log_request request w).
Proof.
  intros Hget Hparam Hframe Hne Hmiss.
  unfold download_function, try_except, bind at 1.
  rewrite (download_body_with_frame _ _ _ _ _ _ _ _ Hget Hparam Hframe), Hne.
  cbn [negb]. unfold bind, lift, tabulate, dict_get.
  destruct (assoc "latitude" row_info) eqn:E1.
  2:{ exists "latitude". simpl. auto. }
  destruct (assoc "longitude" row_info) eqn:E2.
  2:{ exists "longitude". simpl. auto. }
  destruct (assoc "identifier" row_info) eqn:E3.
  2:{ exists "identifier". simpl. auto 6. }
  destruct Hmiss as [H|[H|H]]; discriminate.
Qed.

Lemma keys_assign_iff {A} k (v : A) l c :
  In c (map fst (assign k v l)) <-> c = k \/ In c (map fst l).
Proof.
  induction l as [|[k' v'] l IH]; simpl.
  - split; [intros [<-|[]]; auto | intros [->|[]]; auto].
  - destruct (String.eqb_spec k' k) as [->|Hne]; simpl.
    + split; [intros [<-|H]; auto | intros [->|[<-|H]]; auto].
    + rewrite IH. split; [intros [<-|[->|H]]; auto | intros [->|[<-|H]]; auto].
Qed.

Lemma keys_assign_NoDup {A} k (v : A) l :
  List.NoDup (map fst l) -> List.NoDup (map fst (assign k v l)).
Proof.
  induction l as [|[k' v'] l IH]; simpl; intros H.
  - constructor; [intros [] | constructor].
  - inversion H as [|? ? Hnotin Hnd]; subst.
    destruct (String.eqb_spec k' k) as [->|Hne]; simpl.
    + now constructor.
    + constructor; [|now apply IH].
      rewrite keys_assign_iff. intros [E|Hin]; [congruence | done].
Qed.

Lemma assoc_Forall {A} (Q : A -> Prop) n (data : list (string * A)) c :
  Forall (fun x => Q (snd x)) data -> assoc n data = Some c -> Q c.
Proof.
  induction 1 as [|[k v] data Hv _ IH]; simpl; [done|].
  destruct (String.eqb k n); [now intros [= <-] | auto].
Qed.

Lemma select_cols_Forall (Q : list Cell -> Prop) names : forall data cs,
  Forall (fun x => Q (snd x)) data ->
  select_cols names data = Ok cs ->
  Forall (fun x => Q (snd x)) cs.
Proof.
  induction names as [|n names IH]; intros data cs Hd Hs; simpl in Hs.
  - injection Hs as <-. constructor.
  - destruct (assoc n data) as [c|] eqn:Hc; [|discriminate].
    destruct (select_cols names data) as [cs'|] eqn:Hcs; [|discriminate].
    injection Hs as <-. constructor; [|eapply IH; eauto].
    simpl. eapply assoc_Forall; eauto.
Qed.

Lemma base_cols_NoDup df : List.NoDup (base_cols df).
Proof.
  unfold base_cols.
  destruct (mem "date" (df_columns df)), (mem "period" (df_columns df)); simpl;
    repeat (constructor; [simpl; intros H; repeat (destruct H as [H|H]; try discriminate); done|]);
    constructor.
Qed.

Lemma base_cols_In df c :
  In c (base_cols df) ->
  In c ["identifier"; "latitude"; "longitude"] \/ In c (df_columns df).
Proof.
  unfold base_cols. intros H. apply in_app_or in H as [H|H]; [now left|].
  right. apply in_app_or in H as [H|H].
  - destruct (mem "date" (df_columns df)) eqn:E; [|done].
    destruct H as [<-|[]]. now apply mem_In.
  - destruct (mem "period" (df_columns df)) eqn:E; [|done].
    destruct H as [<-|[]]. now apply mem_In.
Qed.

(** The reordering of lines 38-45 keeps every column exactly once. *)
Lemma reorder_columns (df : DataFrame) :
  In "identifier" (df_columns df) ->
  In "latitude" (df_columns df) ->
  In "longitude" (df_columns df) ->
  exists t,
    df_select (base_cols df ++ other_cols df) df = Ok t /\
    df_index t = df_index df /\
    df_columns t = base_cols df ++ other_cols df /\
    (forall c, In c (df_columns t) <-> In c (df_columns df)) /\
    (forall c, In c (df_columns df) -> assoc c (df_data t) = assoc c (df_data df)) /\
    (List.NoDup (df_columns df) -> List.NoDup (df_columns t)).
Proof.
  intros Hi Hla Hlo.
  assert (Hsub : forall c, In c (base_cols df ++ other_cols df) <-> In c (df_columns df)).
  { intros c. rewrite in_app_iff. unfold other_cols. rewrite filter_In. split.
    - intros [H|[H _]]; [|done].
      destruct (base_cols_In df c H) as [H'|H']; [|done].
      simpl in H'. destruct H' as [<-|[<-|[<-|[]]]]; done.
    - intros H. destruct (mem c (base_cols df)) eqn:E.
      + left. now apply mem_In.
      + right. split; [done | reflexivity]. }
  unfold df_select.
  destruct (select_cols_all (base_cols df ++ other_cols df) (df_data df))
    as (cs & -> & Hk & Ha).
  { intros n Hn. now apply Hsub. }
  exists (mkDF cs (df_index df)).
  assert (Hc : df_columns (mkDF cs (df_index df)) = base_cols df ++ other_cols df)
    by exact Hk.
  rewrite Hc. cbn [df_data df_index]. repeat split; try done.
  - now apply Hsub.
  - now apply Hsub.
  - intros c Hin. apply Ha. now apply Hsub.
  - intros Hnd. apply List.NoDup_app.
    + apply base_cols_NoDup.
    + unfold other_cols. now apply List.NoDup_filter.
    + intros c Hb Ho. unfold other_cols in Ho. apply filter_In in Ho as [_ Ho].
      apply negb_true_iff, mem_false_In in Ho. done.
Qed.

Lemma add_dates_setcol env df :
  df_empty df = false ->
  exists xs,
    length xs = df_len df /\
    add_dates env df = df_setcol (date_or_period env (df_index df)) xs df.
Proof.
  intros Hne. unfold add_dates, date_or_period.
  assert (Hlen : (0 <? df_len df)%nat = true).
  { unfold df_empty in Hne. apply orb_false_elim in Hne as [_ Hne].
    apply Nat.eqb_neq in Hne. apply Nat.ltb_lt. lia. }
  rewrite Hlen. unfold to_datetime_ymd.
  destruct (mapM (parse_ymd env) (df_index df)) as [dates|] eqn:E.
  - exists dates. split; [|done]. apply mapM_Some_1 in E.
    symmetry. apply (Forall2_length _ _ _ E).
  - exists (df_index df). split; done.
Qed.

Lemma tabulate_shape env row_info df latitude longitude identifier :
  dict_get row_info "latitude" = Ok latitude ->
  dict_get row_info "longitude" = Ok longitude ->
  dict_get row_info "identifier" = Ok identifier ->
  df_empty df = false ->
  exists t,
    tabulate env row_info df = Ok t /\
    df_index t = df_index df /\
    (exists rest, df_columns t = "identifier" :: "latitude" :: "longitude" :: rest) /\
    (forall c, In c (df_columns t) <->
               In c (df_columns df) \/
               In c ["identifier"; "latitude"; "longitude";
                     date_or_period env (df_index df)]) /\
    (List.NoDup (df_columns df) -> List.NoDup (df_columns t)) /\
    assoc "identifier" (df_data t) = Some (repeat identifier (df_len df)) /\
    assoc "latitude" (df_data t) = Some (repeat latitude (df_len df)) /\
    assoc "longitude" (df_data t) = Some (repeat longitude (df_len df)) /\
    (df_wf df -> df_wf t).
Proof.
  intros Hlat Hlon Hid Hne.
  unfold tabulate. rewrite Hlat, Hlon, Hid.
  set (df1 := df_setconst "latitude" latitude df).
  set (df2 := df_setconst "longitude" longitude df1).
  set (df3 := df_setconst "identifier" identifier df2).
  assert (Hne3 : df_empty df3 = false).
  { unfold df_empty in *. apply orb_false_elim in Hne as [_ Hne].
    change (df_len df3) with (df_len df). rewrite Hne.
    unfold df3, df_setconst, df_setcol. cbn [df_data].
    destruct (assign "identifier" (repeat identifier (df_len df2)) (df_data df2)) eqn:E; [|done].
    pose proof (assoc_assign_same "identifier" (repeat identifier (df_len df2)) (df_data df2)) as H.
    rewrite E in H. discriminate. }
  destruct (add_dates_setcol env df3 Hne3) as (xs & Hxs & ->).
  change (df_index df3) with (df_index df). change (df_len df3) with (df_len df) in Hxs.
  set (X := date_or_period env (df_index df)).
  assert (HX : X = "date" \/ X = "period").
  { unfold X, date_or_period. destruct (to_datetime_ymd env (df_index df)); auto. }
  set (df4 := df_setcol X xs df3).
  assert (Hcols : forall c, In c (df_columns df4) <->
            In c (df_columns df) \/ In c ["identifier"; "latitude"; "longitude"; X]).
  { intros c. unfold df4, df3, df2, df1, df_setconst, df_setcol, df_columns. cbn [df_data].
    rewrite !keys_assign_iff. simpl. intuition congruence. }
  destruct (reorder_columns df4) as (t & Ht & Hi & Hc & Hin & Ha & Hnd);
    [apply Hcols; simpl; tauto..|].
  exists t. split; [exact Ht|]. split; [exact Hi|]. split.
  { rewrite Hc. unfold base_cols. simpl. eauto. }
  split.
  { intros c. now rewrite Hin, Hcols. }
  split.
  { intros H. apply Hnd. unfold df4, df3, df2, df1, df_setconst, df_setcol, df_columns.
    cbn [df_data]. now repeat apply keys_assign_NoDup. }
  assert (Hmeta : forall k, In k ["identifier"; "latitude"; "longitude"] ->
            assoc k (df_data t) = assoc k (df_data df3)).
  { intros k Hk. rewrite Ha by (apply Hcols; simpl in *; tauto).
    unfold df4, df_setcol. cbn [df_data]. apply assoc_assign_other.
    simpl in Hk. destruct HX as [-> | ->]; intros <-;
      repeat (destruct Hk as [Hk|Hk]; try discriminate); done. }
  split; [|split; [|split]].
  - rewrite Hmeta by (simpl; tauto). unfold df3, df_setconst, df_setcol. cbn [df_data].
    apply assoc_assign_same.
  - rewrite Hmeta by (simpl; tauto). unfold df3, df2, df1, df_setconst, df_setcol.
    cbn [df_data]. rewrite !assoc_assign_other by done. apply assoc_assign_same.
  - rewrite Hmeta by (simpl; tauto). unfold df3, df2, df_setconst, df_setcol.
    cbn [df_data]. rewrite !assoc_assign_other by done. apply assoc_assign_same.
  - intros Hwf. unfold df_wf. rewrite Hi.
    unfold df_select in Ht.
    destruct (select_cols (base_cols df4 ++ other_cols df4) (df_data df4)) as [cs|] eqn:Hs;
      [|discriminate].
    injection Ht as <-. cbn [df_data df_index].
    apply (select_cols_Forall (fun c => length c = length (df_index df)) _ _ _ ) with (2 := Hs).
    unfold df4, df3, df2, df1, df_setconst, df_setcol. cbn [df_data].
    repeat apply assign_wf; try done; apply repeat_length.
Qed.

Lemma download_function_writes env request filepath row_info w response params df t :
  http_get_json env w request = Ok response ->
  response_parameter response = Some params ->
  frame_of_json env params = Ok df ->
  df_empty df = false ->
  tabulate env row_info df = Ok t ->
  write_error env (log_request request w) filepath = None ->
  exists w',
    download_function env (request, filepath, row_info) w = (Ok (row_info, true, None), w') /\
    files w' !! filepath = Some (FCsv (mkDF (df_data t) (range_index (df_len t)))).
Proof.
  intros Hget Hparam Hframe Hne Ht Hwrite.
  eexists. split.
  - unfold download_function, try_except, bind at 1.
    rewrite (download_body_with_frame _ _ _ _ _ _ _ _ Hget Hparam Hframe), Hne.
    cbn [negb]. unfold bind, lift, to_csv, ret. rewrite Ht, Hwrite. reflexivity.
  - cbn [files]. apply lookup_insert_eq.
Qed.

(** Whatever the variables of a non-empty response table are called, the
    file the worker writes starts with [identifier], [latitude],
    [longitude], holds exactly the table's columns together with those
    three and the [date] or [period] column, and repeats no column name
    when the table repeats none. *)
Theorem written_file_keeps_every_column env (request filepath : string)
    (row_info : list (string * Cell)) (w : World)
    (response params : Json) (df : DataFrame) (latitude longitude identifier : Cell) :
  http_get_json env w request = Ok response ->
  response_parameter response = Some params ->
  frame_of_json env params = Ok df ->
  df_empty df = false ->
  dict_get row_info "latitude" = Ok latitude ->
  dict_get row_info "longitude" = Ok longitude ->
  dict_get row_info "identifier" = Ok identifier ->
  write_error env (log_request request w) filepath = None ->
  exists (t : DataFrame) (w' : World),
    download_function env (request, filepath, row_info) w = (Ok (row_info, true, None), w') /\
    files w' !! filepath = Some (FCsv t) /\
    (exists rest, df_columns t = "identifier" :: "latitude" :: "longitude" :: rest) /\
    (forall c, In c (df_columns t) <->
               In c (df_columns df) \/
               In c ["identifier"; "latitude"; "longitude";
                     date_or_period env (df_index df)]) /\
    (List.NoDup (df_columns df) -> List.NoDup (df_columns t)).
Proof.
  intros Hget Hparam Hframe Hne Hlat Hlon Hid Hwrite.
  destruct (tabulate_shape env row_info df _ _ _ Hlat Hlon Hid Hne)
    as (t & Ht & Hi & Hfirst & Hcols & Hnd & _).
  destruct (download_function_writes _ _ _ _ _ _ _ _ _ Hget Hparam Hframe Hne Ht Hwrite)
    as (w' & Hrun & Hfile).
  exists (mkDF (df_data t) (range_index (df_len t))), w'.
  repeat split; try done; apply Hcols.
Qed.

(** Every row of the written file carries the job's identifier, latitude
    and longitude; the file has one row per period key of the response
    table, numbered from 0, and when the table is well formed so is the
    file. *)
Theorem written_rows_carry_metadata env (request filepath : string)
    (row_info : list (string * Cell)) (w : World)
    (response params : Json) (df : DataFrame) (latitude longitude identifier : Cell) :
  http_get_json env w request = Ok response ->
  response_parameter response = Some params ->
  frame_of_json env params = Ok df ->
  df_empty df = false ->
  dict_get row_info "latitude" = Ok latitude ->
  dict_get row_info "longitude" = Ok longitude ->
  dict_get row_info "identifier" = Ok identifier ->
  write_error env (log_request request w) filepath = None ->
  exists (t : DataFrame) (w' : World),
    download_function env (request, filepath, row_info) w = (Ok (row_info, true, None), w') /\
    files w' !! filepath = Some (FCsv t) /\
    df_index t = range_index (df_len df) /\
    assoc "identifier" (df_data t) = Some (repeat identifier (df_len df)) /\
    assoc "latitude" (df_data t) = Some (repeat latitude (df_len df)) /\
    assoc "longitude" (df_data t) = Some (repeat longitude (df_len df)) /\
    (df_wf df -> df_wf t).
Proof.
  intros Hget Hparam Hframe Hne Hlat Hlon Hid Hwrite.
  destruct (tabulate_shape env row_info df _ _ _ Hlat Hlon Hid Hne)
    as (t & Ht & Hi & _ & _ & _ & Hident & Hla & Hlo & Hwf).
  destruct (download_function_writes _ _ _ _ _ _ _ _ _ Hget Hparam Hframe Hne Ht Hwrite)
    as (w' & Hrun & Hfile).
  assert (Hlen : df_len t = df_len df) by (unfold df_len; now rewrite Hi).
  exists (mkDF (df_data t) (range_index (df_len t))), w'.
  rewrite Hlen in Hfile |- *. repeat split; try done.
  intros H. specialize (Hwf H). unfold df_wf in *. cbn [df_data df_index].
  rewrite range_index_length. fold (df_len t) in Hwf. now rewrite Hlen in Hwf.
Qed.

(** ** The planner: URL, destination, failures *)

Lemma plan_row_inv env o columns template idx row url path ri :
  plan_row env o columns template idx row = Ok (url, path, ri) ->
  exists latitude longitude start end_ identifier,
    dict_get row (lat_col o) = Ok latitude /\
    dict_get row (lon_col o) = Ok longitude /\
    row_date env (start_col o) columns row (start_date o) = Ok start /\
    row_date env (end_col o) columns row (end_date o) = Ok end_ /\
    row_identifier env o columns idx row = Ok identifier /\
    (if String.eqb (temporal_resolution o) "climatology"
     then py_format template
            [("latitude", py_str env latitude); ("longitude", py_str env longitude)]
     else py_format template
            [("latitude", py_str env latitude); ("longitude", py_str env longitude);
             ("start_date", start); ("end_date", end_)]) = Ok url /\
    path = path_join (output_folder o) (py_str env identifier +:+ ".csv") /\
    ri = [("index", idx); ("latitude", latitude); ("longitude", longitude);
          ("start_date", if String.eqb (temporal_resolution o) "climatology"
                         then PyNone else Str start);
          ("end_date", if String.eqb (temporal_resolution o) "climatology"
                       then PyNone else Str end_);
          ("identifier", identifier);
          ("filename", Str (py_str env identifier +:+ ".csv"))].
Proof.
  unfold plan_row, row_identifier. intros H.
  destruct (dict_get row (lat_col o)) as [latitude|]; [|discriminate].
  destruct (dict_get row (lon_col o)) as [longitude|]; [|discriminate].
  destruct (row_date env (start_col o) columns row (start_date o)) as [start|]; [|discriminate].
  destruct (row_date env (end_col o) columns row (end_date o)) as [end_|]; [|discriminate].
  match type of H with
  | match ?x with _ => _ end = _ => destruct x as [u|] eqn:Hu; [|discriminate]
  end.
  match type of H with
  | match ?x with _ => _ end = _ => destruct x as [identifier|] eqn:Hi; [|discriminate]
  end.
  injection H as <- <- <-.
  exists latitude, longitude, start, end_, identifier. repeat split; done.
Qed.

Lemma dict_get_assoc row k v : dict_get row k = Ok v -> assoc k row = Some v.
Proof. unfold dict_get. destruct (assoc k row); [now intros [= ->] | discriminate]. Qed.

Lemma row_date_of_row env col columns row fallback date :
  row_date env col columns row fallback = Ok date ->
  date_of_row env col columns row fallback date.
Proof.
  unfold row_date, date_of_row. destruct (configured col columns) as [c|].
  - destruct (dict_get row c) as [v|] eqn:Hv; [|discriminate].
    intros H. exists v. split; [now apply dict_get_assoc | exact H].
  - now intros [= <-].
Qed.

(** The request URL of a planned job is built from the row it was planned
    for: the provider's endpoint for the resolutions, the comma-joined
    parameters, the community, the text of the row's cells in the
    longitude and latitude columns and, except for climatology, the
    row's start and end dates, each the formatted cell of the configured
    date column or else the default date.  The same values are recorded
    in the job's metadata, with [None] for the dates under climatology. *)
Theorem planned_url env (df : DataFrame) (o : Options) (idx : Cell)
    (row : list (string * Cell)) (url path : string) (ri : list (string * Cell)) :
  validate df o = None ->
  Forall (fun p => brace_free p = true) (parameters o) ->
  plan_row env o (df_columns df) (formatted_template o) idx row = Ok (url, path, ri) ->
  exists latitude longitude start end_,
    assoc (lat_col o) row = Some latitude /\
    assoc (lon_col o) row = Some longitude /\
    date_of_row env (start_col o) (df_columns df) row (start_date o) start /\
    date_of_row env (end_col o) (df_columns df) row (end_date o) end_ /\
    assoc "index" ri = Some idx /\
    assoc "latitude" ri = Some latitude /\
    assoc "longitude" ri = Some longitude /\
    if String.eqb (temporal_resolution o) "climatology"
    then
      assoc "start_date" ri = Some PyNone /\
      assoc "end_date" ri = Some PyNone /\
      url = "https://power.larc.nasa.gov/api/temporal/climatology/" +:+
            spatial_resolution o +:+ "?parameters=" +:+ join "," (parameters o) +:+
            "&community=" +:+ community o +:+
            "&longitude=" +:+ py_str env longitude +:+
            "&latitude=" +:+ py_str env latitude +:+ "&format=JSON"
    else
      assoc "start_date" ri = Some (Str start) /\
      assoc "end_date" ri = Some (Str end_) /\
      url = "https://power.larc.nasa.gov/api/temporal/" +:+
            temporal_resolution o +:+ "/" +:+
            spatial_resolution o +:+ "?parameters=" +:+ join "," (parameters o) +:+
            "&community=" +:+ community o +:+
            "&longitude=" +:+ py_str env longitude +:+
            "&latitude=" +:+ py_str env latitude +:+
            "&start=" +:+ start +:+ "&end=" +:+ end_ +:+ "&format=JSON".
Proof.
  intros Hvalid Hplain Hplan.
  destruct (validate_passes df o Hvalid) as (_ & _ & Ht & Hs & Hc).
  assert (Bt : brace_free (temporal_resolution o) = true) by (apply brace_free_valid; auto).
  assert (Bs : brace_free (spatial_resolution o) = true) by (apply brace_free_valid; auto).
  assert (Bc : brace_free (community o) = true) by (apply brace_free_valid; auto).
  assert (Bp : brace_free (join "," (parameters o)) = true) by (now apply brace_free_join).
  destruct (plan_row_inv _ _ _ _ _ _ _ _ _ Hplan)
    as (latitude & longitude & start & end_ & identifier &
        Hlat & Hlon & Hstart & Hend & _ & Hurl & _ & ->).
  exists latitude, longitude, start, end_.
  split; [now apply dict_get_assoc|]. split; [now apply dict_get_assoc|].
  split; [now apply row_date_of_row|]. split; [now apply row_date_of_row|].
  do 3 (split; [reflexivity|]).
  unfold py_format, formatted_template, template_tail in Hurl.
  destruct (String.eqb (temporal_resolution o) "climatology").
  - rewrite !format_go_literal in Hurl by (assumption || reflexivity).
    injection Hurl as <-. repeat split.
  - rewrite !format_go_literal in Hurl by (assumption || reflexivity).
    injection Hurl as <-. repeat split.
Qed.

Lemma append_cancel_l (p x y : string) : p +:+ x = p +:+ y -> x = y.
Proof.
  induction p as [|c p IH]; [done|].
  change (String c (p +:+ x) = String c (p +:+ y) -> x = y).
  intros [= H]. auto.
Qed.

Lemma append_length (a b : string) :
  String.length (a +:+ b) = (String.length a + String.length b)%nat.
Proof.
  induction a as [|c a IH]; [done|].
  change (S (String.length (a +:+ b)) = S (String.length a + String.length b)).
  now rewrite IH.
Qed.

Lemma append_cancel_r (s : string) : forall a b, a +:+ s = b +:+ s -> a = b.
Proof.
  induction a as [|c a IH]; intros b H.
  - destruct b as [|d b]; [done|]. apply (f_equal String.length) in H.
    change ("" +:+ s) with s in H. rewrite append_length in H. simpl in H. lia.
  - destruct b as [|d b].
    + apply (f_equal String.length) in H.
      change ("" +:+ s) with s in H. rewrite append_length in H. simpl in H. lia.
    + change (String c (a +:+ s) = String d (b +:+ s)) in H.
      injection H as -> H. f_equal. now apply IH.
Qed.

Lemma path_join_relative folder x :
  startswith_slash x = false ->
  exists sep, (sep = "" \/ sep = "/") /\ path_join folder x = folder +:+ sep +:+ x /\
              forall y, startswith_slash y = false -> path_join folder y = folder +:+ sep +:+ y.
Proof.
  intros Hx. unfold path_join. rewrite Hx.
  destruct (String.eqb folder "" || endswith_slash folder)%bool.
  - exists "". split; [now left|]. split; [done|]. now intros y ->.
  - exists "/". split; [now right|]. split; [done|]. now intros y ->.
Qed.

(** The destination of a planned job is [os.path.join] of the output
    folder and [<identifier>.csv].  An identifier that begins with [/]
    makes the path absolute, and the output folder is dropped from it;
    otherwise the path is the folder, one separator unless the folder is
    empty or ends with one, and the file name. *)
Theorem planned_destination env (o : Options) (columns : list string) (template : string)
    (idx : Cell) (row : list (string * Cell)) (url path : string)
    (ri : list (string * Cell)) :
  plan_row env o columns template idx row = Ok (url, path, ri) ->
  exists identifier,
    assoc "identifier" ri = Some identifier /\
    assoc "filename" ri = Some (Str (py_str env identifier +:+ ".csv")) /\
    (configured (id_col o) columns = None -> identifier = Str ("idx_" +:+ py_str env idx)) /\
    (startswith_slash (py_str env identifier) = true ->
       path = py_str env identifier +:+ ".csv") /\
    (startswith_slash (py_str env identifier) = false ->
       path = output_folder o +:+
              (if (String.eqb (output_folder o) "" || endswith_slash (output_folder o))%bool
               then "" else "/") +:+
              py_str env identifier +:+ ".csv").
Proof.
  intros Hplan.
  destruct (plan_row_inv _ _ _ _ _ _ _ _ _ Hplan)
    as (latitude & longitude & start & end_ & identifier & _ & _ & _ & _ & Hid & _ & -> & ->).
  exists identifier. split; [reflexivity|]. split; [reflexivity|]. split; [|split].
  - intros Hconf. unfold row_identifier in Hid. rewrite Hconf in Hid. now injection Hid as <-.
  - intros Hs. unfold path_join.
    assert (E : startswith_slash (py_str env identifier +:+ ".csv") = true).
    { destruct (py_str env identifier) as [|c s]; [discriminate|]. exact Hs. }
    now rewrite E.
  - intros Hs.
    assert (E : startswith_slash (py_str env identifier +:+ ".csv") = false).
    { destruct (py_str env identifier) as [|c s]; [reflexivity | exact Hs]. }
    unfold path_join. rewrite E.
    now destruct (String.eqb (output_folder o) "" || endswith_slash (output_folder o))%bool.
Qed.

(** Without an identifier column, rows whose labels print differently get
    different destination paths: no job overwrites the file of another. *)
Theorem default_names_do_not_collide env (o : Options) (columns : list string)
    (template : string) (rows : list (Cell * list (string * Cell))) (jobs : list Job) :
  configured (id_col o) columns = None ->
  plan_rows env o columns template rows = Ok jobs ->
  List.NoDup (map (fun ir => py_str env (fst ir)) rows) ->
  List.NoDup (map (fun job : Job => snd (fst job)) jobs).
Proof.
  intros Hconf.
  assert (Hpath : forall idx row url path ri,
            plan_row env o columns template idx row = Ok (url, path, ri) ->
            path = path_join (output_folder o) ("idx_" +:+ py_str env idx +:+ ".csv")).
  { intros idx row url path ri Hplan.
    destruct (plan_row_inv _ _ _ _ _ _ _ _ _ Hplan)
      as (latitude & longitude & start & end_ & identifier & _ & _ & _ & _ & Hid & _ & -> & _).
    unfold row_identifier in Hid. rewrite Hconf in Hid. now injection Hid as <-. }
  assert (Hinj : forall a b,
            path_join (output_folder o) ("idx_" +:+ a +:+ ".csv") =
            path_join (output_folder o) ("idx_" +:+ b +:+ ".csv") -> a = b).
  { intros a b H.
    destruct (path_join_relative (output_folder o) ("idx_" +:+ a +:+ ".csv") eq_refl)
      as (sep & _ & Ha & Hb).
    rewrite Ha, (Hb ("idx_" +:+ b +:+ ".csv") eq_refl) in H.
    apply append_cancel_l, append_cancel_l, append_cancel_l in H.
    now apply append_cancel_r in H. }
  revert jobs. induction rows as [|[idx row] rows IH]; intros jobs Hplan Hnd; simpl in Hplan.
  - injection Hplan as <-. constructor.
  - destruct (plan_row env o columns template idx row) as [[[url path] ri]|] eqn:Hj;
      [|discriminate].
    destruct (plan_rows env o columns template rows) as [js|] eqn:Hjs; [|discriminate].
    injection Hplan as <-. simpl in Hnd. inversion Hnd as [|? ? Hnotin Hnd']; subst.
    simpl. constructor; [|now apply IH].
    rewrite (Hpath _ _ _ _ _ Hj). intros Hin. apply Hnotin.
    clear -Hin Hjs Hpath Hinj. revert js Hjs Hin.
    induction rows as [|[idx' row'] rows IH]; intros js Hjs Hin; simpl in Hjs.
    + injection Hjs as <-. destruct Hin.
    + destruct (plan_row env o columns template idx' row') as [[[url' path'] ri']|] eqn:Hj';
        [|discriminate].
      destruct (plan_rows env o columns template rows) as [js'|] eqn:Hjs'; [|discriminate].
      injection Hjs as <-. simpl in Hin |- *. destruct Hin as [E|Hin].
      * left. rewrite (Hpath _ _ _ _ _ Hj') in E. apply Hinj in E. now rewrite E.
      * right. now apply (IH js').
Qed.

Lemma plan_row_bad_date env o columns template idx row c v e :
  configured (start_col o) columns = Some c \/ configured (end_col o) columns = Some c ->
  assoc c row = Some v ->
  to_datetime_strftime env v = Raise e ->
  exists e', plan_row env o columns template idx row = Raise e'.
Proof.
  intros Hconf Hv He. unfold plan_row.
  destruct (dict_get row (lat_col o)); [|eauto].
  destruct (dict_get row (lon_col o)); [|eauto].
  assert (Hd : forall col fallback,
            configured col columns = Some c ->
            row_date env col columns row fallback = Raise e).
  { intros col fallback Hc. unfold row_date, dict_get. now rewrite Hc, Hv. }
  destruct Hconf as [Hc|Hc].
  - rewrite (Hd _ _ Hc). eauto.
  - destruct (row_date env (start_col o) columns row (start_date o)); [|eauto].
    rewrite (Hd _ _ Hc). eauto.
Qed.

Lemma plan_rows_raises env o columns template idx row e : forall rows,
  In (idx, row) rows ->
  plan_row env o columns template idx row = Raise e ->
  exists e', plan_rows env o columns template rows = Raise e'.
Proof.
  induction rows as [|[idx' row'] rows IH]; intros Hin Hrow; [destruct Hin|].
  simpl. destruct Hin as [[= -> ->]|Hin].
  - rewrite Hrow. eauto.
  - destruct (plan_row env o columns template idx' row'); [|eauto].
    destruct (IH Hin Hrow) as [e' ->]. eauto.
Qed.

(** A cell of a configured start or end date column that the date parser
    rejects makes the whole call raise during planning, for every
    temporal resolution, climatology included: the output folder has
    been created by then, no request has been sent and no file
    written. *)
Theorem unparsable_date_aborts_call env (df : DataFrame) (o : Options) (w : World)
    (idx : Cell) (row : list (string * Cell)) (c : string) (v : Cell) (e : Exn) :
  validate df o = None ->
  files w !! output_folder o = None ->
  makedirs_error env w (output_folder o) = None ->
  In (idx, row) (iterrows df) ->
  configured (start_col o) (df_columns df) = Some c \/
  configured (end_col o) (df_columns df) = Some c ->
  assoc c row = Some v ->
  to_datetime_strftime env v = Raise e ->
  exists e' w',
    download_nasa_power_data env df o w = (Raise e', w') /\
    net_log w' = net_log w /\
    files w' = files w /\
    dirs w' = {[output_folder o]} ∪ dirs w.
Proof.
  intros Hvalid Hfile Hmk Hin Hconf Hv He.
  destruct (plan_row_bad_date env o (df_columns df) (formatted_template o) idx row c v e
              Hconf Hv He) as [e1 H1].
  destruct (plan_rows_raises _ _ _ _ _ _ _ _ Hin H1) as [e' Hplan].
  rewrite (download_after_makedirs env df o w Hvalid Hfile Hmk).
  rewrite request_template_shape.
  unfold bind, lift, print, emit. rewrite Hplan.
  eexists. eexists. split; [reflexivity|]. repeat split.
Qed.

Lemma completion_order_nil {A} size sched : @completion_order A size sched [] = [].
Proof. reflexivity. Qed.

(** A table without rows passes validation and planning, and the call
    then raises [KeyError: 'success']: the summary table made of no
    result has no column to count successes in.  The output folder has
    been created, no request sent and no file written. *)
Theorem empty_table_raises_key_error env (df : DataFrame) (o : Options) (w : World) :
  validate df o = None ->
  df_index df = [] ->
  files w !! output_folder o = None ->
  makedirs_error env w (output_folder o) = None ->
  (1 <= processes o)%Z ->
  exists w',
    download_nasa_power_data env df o w = (Raise (KeyError "success"), w') /\
    net_log w' = net_log w /\
    files w' = files w /\
    dirs w' = {[output_folder o]} ∪ dirs w.
Proof.
  intros Hvalid Hempty Hfile Hmk Hproc.
  rewrite (download_after_makedirs env df o w Hvalid Hfile Hmk).
  rewrite request_template_shape.
  assert (Hrows : iterrows df = []) by (unfold iterrows; now rewrite Hempty).
  rewrite Hrows.
  assert (Hp : (1 <= effective_processes o)%Z) by (unfold effective_processes; lia).
  destruct (Pool_ok _ Hp) as (size & Hsize & _).
  unfold run_pool. cbn [plan_rows length].
  unfold bind, lift, print, emit. rewrite Hsize.
  rewrite completion_order_nil. cbn [run_jobs]. unfold ret, reduce_results.
  unfold bind, lift, print, emit.
  eexists. split; [reflexivity|]. repeat split.
Qed.

(** ** The orchestrator: requests and order *)

Lemma download_function_world env request filepath row_info w :
  snd (download_function env (request, filepath, row_info) w) = log_request request w \/
  exists t,
    snd (download_function env (request, filepath, row_info) w) =
      mkWorld (<[filepath := FCsv t]> (files w)) (dirs w)
              (net_log w ++ [request]) (console w).
Proof.
  assert (H' : snd (download_function env (request, filepath, row_info) w) =
               snd (download_body env request filepath row_info w)).
  { unfold download_function, try_except, bind, ret.
    now destruct (download_body env request filepath row_info w) as [[[]|e] w1]. }
  rewrite H'. apply download_body_effect.
Qed.

Lemma run_jobs_cons env total i request filepath row_info order w success error w1
    results w2 :
  download_function env (request, filepath, row_info) w = (Ok (row_info, success, error), w1) ->
  run_jobs env total (S i) order (add_console w1 [Progress i total]) = (Ok results, w2) ->
  run_jobs env total i ((request, filepath, row_info) :: order) w =
    (Ok (result_record row_info success error
           (strftime_now env (add_console w1 [Progress i total])) :: results), w2).
Proof.
  intros H1 H2. cbn [run_jobs]. rewrite (bind_ok _ _ _ _ _ H1).
  unfold collect, bind at 1, emit, get_world, ret. unfold bind at 1. unfold bind at 1.
  unfold bind at 1. now rewrite H2.
Qed.

Lemma run_jobs_log env total : forall order i w,
  net_log (snd (run_jobs env total i order w)) =
    net_log w ++ map (fun job : Job => fst (fst job)) order /\
  dirs (snd (run_jobs env total i order w)) = dirs w.
Proof.
  induction order as [|[[request filepath] row_info] order IH]; intros i w.
  - simpl. now rewrite app_nil_r.
  - destruct (download_function_returns env request filepath row_info w)
      as (success & error & w1 & H1).
    pose proof (download_function_world env request filepath row_info w) as Hw.
    rewrite H1 in Hw. cbn [snd] in Hw.
    destruct (run_jobs_returns env total order (S i) (add_console w1 [Progress i total]))
      as (results & w2 & H2 & _).
    specialize (IH (S i) (add_console w1 [Progress i total])).
    rewrite H2 in IH. cbn [snd] in IH. destruct IH as [IHn IHd].
    pose proof (run_jobs_cons _ _ _ _ _ _ _ _ _ _ _ _ _ H1 H2) as Hcons.
    unfold Job in *. rewrite Hcons. cbn [snd map fst].
    rewrite IHn, IHd. cbn [add_console net_log dirs].
    destruct Hw as [-> | [t ->]]; cbn [log_request net_log dirs];
      now rewrite <- app_assoc.
Qed.

(** The pool sends one request per job and no other: the requests made
    while the jobs run are the jobs' URLs, each once, in some order.  No
    job is retried and no directory is created. *)
Theorem pool_requests_each_job_once env (o : Options) (jobs : list Job) (w : World) :
  (1 <= effective_processes o)%Z ->
  exists results w' log,
    run_pool env (effective_processes o) jobs w = (Ok results, w') /\
    net_log w' = net_log w ++ log /\
    Permutation log (map (fun job : Job => fst (fst job)) jobs) /\
    dirs w' = dirs w.
Proof.
  intros Hproc.
  destruct (Pool_ok _ Hproc) as (size & Hsize & Hge).
  unfold run_pool, bind at 1, lift. rewrite Hsize.
  set (order := completion_order size (schedule env) jobs).
  destruct (run_jobs_returns env (length jobs) order 1 w) as (results & w' & Hrun & _).
  destruct (run_jobs_log env (length jobs) order 1 w) as [Hn Hd].
  rewrite Hrun in Hn, Hd. cbn [snd] in Hn, Hd.
  exists results, w', (map (fun job : Job => fst (fst job)) order).
  repeat split; try done.
  apply Permutation_map. now apply completion_order_perm.
Qed.

Lemma pool_run_single {A} (sched : list nat) : forall (p f : list A) n,
  length p <= n ->
  pool_run 1 n sched (mkPool p [] f) = mkPool [] [] (f ++ p).
Proof.
  intros p. revert sched. induction p as [|x p IH]; intros sched f n Hn.
  - rewrite app_nil_r. clear Hn. revert sched. induction n as [|n IHn]; intros sched; [done|].
    simpl. apply IHn.
  - destruct n as [|n]; [simpl in Hn; lia|].
    cbn [pool_run]. unfold pool_fill. cbn [pending inflight finished length Nat.sub].
    cbn [drop take app]. unfold pool_complete. cbn [pending inflight finished length].
    rewrite Nat.mod_1_r. cbn [lookup list_lookup default delete list_delete].
    rewrite IH by (simpl in Hn; lia). now rewrite <- app_assoc.
Qed.

(** With a single worker the jobs complete in the order they were
    planned: the results carry the row labels of the table in the
    table's order. *)
Theorem single_worker_keeps_order env (df : DataFrame) (o : Options) (template : string)
    (jobs : list Job) (w : World) :
  plan_rows env o (df_columns df) template (iterrows df) = Ok jobs ->
  effective_processes o = 1%Z ->
  exists results w',
    run_pool env (effective_processes o) jobs w = (Ok results, w') /\
    map (assoc "index") results = map Some (df_index df).
Proof.
  intros Hplan Hone.
  pose proof (plan_rows_shape _ _ _ _ _ _ Hplan) as Hshape.
  rewrite iterrows_index in Hshape.
  assert (HP : Pool 1 = Ok 1%nat) by reflexivity.
  assert (Horder : completion_order 1 (schedule env) jobs = jobs).
  { unfold completion_order, pool_init. now rewrite pool_run_single. }
  rewrite Hone. unfold run_pool, bind at 1, lift. rewrite HP, Horder.
  destruct (run_jobs_returns env (length jobs) jobs 1 w) as (results & w' & Hrun & HF).
  exists results, w'. split; [done|].
  assert (E1 : map (assoc "index") results = map (fun j : Job => assoc "index" (snd j)) jobs).
  { clear -HF. induction HF as [|job r order results (s & e & ts & ->) _ IH]; simpl; [done|].
    now rewrite result_record_index, IH. }
  rewrite E1. clear -Hshape.
  induction Hshape as [|idx job idxs jobs (f & Hi & _) _ IH]; simpl; [done|].
  now rewrite Hi, IH.
Qed.

(** ** The reducer: what it leaves alone, repeatability, the summary table *)

Lemma console_only_ret {A} (a : A) : console_only (ret a).
Proof. intros w. exists []. simpl. now rewrite add_console_nil. Qed.

Lemma console_only_lift {A} (r : Res A) : console_only (lift r).
Proof. intros w. exists []. simpl. now rewrite add_console_nil. Qed.

Lemma console_only_emit ev : console_only (emit ev).
Proof. intros w. now exists [ev]. Qed.

Lemma console_only_read_csv path : console_only (read_csv path).
Proof.
  intros w. exists []. rewrite add_console_nil. unfold read_csv.
  now destruct (files w !! path) as [[]|].
Qed.

Lemma console_only_bind {A B} (c : M A) (k : A -> M B) :
  console_only c -> (forall a, console_only (k a)) -> console_only (bind c k).
Proof.
  intros Hc Hk w. unfold bind. destruct (Hc w) as [evs Hevs].
  destruct (c w) as [[a|e] w1]; simpl in Hevs; subst w1.
  - destruct (Hk a (add_console w evs)) as [evs' ->].
    exists (evs ++ evs'). apply add_console_app.
  - now exists evs.
Qed.

Lemma console_only_try {A} (body : M A) (handler : Exn -> M A) :
  console_only body -> (forall e, console_only (handler e)) ->
  console_only (try_except body handler).
Proof.
  intros Hb Hh w. unfold try_except. destruct (Hb w) as [evs Hevs].
  destruct (body w) as [[a|e] w1]; simpl in Hevs; subst w1.
  - now exists evs.
  - destruct (Hh e (add_console w evs)) as [evs' ->].
    exists (evs ++ evs'). apply add_console_app.
Qed.

Lemma console_only_read_back folder : forall rows all_data,
  console_only (read_back folder rows all_data).
Proof.
  induction rows as [|[idx row] rows IH]; intros all_data; cbn [read_back].
  - apply console_only_ret.
  - apply console_only_bind; [apply console_only_lift | intros filename].
    apply console_only_bind; [|intros data; apply IH].
    apply console_only_try.
    + apply console_only_bind; [apply console_only_read_csv | intros df].
      destruct (negb (df_empty df)); apply console_only_ret.
    + intros e. apply console_only_bind; [apply console_only_emit | intros _].
      apply console_only_ret.
Qed.

Lemma console_only_consolidate results_df folder :
  console_only (_consolidate_csv_data results_df folder).
Proof.
  unfold _consolidate_csv_data.
  apply console_only_bind; [apply console_only_lift | intros success].
  apply console_only_bind; [apply console_only_read_back | intros all_data].
  destruct all_data;
    (apply console_only_bind; [apply console_only_emit | intros _; apply console_only_ret]).
Qed.

Lemma console_only_reduce rs folder consolidate :
  console_only (reduce_results rs folder consolidate).
Proof.
  unfold reduce_results.
  apply console_only_bind; [apply console_only_emit | intros _].
  apply console_only_bind; [apply console_only_emit | intros _].
  apply console_only_bind; [apply console_only_lift | intros success].
  apply console_only_bind; [apply console_only_emit | intros _].
  apply console_only_bind; [apply console_only_lift | intros success'].
  apply console_only_bind.
  { destruct (negb (forallb cell_true success')); [apply console_only_emit | apply console_only_ret]. }
  intros _. apply console_only_bind.
  { destruct consolidate; [apply console_only_lift | apply console_only_ret]. }
  intros success''.
  destruct (consolidate && existsb cell_true success'')%bool; [|apply console_only_ret].
  apply console_only_bind; [apply console_only_emit | intros _].
  apply console_only_consolidate.
Qed.

(** Whatever results it is given, and whether it returns or raises, the
    reducer only reads and prints: files, directories and the request
    log are as before, and the console has only grown. *)
Theorem reducer_only_reads_and_prints (rs : list (list (string * Cell)))
    (folder : string) (consolidate : bool) (w : World) :
  let w' := snd (reduce_results rs folder consolidate w) in
  files w' = files w /\
  dirs w' = dirs w /\
  net_log w' = net_log w /\
  exists evs, console w' = console w ++ evs.
Proof.
  cbv zeta. destruct (console_only_reduce rs folder consolidate w) as [evs ->].
  repeat split. now exists evs.
Qed.

(** Reducing the same results again, with the output folder untouched in
    between, returns the same table. *)
Theorem reduce_results_repeatable (rs : list (list (string * Cell)))
    (folder : string) (consolidate : bool) (w : World) :
  Forall has_fields rs ->
  fst (reduce_results rs folder consolidate
         (snd (reduce_results rs folder consolidate w))) =
  fst (reduce_results rs folder consolidate w).
Proof.
  intros Hfields. destruct rs as [|r rs'].
  - reflexivity.
  - assert (Hne : r :: rs' <> []) by discriminate.
    destruct (console_only_reduce (r :: rs') folder consolidate w) as [evs ->].
    rewrite !(reduce_results_spec (r :: rs') folder Hne Hfields).
    cbn [files add_console].
    now destruct (consolidate && existsb result_success (r :: rs'))%bool.
Qed.

Lemma add_keys_fold {A} (r : list (string * A)) : forall acc,
  add_keys acc r = fold_left add_key (map fst r) acc.
Proof.
  unfold add_keys. induction r as [|[k v] r IH]; intros acc; simpl; [done|].
  now rewrite IH.
Qed.

Lemma fold_add_key_known (ks : list string) : forall acc,
  (forall k, In k ks -> In k acc) -> fold_left add_key ks acc = acc.
Proof.
  induction ks as [|k ks IH]; intros acc H; simpl; [done|].
  unfold add_key at 2.
  assert (E : mem k acc = true) by (apply mem_In, H; now left).
  rewrite E. apply IH. intros k' Hk'. apply H. now right.
Qed.

Lemma union_keys_same {A} (ks : list string) (rs : list (list (string * A))) :
  rs <> [] ->
  Forall (fun r => map fst r = ks) rs ->
  fold_left add_key ks [] = ks ->
  union_keys rs = ks.
Proof.
  intros Hne Hall Hks. unfold union_keys. fold (@add_keys A).
  destruct Hall as [|r rs Hr Hrs]; [done|]. simpl.
  rewrite add_keys_fold, Hr, Hks. clear Hne Hr.
  induction Hrs as [|r' rs Hr' _ IH]; simpl; [done|].
  rewrite add_keys_fold, Hr', fold_add_key_known by auto. exact IH.
Qed.

Lemma plan_rows_keys env o columns template : forall rows jobs,
  plan_rows env o columns template rows = Ok jobs ->
  Forall (fun job : Job =>
            map fst (snd job) =
              ["index"; "latitude"; "longitude"; "start_date"; "end_date";
               "identifier"; "filename"]) jobs.
Proof.
  induction rows as [|[idx row] rows IH]; intros jobs H; simpl in H.
  - injection H as <-. constructor.
  - destruct (plan_row env o columns template idx row) as [[[url path] ri]|] eqn:Hj;
      [|discriminate].
    destruct (plan_rows env o columns template rows) as [js|] eqn:Hjs; [|discriminate].
    injection H as <-. constructor; [|now apply IH].
    destruct (plan_row_inv _ _ _ _ _ _ _ _ _ Hj)
      as (latitude & longitude & start & end_ & identifier & _ & _ & _ & _ & _ & _ & _ & ->).
    reflexivity.
Qed.

Lemma result_record_keys row_info success error ts :
  map fst row_info =
    ["index"; "latitude"; "longitude"; "start_date"; "end_date"; "identifier"; "filename"] ->
  map fst (result_record row_info success error ts) = summary_columns.
Proof.
  intros Hk. unfold result_record.
  rewrite keys_assign_absent.
  - rewrite keys_assign_absent.
    + rewrite keys_assign_absent; [now rewrite Hk|].
      rewrite Hk. simpl. intros H. repeat (destruct H as [H|H]; try discriminate). done.
    + rewrite keys_assign_absent; [rewrite Hk|rewrite Hk];
        simpl; intros H; repeat (destruct H as [H|H]; try discriminate); done.
  - rewrite keys_assign_absent.
    + rewrite keys_assign_absent; [rewrite Hk|rewrite Hk];
        simpl; intros H; repeat (destruct H as [H|H]; try discriminate); done.
    + rewrite keys_assign_absent; [rewrite Hk|rewrite Hk];
        simpl; intros H; repeat (destruct H as [H|H]; try discriminate); done.
Qed.

(** For a table of at least one row, the summary table built from the
    collected results has the columns [index], [latitude], [longitude],
    [start_date], [end_date], [identifier], [filename], [success],
    [error], [downloaded_at], in that order, and one row per job. *)
Theorem summary_table_columns env (o : Options) (columns : list string) (template : string)
    (rows : list (Cell * list (string * Cell))) (jobs : list Job) (w : World) :
  plan_rows env o columns template rows = Ok jobs ->
  rows <> [] ->
  (1 <= effective_processes o)%Z ->
  exists results w',
    run_pool env (effective_processes o) jobs w = (Ok results, w') /\
    df_columns (df_of_records results) = summary_columns /\
    df_len (df_of_records results) = length rows.
Proof.
  intros Hplan Hne Hproc.
  pose proof (plan_rows_keys _ _ _ _ _ _ Hplan) as Hkeys.
  pose proof (plan_rows_shape _ _ _ _ _ _ Hplan) as Hshape.
  destruct (Pool_ok _ Hproc) as (size & Hsize & Hge).
  unfold run_pool, bind at 1, lift. rewrite Hsize.
  set (order := completion_order size (schedule env) jobs).
  destruct (run_jobs_returns env (length jobs) order 1 w) as (results & w' & Hrun & HF).
  exists results, w'. split; [done|].
  assert (Hperm : Permutation order jobs) by (now apply completion_order_perm).
  assert (Hlen : length results = length rows).
  { rewrite <- (Forall2_length _ _ _ HF), (Permutation_length Hperm).
    rewrite <- (Forall2_length _ _ _ Hshape). apply length_map. }
  split.
  - unfold df_columns, df_of_records. cbn [df_data]. rewrite map_map. cbn [fst]. rewrite map_id.
    apply union_keys_same; [| |reflexivity].
    + intros ->. destruct rows; [done | discriminate].
    + assert (Horder : Forall (fun job : Job =>
                map fst (snd job) =
                  ["index"; "latitude"; "longitude"; "start_date"; "end_date";
                   "identifier"; "filename"]) order).
      { rewrite List.Forall_forall in Hkeys |- *. intros job Hin. apply Hkeys.
        eapply Permutation_in; eauto. }
      clear -HF Horder. induction HF as [|job r order results (s & e & ts & ->) _ IH];
        [constructor|].
      inversion Horder as [|? ? Hj Hrest]; subst.
      constructor; [now apply result_record_keys | now apply IH].
  - unfold df_len, df_of_records. cbn [df_index]. now rewrite range_index_length.
Qed.

(** ** The worker: the presence test, case by case *)

Lemma mem_keys_assoc_true {A} k (l : list (string * A)) :
  mem k (map fst l) = true -> exists v, assoc k l = Some v.
Proof. intros H. apply assoc_In. now apply mem_In. Qed.

(** When the response does not hold an object under [properties] with a
    [parameter] member, the worker never writes, and it reports success
    exactly when a membership test answers no: the response is a
    container without [properties], or its [properties] is a container
    without [parameter].  In every other case a membership test or an
    indexing raises, and the outcome is a failure with an error
    message. *)
Theorem response_without_parameter_outcome env (request filepath : string)
    (row_info : list (string * Cell)) (w : World) (response : Json) :
  http_get_json env w request = Ok response ->
  response_parameter response = None ->
  exists error,
    download_function env (request, filepath, row_info) w =
      (Ok (row_info, lacks_parameter response, error), log_request request w) /\
    (error = None <-> lacks_parameter response = true).
Proof.
  intros Hget Hnone.
  unfold download_function, try_except, bind at 1, download_body.
  erewrite bind_ok by (unfold requests_get_json; now rewrite Hget).
  unfold lacks_parameter.
  destruct response as [| | | s | items | members];
    unfold lacks, bind, lift, ret, py_contains, py_getitem; cbv beta iota;
    try (eexists; split; [reflexivity|]; split; discriminate).
  - (* a string *)
    destruct (bool_decide (is_Some (index 0 "properties" s))); cbv beta iota;
      eexists; (split; [reflexivity|]); cbn [negb orb]; split; congruence.
  - (* an array *)
    destruct (existsb _ items); cbv beta iota;
      eexists; (split; [reflexivity|]); cbn [negb orb]; split; congruence.
  - (* an object *)
    cbn [response_parameter] in Hnone.
    destruct (mem "properties" (map fst members)) eqn:Hmem; cbv beta iota.
    + destruct (mem_keys_assoc_true _ _ Hmem) as [props Hp].
      rewrite Hp in Hnone |- *. cbn [negb orb].
      destruct props as [| | | s | items | inner]; cbv beta iota;
        try (eexists; split; [reflexivity|]; split; discriminate).
      * destruct (bool_decide (is_Some (index 0 "parameter" s))); cbv beta iota;
          eexists; (split; [reflexivity|]); cbn [negb]; split; congruence.
      * destruct (existsb _ items); cbv beta iota;
          eexists; (split; [reflexivity|]); cbn [negb]; split; congruence.
      * destruct (mem "parameter" (map fst inner)) eqn:Hin; cbv beta iota.
        -- destruct (mem_keys_assoc_true _ _ Hin) as [x Hx]. congruence.
        -- eexists. split; [reflexivity|]. split; reflexivity.
    + cbn [negb orb]. eexists. split; [reflexivity|]. split; reflexivity.
Qed.

(** ** The orchestrator: files *)

Lemma run_jobs_files env total : forall order i w p,
  (forall job : Job, In job order -> snd (fst job) <> p) ->
  files (snd (run_jobs env total i order w)) !! p = files w !! p.
Proof.
  induction order as [|[[request filepath] row_info] order IH]; intros i w p Hp.
  - reflexivity.
  - destruct (download_function_returns env request filepath row_info w)
      as (success & error & w1 & H1).
    pose proof (download_function_world env request filepath row_info w) as Hw.
    rewrite H1 in Hw. cbn [snd] in Hw.
    destruct (run_jobs_returns env total order (S i) (add_console w1 [Progress i total]))
      as (results & w2 & H2 & _).
    assert (Hrest : forall job : Job, In job order -> snd (fst job) <> p)
      by (intros job Hin; apply Hp; now right).
    specialize (IH (S i) (add_console w1 [Progress i total]) p Hrest).
    rewrite H2 in IH. cbn [snd] in IH.
    pose proof (run_jobs_cons _ _ _ _ _ _ _ _ _ _ _ _ _ H1 H2) as Hcons.
    unfold Job in *. rewrite Hcons. cbn [snd]. rewrite IH. cbn [add_console files].
    assert (Hne : filepath <> p) by (apply (Hp (request, filepath, row_info)); now left).
    destruct Hw as [-> | [t ->]]; cbn [log_request files]; [done|].
    now rewrite lookup_insert_ne.
Qed.

(** While the pool runs, a path that is no job's destination keeps what
    it held: the jobs write nowhere else. *)
Theorem pool_writes_only_destinations env (o : Options) (jobs : list Job) (w : World)
    (p : string) :
  (1 <= effective_processes o)%Z ->
  ~ In p (map (fun job : Job => snd (fst job)) jobs) ->
  exists results w',
    run_pool env (effective_processes o) jobs w = (Ok results, w') /\
    files w' !! p = files w !! p.
Proof.
  intros Hproc Hp.
  destruct (Pool_ok _ Hproc) as (size & Hsize & Hge).
  unfold run_pool, bind at 1, lift. rewrite Hsize.
  set (order := completion_order size (schedule env) jobs).
  destruct (run_jobs_returns env (length jobs) order 1 w) as (results & w' & Hrun & _).
  exists results, w'. split; [done|].
  pose proof (run_jobs_files env (length jobs) order 1 w p) as Hf.
  rewrite Hrun in Hf. cbn [snd] in Hf. apply Hf.
  intros job Hin <-. apply Hp. apply in_map_iff. exists job. split; [done|].
  eapply Permutation_in; [|exact Hin]. now apply completion_order_perm.
Qed.

(** ** The further properties on sample inputs *)

(** No file at the path; a table without the code column. *)
Lemma load_centroid_data_errors_witness :
  files empty_world !! "centroids.csv" = None /\
  (exists e, load_centroid_data t2m_env "centroids.csv" "001" empty_world
               = (Raise e, empty_world) /\
             exn_class e = "FileNotFoundError") /\
  files sample_folder_world !! "out/a.csv" = Some (FCsv two_rows) /\
  ~ In "CVEGEO" (df_columns two_rows) /\
  load_centroid_data t2m_env "out/a.csv" "001" sample_folder_world
    = (Raise (KeyError "CVEGEO"), sample_folder_world).
Proof.
  assert (H0 : files empty_world !! "centroids.csv" = None) by (vm_compute; reflexivity).
  assert (H1 : files sample_folder_world !! "out/a.csv" = Some (FCsv two_rows))
    by (vm_compute; reflexivity).
  assert (H2 : ~ In "CVEGEO" (df_columns two_rows)).
  { simpl. intros [H|[H|[]]]; discriminate. }
  split; [exact H0|].
  split; [exact (proj1 (load_centroid_data_errors t2m_env "centroids.csv" "001" empty_world) H0)|].
  split; [exact H1|]. split; [exact H2|].
  exact (proj2 (load_centroid_data_errors t2m_env "out/a.csv" "001" sample_folder_world)
           two_rows H1 H2).
Defined.

(** Four centroids, state [001]. *)
Lemma load_centroid_data_keeps_labels_witness :
  files centroid_world !! "centroids.csv" = Some (FCsv centroids) /\
  df_wf centroids /\
  In "CVEGEO" (df_columns centroids) /\
  exists r,
    load_centroid_data t2m_env "centroids.csv" "001" centroid_world = (Ok r, centroid_world) /\
    df_wf r /\
    iterrows r =
      map (fun ir => (fst ir, remove_key "edo" (snd ir)))
          (List.filter (fun ir => has_state "001" (snd ir))
                       (iterrows (with_dtype_str t2m_env "CVEGEO" centroids))).
Proof.
  assert (Hfile : files centroid_world !! "centroids.csv" = Some (FCsv centroids))
    by (vm_compute; reflexivity).
  assert (Hwf : df_wf centroids) by (repeat constructor).
  assert (Hcol : In "CVEGEO" (df_columns centroids)) by (left; reflexivity).
  repeat (split; [assumption|]).
  exact (load_centroid_data_keeps_labels t2m_env "centroids.csv" "001" centroid_world centroids
           Hfile Hwf Hcol).
Defined.

(** A state code of four characters. *)
Lemma load_centroid_data_long_state_witness :
  files centroid_world !! "centroids.csv" = Some (FCsv centroids) /\
  In "CVEGEO" (df_columns centroids) /\
  3 < String.length "0010" /\
  exists r,
    load_centroid_data t2m_env "centroids.csv" "0010" centroid_world
      = (Ok r, centroid_world) /\
    df_len r = 0%nat /\
    df_rows r = [].
Proof.
  assert (Hfile : files centroid_world !! "centroids.csv" = Some (FCsv centroids))
    by (vm_compute; reflexivity).
  assert (Hcol : In "CVEGEO" (df_columns centroids)) by (left; reflexivity).
  assert (Hlen : 3 < String.length "0010") by (simpl; lia).
  repeat (split; [assumption|]).
  exact (load_centroid_data_long_state t2m_env "centroids.csv" "0010" centroid_world centroids
           Hfile Hcol Hlen).
Defined.

(** A response whose [parameter] object is empty. *)
Lemma empty_table_is_silent_success_witness :
  let env := sample_env (fun _ => Ok no_variable_response) [] in
  http_get_json env empty_world "https://power.example/cdmx" = Ok no_variable_response /\
  response_parameter no_variable_response = Some (JObj []) /\
  frame_of_json env (JObj []) = Ok empty_frame /\
  df_empty empty_frame = true /\
  download_function env sample_job empty_world =
    (Ok (sample_row_info, true, None),
     log_request "https://power.example/cdmx" empty_world) /\
  files (log_request "https://power.example/cdmx" empty_world) = files empty_world.
Proof.
  cbv zeta. do 4 (split; [reflexivity|]).
  exact (empty_table_is_silent_success
           (sample_env (fun _ => Ok no_variable_response) [])
           "https://power.example/cdmx" "out/cdmx.csv" sample_row_info empty_world
           no_variable_response (JObj []) empty_frame eq_refl eq_refl eq_refl eq_refl).
Defined.

(** Row metadata without a latitude. *)
Lemma missing_metadata_fails_witness :
  let env := sample_env (fun _ => Ok t2m_response) [] in
  let df := mkDF [("T2M", [Num "21.5"; Num "22.1"])] [Str "20150101"; Str "20150102"] in
  frame_of_json env (JObj [("T2M", JObj [("20150101", JNum "21.5");
                                         ("20150102", JNum "22.1")])]) = Ok df /\
  df_empty df = false /\
  assoc "latitude" no_latitude_row_info = None /\
  exists key,
    In key ["latitude"; "longitude"; "identifier"] /\
    assoc key no_latitude_row_info = None /\
    download_function env
      ("https://power.example/cdmx", "out/cdmx.csv", no_latitude_row_info) empty_world =
      (Ok (no_latitude_row_info, false, Some (exn_msg (KeyError key))),
       log_request "https://power.example/cdmx" empty_world).
Proof.
  cbv zeta. do 3 (split; [reflexivity|]).
  exact (missing_metadata_fails (sample_env (fun _ => Ok t2m_response) [])
           "https://power.example/cdmx" "out/cdmx.csv" no_latitude_row_info empty_world
           t2m_response
           (JObj [("T2M", JObj [("20150101", JNum "21.5"); ("20150102", JNum "22.1")])])
           (mkDF [("T2M", [Num "21.5"; Num "22.1"])] [Str "20150101"; Str "20150102"])
           eq_refl eq_refl eq_refl eq_refl (or_introl eq_refl)).
Defined.

(** A response with a variable named [period] beside [T2M]. *)
Lemma written_file_keeps_every_column_witness :
  let env := sample_env (fun _ => Ok period_response) [] in
  let params := JObj [("T2M", JObj [("20150101", JNum "21.5"); ("20150102", JNum "22.1")]);
                      ("period", JObj [("20150101", JNum "7")])] in
  let df := mkDF [("T2M", [Num "21.5"; Num "22.1"]); ("period", [Num "7"; NaN])]
                 [Str "20150101"; Str "20150102"] in
  response_parameter period_response = Some params /\
  frame_of_json env params = Ok df /\
  df_empty df = false /\
  exists (t : DataFrame) (w' : World),
    download_function env sample_job empty_world = (Ok (sample_row_info, true, None), w') /\
    files w' !! "out/cdmx.csv" = Some (FCsv t) /\
    (exists rest, df_columns t = "identifier" :: "latitude" :: "longitude" :: rest) /\
    (forall c, In c (df_columns t) <->
               In c (df_columns df) \/
               In c ["identifier"; "latitude"; "longitude";
                     date_or_period env (df_index df)]) /\
    (List.NoDup (df_columns df) -> List.NoDup (df_columns t)).
Proof.
  cbv zeta. do 3 (split; [reflexivity|]).
  exact (written_file_keeps_every_column (sample_env (fun _ => Ok period_response) [])
           "https://power.example/cdmx" "out/cdmx.csv" sample_row_info empty_world
           period_response
           (JObj [("T2M", JObj [("20150101", JNum "21.5"); ("20150102", JNum "22.1")]);
                  ("period", JObj [("20150101", JNum "7")])])
           (mkDF [("T2M", [Num "21.5"; Num "22.1"]); ("period", [Num "7"; NaN])]
                 [Str "20150101"; Str "20150102"])
           (Num "19.43") (Num "-99.13") (Str "cdmx")
           eq_refl eq_refl eq_refl eq_refl eq_refl eq_refl eq_refl eq_refl).
Defined.

(** One variable, two daily keys. *)
Lemma written_rows_carry_metadata_witness :
  let env := sample_env (fun _ => Ok t2m_response) [] in
  let params := JObj [("T2M", JObj [("20150101", JNum "21.5"); ("20150102", JNum "22.1")])] in
  let df := mkDF [("T2M", [Num "21.5"; Num "22.1"])] [Str "20150101"; Str "20150102"] in
  response_parameter t2m_response = Some params /\
  frame_of_json env params = Ok df /\
  df_empty df = false /\
  exists (t : DataFrame) (w' : World),
    download_function env sample_job empty_world = (Ok (sample_row_info, true, None), w') /\
    files w' !! "out/cdmx.csv" = Some (FCsv t) /\
    df_index t = range_index (df_len df) /\
    assoc "identifier" (df_data t) = Some (repeat (Str "cdmx") (df_len df)) /\
    assoc "latitude" (df_data t) = Some (repeat (Num "19.43") (df_len df)) /\
    assoc "longitude" (df_data t) = Some (repeat (Num "-99.13") (df_len df)) /\
    (df_wf df -> df_wf t).
Proof.
  cbv zeta. do 3 (split; [reflexivity|]).
  exact (written_rows_carry_metadata (sample_env (fun _ => Ok t2m_response) [])
           "https://power.example/cdmx" "out/cdmx.csv" sample_row_info empty_world
           t2m_response
           (JObj [("T2M", JObj [("20150101", JNum "21.5"); ("20150102", JNum "22.1")])])
           (mkDF [("T2M", [Num "21.5"; Num "22.1"])] [Str "20150101"; Str "20150102"])
           (Num "19.43") (Num "-99.13") (Str "cdmx")
           eq_refl eq_refl eq_refl eq_refl eq_refl eq_refl eq_refl eq_refl).
Defined.

(** The first of the sample locations, daily data: the coordinates and
    the start date come from the row, the end date is the default. *)
Lemma planned_url_witness :
  validate sample_locations sample_options = None /\
  Forall (fun p => brace_free p = true) (parameters sample_options) /\
  plan_row t2m_env sample_options (df_columns sample_locations)
           (formatted_template sample_options) first_label first_row
    = Ok (first_url, "out/idx_0.csv", first_row_info) /\
  exists latitude longitude start end_,
    assoc (lat_col sample_options) first_row = Some latitude /\
    assoc (lon_col sample_options) first_row = Some longitude /\
    date_of_row t2m_env (start_col sample_options) (df_columns sample_locations)
                first_row (start_date sample_options) start /\
    date_of_row t2m_env (end_col sample_options) (df_columns sample_locations)
                first_row (end_date sample_options) end_ /\
    assoc "index" first_row_info = Some first_label /\
    assoc "latitude" first_row_info = Some latitude /\
    assoc "longitude" first_row_info = Some longitude /\
    assoc "start_date" first_row_info = Some (Str start) /\
    assoc "end_date" first_row_info = Some (Str end_) /\
    first_url = "https://power.larc.nasa.gov/api/temporal/" +:+
                temporal_resolution sample_options +:+ "/" +:+
                spatial_resolution sample_options +:+ "?parameters=" +:+
                join "," (parameters sample_options) +:+
                "&community=" +:+ community sample_options +:+
                "&longitude=" +:+ py_str t2m_env longitude +:+
                "&latitude=" +:+ py_str t2m_env latitude +:+
                "&start=" +:+ start +:+ "&end=" +:+ end_ +:+ "&format=JSON".
Proof.
  assert (Hplain : Forall (fun p => brace_free p = true) (parameters sample_options))
    by (repeat constructor).
  assert (Hplan : plan_row t2m_env sample_options (df_columns sample_locations)
                    (formatted_template sample_options) first_label first_row
                  = Ok (first_url, "out/idx_0.csv", first_row_info))
    by (vm_compute; reflexivity).
  split; [reflexivity|]. split; [exact Hplain|]. split; [exact Hplan|].
  exact (planned_url t2m_env sample_locations sample_options first_label first_row
           first_url "out/idx_0.csv" first_row_info eq_refl Hplain Hplan).
Defined.

(** The same row: no identifier column, a relative identifier. *)
Lemma planned_destination_witness :
  plan_row t2m_env sample_options (df_columns sample_locations)
           (formatted_template sample_options) first_label first_row
    = Ok (first_url, "out/idx_0.csv", first_row_info) /\
  exists identifier,
    assoc "identifier" first_row_info = Some identifier /\
    assoc "filename" first_row_info = Some (Str (py_str t2m_env identifier +:+ ".csv")) /\
    (configured (id_col sample_options) (df_columns sample_locations) = None ->
       identifier = Str ("idx_" +:+ py_str t2m_env first_label)) /\
    (startswith_slash (py_str t2m_env identifier) = true ->
       "out/idx_0.csv" = py_str t2m_env identifier +:+ ".csv") /\
    (startswith_slash (py_str t2m_env identifier) = false ->
       "out/idx_0.csv" =
         output_folder sample_options +:+
         (if (String.eqb (output_folder sample_options) "" ||
              endswith_slash (output_folder sample_options))%bool
          then "" else "/") +:+
         py_str t2m_env identifier +:+ ".csv").
Proof.
  assert (Hplan : plan_row t2m_env sample_options (df_columns sample_locations)
                    (formatted_template sample_options) first_label first_row
                  = Ok (first_url, "out/idx_0.csv", first_row_info))
    by (vm_compute; reflexivity).
  split; [exact Hplan|].
  exact (planned_destination t2m_env sample_options (df_columns sample_locations)
           (formatted_template sample_options) first_label first_row
           first_url "out/idx_0.csv" first_row_info Hplan).
Defined.

(** Three locations without an identifier column. *)
Lemma default_names_do_not_collide_witness :
  configured (id_col sample_options) (df_columns sample_locations) = None /\
  plan_rows t2m_env sample_options (df_columns sample_locations)
            (formatted_template sample_options) (iterrows sample_locations)
    = Ok sample_jobs /\
  List.NoDup (map (fun ir => py_str t2m_env (fst ir)) (iterrows sample_locations)) /\
  List.NoDup (map (fun job : Job => snd (fst job)) sample_jobs).
Proof.
  assert (Hplan : plan_rows t2m_env sample_options (df_columns sample_locations)
                    (formatted_template sample_options) (iterrows sample_locations)
                  = Ok sample_jobs) by (vm_compute; reflexivity).
  assert (Hlabels : List.NoDup (map (fun ir => py_str t2m_env (fst ir))
                                    (iterrows sample_locations))).
  { vm_compute.
    repeat (constructor; [simpl; intros H; repeat (destruct H as [H|H]; [discriminate H|]);
                          exact H|]).
    constructor. }
  split; [reflexivity|]. split; [exact Hplan|]. split; [exact Hlabels|].
  exact (default_names_do_not_collide t2m_env sample_options (df_columns sample_locations)
           (formatted_template sample_options) (iterrows sample_locations) sample_jobs
           eq_refl Hplan Hlabels).
Defined.

(** One location whose start-date cell reads [enero]. *)
Lemma unparsable_date_aborts_call_witness :
  validate bad_date_locations sample_options = None /\
  files empty_world !! output_folder sample_options = None /\
  In (Num "0", [("latitude", Num "19.43"); ("longitude", Num "-99.13");
                ("inicio", Str "enero")])
     (iterrows bad_date_locations) /\
  configured (start_col sample_options) (df_columns bad_date_locations) = Some "inicio" /\
  to_datetime_strftime t2m_env (Str "enero")
    = Raise (ValueError "time data does not match format") /\
  exists e' w',
    download_nasa_power_data t2m_env bad_date_locations sample_options empty_world
      = (Raise e', w') /\
    net_log w' = net_log empty_world /\
    files w' = files empty_world /\
    dirs w' = {[output_folder sample_options]} ∪ dirs empty_world.
Proof.
  assert (Hfile : files empty_world !! output_folder sample_options = None)
    by (vm_compute; reflexivity).
  assert (Hin : In (Num "0", [("latitude", Num "19.43"); ("longitude", Num "-99.13");
                              ("inicio", Str "enero")])
                   (iterrows bad_date_locations)) by (left; reflexivity).
  split; [reflexivity|]. split; [exact Hfile|]. split; [exact Hin|].
  split; [reflexivity|]. split; [reflexivity|].
  exact (unparsable_date_aborts_call t2m_env bad_date_locations sample_options empty_world
           (Num "0")
           [("latitude", Num "19.43"); ("longitude", Num "-99.13"); ("inicio", Str "enero")]
           "inicio" (Str "enero") (ValueError "time data does not match format")
           eq_refl Hfile eq_refl Hin (or_introl eq_refl) eq_refl eq_refl).
Defined.

(** A location table without rows. *)
Lemma empty_table_raises_key_error_witness :
  validate no_locations sample_options = None /\
  df_index no_locations = [] /\
  files empty_world !! output_folder sample_options = None /\
  (1 <= processes sample_options)%Z /\
  exists w',
    download_nasa_power_data t2m_env no_locations sample_options empty_world
      = (Raise (KeyError "success"), w') /\
    net_log w' = net_log empty_world /\
    files w' = files empty_world /\
    dirs w' = {[output_folder sample_options]} ∪ dirs empty_world.
Proof.
  assert (Hfile : files empty_world !! output_folder sample_options = None)
    by (vm_compute; reflexivity).
  assert (Hproc : (1 <= processes sample_options)%Z) by (vm_compute; discriminate).
  split; [reflexivity|]. split; [reflexivity|]. split; [exact Hfile|]. split; [exact Hproc|].
  exact (empty_table_raises_key_error t2m_env no_locations sample_options empty_world
           eq_refl eq_refl Hfile eq_refl Hproc).
Defined.

(** The three sample jobs on a pool of five. *)
Lemma pool_requests_each_job_once_witness :
  (1 <= effective_processes sample_options)%Z /\
  exists results w' log,
    run_pool t2m_env (effective_processes sample_options) sample_jobs empty_world
      = (Ok results, w') /\
    net_log w' = net_log empty_world ++ log /\
    Permutation log (map (fun job : Job => fst (fst job)) sample_jobs) /\
    dirs w' = dirs empty_world.
Proof.
  assert (Hproc : (1 <= effective_processes sample_options)%Z) by (vm_compute; discriminate).
  split; [exact Hproc|].
  exact (pool_requests_each_job_once t2m_env sample_options sample_jobs empty_world Hproc).
Defined.

(** The three sample locations on a pool of one. *)
Lemma single_worker_keeps_order_witness :
  plan_rows t2m_env single_worker_options (df_columns sample_locations)
            (formatted_template single_worker_options) (iterrows sample_locations)
    = Ok sample_jobs /\
  effective_processes single_worker_options = 1%Z /\
  exists results w',
    run_pool t2m_env (effective_processes single_worker_options) sample_jobs empty_world
      = (Ok results, w') /\
    map (assoc "index") results = map Some (df_index sample_locations).
Proof.
  assert (Hplan : plan_rows t2m_env single_worker_options (df_columns sample_locations)
                    (formatted_template single_worker_options) (iterrows sample_locations)
                  = Ok sample_jobs) by (vm_compute; reflexivity).
  split; [exact Hplan|]. split; [reflexivity|].
  exact (single_worker_keeps_order t2m_env sample_locations single_worker_options
           (formatted_template single_worker_options) sample_jobs empty_world
           Hplan eq_refl).
Defined.

(** The two sample results, reduced twice with consolidation. *)
Lemma reduce_results_repeatable_witness :
  Forall has_fields sample_results /\
  fst (reduce_results sample_results "out" true
         (snd (reduce_results sample_results "out" true sample_folder_world))) =
  fst (reduce_results sample_results "out" true sample_folder_world).
Proof.
  assert (Hf : Forall has_fields sample_results).
  { repeat constructor; eexists; reflexivity. }
  split; [exact Hf|].
  exact (reduce_results_repeatable sample_results "out" true sample_folder_world Hf).
Defined.

(** The three sample locations. *)
Lemma summary_table_columns_witness :
  plan_rows t2m_env sample_options (df_columns sample_locations)
            (formatted_template sample_options) (iterrows sample_locations)
    = Ok sample_jobs /\
  iterrows sample_locations <> [] /\
  (1 <= effective_processes sample_options)%Z /\
  exists results w',
    run_pool t2m_env (effective_processes sample_options) sample_jobs empty_world
      = (Ok results, w') /\
    df_columns (df_of_records results) = summary_columns /\
    df_len (df_of_records results) = length (iterrows sample_locations).
Proof.
  assert (Hplan : plan_rows t2m_env sample_options (df_columns sample_locations)
                    (formatted_template sample_options) (iterrows sample_locations)
                  = Ok sample_jobs) by (vm_compute; reflexivity).
  assert (Hne : iterrows sample_locations <> []) by (vm_compute; discriminate).
  assert (Hproc : (1 <= effective_processes sample_options)%Z) by (vm_compute; discriminate).
  split; [exact Hplan|]. split; [exact Hne|]. split; [exact Hproc|].
  exact (summary_table_columns t2m_env sample_options (df_columns sample_locations)
           (formatted_template sample_options) (iterrows sample_locations) sample_jobs
           empty_world Hplan Hne Hproc).
Defined.

(** A [properties] list that holds the string [parameter]: the test
    passes, the indexing raises. *)
Lemma response_without_parameter_outcome_witness :
  let env := sample_env (fun _ => Ok listed_parameter_response) [] in
  http_get_json env empty_world "https://power.example/cdmx" = Ok listed_parameter_response /\
  response_parameter listed_parameter_response = None /\
  exists error,
    download_function env sample_job empty_world =
      (Ok (sample_row_info, lacks_parameter listed_parameter_response, error),
       log_request "https://power.example/cdmx" empty_world) /\
    (error = None <-> lacks_parameter listed_parameter_response = true).
Proof.
  cbv zeta. do 2 (split; [reflexivity|]).
  exact (response_without_parameter_outcome
           (sample_env (fun _ => Ok listed_parameter_response) [])
           "https://power.example/cdmx" "out/cdmx.csv" sample_row_info empty_world
           listed_parameter_response eq_refl eq_refl).
Defined.

(** A file beside the destinations of the three sample jobs. *)
Lemma pool_writes_only_destinations_witness :
  (1 <= effective_processes sample_options)%Z /\
  ~ In "out/notes.txt" (map (fun job : Job => snd (fst job)) sample_jobs) /\
  exists results w',
    run_pool t2m_env (effective_processes sample_options) sample_jobs empty_world
      = (Ok results, w') /\
    files w' !! "out/notes.txt" = files empty_world !! "out/notes.txt".
Proof.
  assert (Hproc : (1 <= effective_processes sample_options)%Z) by (vm_compute; discriminate).
  assert (Hp : ~ In "out/notes.txt" (map (fun job : Job => snd (fst job)) sample_jobs)).
  { vm_compute. intros H. repeat (destruct H as [H|H]; [discriminate H|]). exact H. }
  split; [exact Hproc|]. split; [exact Hp|].
  exact (pool_writes_only_destinations t2m_env sample_options sample_jobs empty_world
           "out/notes.txt" Hproc Hp).
Defined.
